(** * Finance-operations processor: a shallow embedding of
    [cloud-run/finance-operations/main.py] and the properties of its
    job pipeline (fetch, execute, parse, store, notify, cleanup).

    Python values are a small universe [pyval] (what [json.loads] and
    [request.get_json] can return); Python dictionaries are association
    lists in insertion order; a [str] is a [string] whose characters are
    code points below 256.  Effects (the local file system, the calls to
    the artifact store, to [subprocess.run] and to [requests.post]) are
    threaded through a state-and-exception monad; everything outside the
    repository (storage client, child process, HTTP peer, clock,
    [json.loads]) is a field of the record [env]. *)

From Stdlib Require Import ZArith String Ascii List Lia Bool.
From stdpp Require Import base strings gmap.
Import ListNotations.
Open Scope string_scope.
Open Scope list_scope.
Open Scope Z_scope.

(** ** Python strings *)

Module PyStr.

Definition NL : ascii := ascii_of_N 10.
Definition nl : string := String NL EmptyString.

(** [str.isspace] on one character, for code points below 256:
    TAB..CR, FS..US, SPACE, NEL and NBSP. *)
Definition isspace (c : ascii) : bool :=
  let n := N_of_ascii c in
  ((9 <=? n) && (n <=? 13) || (28 <=? n) && (n <=? 32)
   || (n =? 133) || (n =? 160))%N.

Fixpoint lstrip (s : string) : string :=
  match s with
  | EmptyString => EmptyString
  | String c s' => if isspace c then lstrip s' else s
  end.

Fixpoint rstrip (s : string) : string :=
  match s with
  | EmptyString => EmptyString
  | String c s' =>
      match rstrip s' with
      | EmptyString => if isspace c then EmptyString else String c EmptyString
      | r => String c r
      end
  end.

(** [s.strip()] *)
Definition strip (s : string) : string := rstrip (lstrip s).

(** [s.split(sep)] for a one-character separator: never empty. *)
Fixpoint split (sep : ascii) (s : string) : list string :=
  match s with
  | EmptyString => [EmptyString]
  | String c s' =>
      if Ascii.eqb c sep then EmptyString :: split sep s'
      else match split sep s' with
           | hd :: tl => String c hd :: tl
           | [] => [String c EmptyString]
           end
  end.

(** [l[-1]] on the result of a split. *)
Definition last_item (l : list string) : string := List.last l EmptyString.

(** [bool(s)] *)
Definition nonempty (s : string) : bool :=
  match s with
  | EmptyString => false
  | String _ _ => true
  end.

Definition startswith (c : ascii) (s : string) : bool :=
  match s with
  | String c' _ => Ascii.eqb c' c
  | EmptyString => false
  end.

Fixpoint endswith (c : ascii) (s : string) : bool :=
  match s with
  | EmptyString => false
  | String c' EmptyString => Ascii.eqb c' c
  | String _ s' => endswith c s'
  end.

(** Decimal text of an integer, as [str(n)] prints it. *)
Definition digit_char (d : Z) : ascii := ascii_of_N (Z.to_N (48 + d)).

Fixpoint digits_of (fuel : nat) (n : Z) (acc : string) : string :=
  match fuel with
  | O => acc
  | S fuel' =>
      let acc' := String (digit_char (n mod 10)) acc in
      if n <? 10 then acc' else digits_of fuel' (n / 10) acc'
  end.

Definition str_of_Z (z : Z) : string :=
  let n := Z.abs z in
  let body := digits_of (S (Z.to_nat (Z.log2 n))) n EmptyString in
  if z <? 0 then String "-" body else body.

(** Writing aid: a text with every apostrophe turned into a double
    quote, so that JSON documents can be written as literals. *)
Fixpoint dq (s : string) : string :=
  match s with
  | EmptyString => EmptyString
  | String c s' =>
      String (if Ascii.eqb c "'" then ascii_of_N 34 else c) (dq s')
  end.

(** The text made of the lines [l], and of the lines [l] each closed
    by a line feed. *)
Fixpoint join (l : list string) : string :=
  match l with
  | [] => EmptyString
  | [x] => x
  | x :: l' => x +:+ String NL (join l')
  end.

Fixpoint closed (l : list string) : string :=
  match l with
  | [] => EmptyString
  | x :: l' => x +:+ String NL (closed l')
  end.

Fixpoint has_nl (s : string) : bool :=
  match s with
  | EmptyString => false
  | String c s' => Ascii.eqb c NL || has_nl s'
  end.

(** Only characters that [strip] removes. *)
Fixpoint blank (s : string) : bool :=
  match s with
  | EmptyString => true
  | String c s' => isspace c && blank s'
  end.

End PyStr.

(** ** Python values and exceptions *)

(** A [float]: not-a-number, an infinity, or the finite value
    [m * 2^e] ([m] odd or zero, so that equal floats are equal terms; the
    sign of a zero is not kept). *)
Inductive pyfloat :=
| FNan
| FInf (negative : bool)
| FFin (m e : Z).

#[warnings="-register-all"]
Inductive pyval :=
| PNone
| PBool (b : bool)
| PInt (z : Z)
| PFloat (f : pyfloat)
| PStr (s : string)
| PList (l : list pyval)
| PDict (d : list (string * pyval)).

Abbreviation dict := (list (string * pyval)).

(** An exception object, instance of [Exception] (what [except
    Exception] and a bare [except] both catch).
    [subprocess.TimeoutExpired] carries the output captured before the
    child was killed; every other exception is its class name and its
    [str()]. *)
Inductive exn :=
| Exception (cls msg : string)
| TimeoutExpired (cmd : string) (timeout : Z) (output stderr : option string).

Inductive result (A : Type) :=
| Return (a : A)
| Raise (e : exn).
Arguments Return {A} a.
Arguments Raise {A} e.

Module Py.
Import PyStr.

(** [str(e)] *)
Definition exn_str (e : exn) : string :=
  match e with
  | Exception _ msg => msg
  | TimeoutExpired cmd timeout _ _ =>
      "Command '" +:+ cmd +:+ "' timed out after "
        +:+ str_of_Z timeout +:+ " seconds"
  end.

Definition type_name (v : pyval) : string :=
  match v with
  | PNone => "NoneType"
  | PBool _ => "bool"
  | PInt _ => "int"
  | PFloat _ => "float"
  | PStr _ => "str"
  | PList _ => "list"
  | PDict _ => "dict"
  end.

(** [bool(v)] *)
Definition truthy (v : pyval) : bool :=
  match v with
  | PNone => false
  | PBool b => b
  | PInt z => negb (z =? 0)
  | PFloat (FFin m _) => negb (m =? 0)
  | PFloat _ => true
  | PStr EmptyString => false
  | PStr _ => true
  | PList [] => false
  | PList _ => true
  | PDict [] => false
  | PDict _ => true
  end.

(** Lookup of a key: the first binding is the live one. *)
Fixpoint dict_get (k : string) (d : dict) : option pyval :=
  match d with
  | [] => None
  | (k', v) :: d' => if String.eqb k' k then Some v else dict_get k d'
  end.

(** [d[k] = v]: an existing key keeps its place. *)
Fixpoint dict_set (k : string) (v : pyval) (d : dict) : dict :=
  match d with
  | [] => [(k, v)]
  | (k', v') :: d' =>
      if String.eqb k' k then (k', v) :: d' else (k', v') :: dict_set k v d'
  end.

Definition no_attribute (v : pyval) (attr : string) : exn :=
  Exception "AttributeError"
    ("'" +:+ type_name v +:+ "' object has no attribute '" +:+ attr +:+ "'").

(** [v.get(k, default)] *)
Definition get_default (v : pyval) (k : string) (default : pyval)
  : result pyval :=
  match v with
  | PDict d =>
      Return (match dict_get k d with Some x => x | None => default end)
  | _ => Raise (no_attribute v "get")
  end.

(** [v.get(k)] *)
Definition get (v : pyval) (k : string) : result pyval :=
  get_default v k PNone.

(** [v[k]] for a string key [k] (messages of CPython 3.11). *)
Definition subscript (v : pyval) (k : string) : result pyval :=
  match v with
  | PDict d =>
      match dict_get k d with
      | Some x => Return x
      | None => Raise (Exception "KeyError" ("'" +:+ k +:+ "'"))
      end
  | PStr _ =>
      Raise (Exception "TypeError" "string indices must be integers, not 'str'")
  | PList _ =>
      Raise (Exception "TypeError"
               "list indices must be integers or slices, not str")
  | _ =>
      Raise (Exception "TypeError"
               ("'" +:+ type_name v +:+ "' object is not subscriptable"))
  end.

(** [v.strip()] *)
Definition strip (v : pyval) : result string :=
  match v with
  | PStr s => Return (PyStr.strip s)
  | _ => Raise (no_attribute v "strip")
  end.

(** [s.split('\n')[-1]] *)
Definition last_line (s : string) : string := last_item (split NL s).

(** [str(v)], as an f-string prints [v]; the text of a float or of a
    container is left to [other]. *)
Definition format (other : pyval -> string) (v : pyval) : string :=
  match v with
  | PStr s => s
  | PNone => "None"
  | PBool true => "True"
  | PBool false => "False"
  | PInt z => str_of_Z z
  | _ => other v
  end.

(** [os.path.join(a, b)] on POSIX for a [str] first argument. *)
Definition os_path_join (a : string) (b : pyval) : result string :=
  match b with
  | PStr b =>
      Return (if startswith "/" b then b
              else if (match a with EmptyString => true | _ => false end)
                      || endswith "/" a
                   then a +:+ b
                   else a +:+ "/" +:+ b)
  | _ =>
      Raise (Exception "TypeError"
               ("join() argument must be str, bytes, or os.PathLike object, not '"
                  +:+ type_name b +:+ "'"))
  end.

End Py.

(** ** A JSON decoder

    [json.loads] belongs to the Python library, so the service below
    takes it from its environment, and what is proved of the service
    holds for every decoder.  [Json.loads] is a decoder to run the
    service on concrete outputs: the grammar CPython's scanner accepts
    ([NaN] and the infinities included, floats rounded to the nearest
    binary64), with [None] where [json.loads] raises.  A [\u] escape above
    U+00FF has no character in [string] and is refused; the depth of
    nesting is not bounded. *)

Module Json.
Import PyStr Py.

Definition is_ws (c : ascii) : bool :=
  let n := N_of_ascii c in ((n =? 32) || (n =? 9) || (n =? 10) || (n =? 13))%N.

Fixpoint skip_ws (s : string) : string :=
  match s with
  | String c s' => if is_ws c then skip_ws s' else s
  | EmptyString => EmptyString
  end.

Definition is_digit (c : ascii) : bool :=
  let n := N_of_ascii c in ((48 <=? n) && (n <=? 57))%N.

Definition digit_val (c : ascii) : Z := Z.of_N (N_of_ascii c) - 48.

Definition hex_val (c : ascii) : option Z :=
  let n := Z.of_N (N_of_ascii c) in
  if (48 <=? n) && (n <=? 57) then Some (n - 48)
  else if (65 <=? n) && (n <=? 70) then Some (n - 55)
  else if (97 <=? n) && (n <=? 102) then Some (n - 87)
  else None.

(** The longest run of digits: its value, its length and the rest. *)
Fixpoint take_digits (s : string) (acc : Z) (len : Z) : Z * Z * string :=
  match s with
  | String c s' =>
      if is_digit c then take_digits s' (10 * acc + digit_val c) (len + 1)
      else (acc, len, s)
  | EmptyString => (acc, len, s)
  end.

Fixpoint strip_zero_bits (p : positive) (e : Z) : pyfloat :=
  match p with
  | xO p' => strip_zero_bits p' (e + 1)
  | _ => FFin (Zpos p) e
  end.

(** The binary64 nearest to [n / d] (ties to even) for [n, d > 0]. *)
Definition nearest_double (negative : bool) (n d : Z) : pyfloat :=
  let l := Z.log2 n - Z.log2 d in
  let reaches := if 0 <=? l then d * 2 ^ l <=? n else d <=? n * 2 ^ (- l) in
  let e0 := if reaches then l else l - 1 in
  let ex := Z.max (e0 - 52) (-1074) in
  let num := if 0 <=? ex then n else n * 2 ^ (- ex) in
  let den := if 0 <=? ex then d * 2 ^ ex else d in
  let q := num / den in
  let r := num mod den in
  let q' := if (den <? 2 * r) || ((den =? 2 * r) && Z.odd q) then q + 1 else q in
  if 2 ^ 1024 <=? q' * 2 ^ ex then FInf negative
  else match q' with
       | Zpos p =>
           match strip_zero_bits p ex with
           | FFin m e => FFin (if negative then - m else m) e
           | f => f
           end
       | _ => FFin 0 0
       end.

(** [float(text)] for the decimal [mant * 10^k]. *)
Definition float_of_decimal (negative : bool) (mant k : Z) : pyfloat :=
  if mant =? 0 then FFin 0 0
  else if 0 <=? k then nearest_double negative (mant * 10 ^ k) 1
       else nearest_double negative mant (10 ^ (- k)).

(** The number at the head of [s]: an optional minus sign, then a
    single zero or a run of digits that does not start with zero, then
    a fraction (a dot and at least one digit) if there is one, then an
    exponent ([e] or [E], an optional sign, at least one digit) if
    there is one.  A literal with a fraction or an exponent is a
    float; an integer literal of more than 4300 digits is refused. *)
Definition scan_number (s : string) : option (pyval * string) :=
  let '(negative, s1) :=
    match s with
    | String "-" s' => (true, s')
    | _ => (false, s)
    end in
  match s1 with
  | String c s2 =>
      if is_digit c then
        let '(ipart, ilen, s3) :=
          if Ascii.eqb c "0" then (0, 1, s2) else take_digits s1 0 0 in
        let '(fpart, flen, s4) :=
          match s3 with
          | String "." t =>
              let '(f, n, t') := take_digits t 0 0 in
              if 0 <? n then (f, n, t') else (0, 0, s3)
          | _ => (0, 0, s3)
          end in
        let exponent :=
          match s4 with
          | String e t =>
              if Ascii.eqb e "e" || Ascii.eqb e "E" then
                let '(eneg, t1) :=
                  match t with
                  | String "-" t' => (true, t')
                  | String "+" t' => (false, t')
                  | _ => (false, t)
                  end in
                let '(x, n, t2) := take_digits t1 0 0 in
                if 0 <? n then Some (if eneg then - x else x, t2) else None
              else None
          | EmptyString => None
          end in
        match exponent with
        | Some (x, s5) =>
            Some (PFloat (float_of_decimal negative
                            (ipart * 10 ^ flen + fpart) (x - flen)), s5)
        | None =>
            if 0 <? flen then
              Some (PFloat (float_of_decimal negative
                              (ipart * 10 ^ flen + fpart) (- flen)), s4)
            else if 4300 <? ilen then None
            else Some (PInt (if negative then - ipart else ipart), s4)
        end
      else None
  | EmptyString => None
  end.

(** Removes [prefix] from the head of [s]. *)
Fixpoint eat (prefix s : string) : option string :=
  match prefix, s with
  | EmptyString, _ => Some s
  | String a p', String b s' => if Ascii.eqb a b then eat p' s' else None
  | String _ _, EmptyString => None
  end.

Definition hex4 (s : string) : option (Z * string) :=
  match s with
  | String a (String b (String c (String d rest))) =>
      match hex_val a, hex_val b, hex_val c, hex_val d with
      | Some x, Some y, Some z, Some w =>
          Some (((x * 16 + y) * 16 + z) * 16 + w, rest)
      | _, _, _, _ => None
      end
  | _ => None
  end.

(** The body of a string literal, after its opening quote. *)
Fixpoint scan_string (fuel : nat) (s : string) : option (string * string) :=
  match fuel with
  | O => None
  | S fuel' =>
      match s with
      | EmptyString => None
      | String c rest =>
          let n := N_of_ascii c in
          if (n =? 34)%N then Some (EmptyString, rest)
          else if (n <? 32)%N then None
          else if (n =? 92)%N then
            match rest with
            | String e rest' =>
                let plain (x : N) :=
                  match scan_string fuel' rest' with
                  | Some (body, r) => Some (String (ascii_of_N x) body, r)
                  | None => None
                  end in
                let m := N_of_ascii e in
                if (m =? 34)%N then plain 34%N
                else if (m =? 92)%N then plain 92%N
                else if (m =? 47)%N then plain 47%N
                else if (m =? 98)%N then plain 8%N
                else if (m =? 102)%N then plain 12%N
                else if (m =? 110)%N then plain 10%N
                else if (m =? 114)%N then plain 13%N
                else if (m =? 116)%N then plain 9%N
                else if (m =? 117)%N then
                  match hex4 rest' with
                  | Some (u, r) =>
                      if u <? 256 then
                        match scan_string fuel' r with
                        | Some (body, r') =>
                            Some (String (ascii_of_N (Z.to_N u)) body, r')
                        | None => None
                        end
                      else None
                  | None => None
                  end
                else None
            | EmptyString => None
            end
          else
            match scan_string fuel' rest with
            | Some (body, r) => Some (String c body, r)
            | None => None
            end
      end
  end.

Definition scan_str (s : string) : option (string * string) :=
  scan_string (S (String.length s)) s.

(** [scan_once]: the value at the head of [s].  [scan_members] reads
    an object from a key on, [scan_items] an array from an item on. *)
Fixpoint scan_once (fuel : nat) (s : string) : option (pyval * string) :=
  match fuel with
  | O => None
  | S fuel' =>
      match s with
      | EmptyString => None
      | String c rest =>
          let n := N_of_ascii c in
          if (n =? 34)%N then
            match scan_str rest with
            | Some (body, r) => Some (PStr body, r)
            | None => None
            end
          else if (n =? 123)%N then
            match skip_ws rest with
            | String "}" r => Some (PDict [], r)
            | r => scan_members fuel' [] r
            end
          else if (n =? 91)%N then
            match skip_ws rest with
            | String "]" r => Some (PList [], r)
            | r => scan_items fuel' [] r
            end
          else
            match eat "null" s, eat "true" s, eat "false" s with
            | Some r, _, _ => Some (PNone, r)
            | _, Some r, _ => Some (PBool true, r)
            | _, _, Some r => Some (PBool false, r)
            | None, None, None =>
                match scan_number s with
                | Some out => Some out
                | None =>
                    match eat "NaN" s, eat "Infinity" s, eat "-Infinity" s with
                    | Some r, _, _ => Some (PFloat FNan, r)
                    | _, Some r, _ => Some (PFloat (FInf false), r)
                    | _, _, Some r => Some (PFloat (FInf true), r)
                    | None, None, None => None
                    end
                end
            end
      end
  end
with scan_members (fuel : nat) (acc : dict) (s : string)
  : option (pyval * string) :=
  match fuel with
  | O => None
  | S fuel' =>
      match s with
      | String c rest =>
          if (N_of_ascii c =? 34)%N then
            match scan_str rest with
            | Some (key, r) =>
                match skip_ws r with
                | String ":" r1 =>
                    match scan_once fuel' (skip_ws r1) with
                    | Some (v, r2) =>
                        let acc' := dict_set key v acc in
                        match skip_ws r2 with
                        | String "}" r3 => Some (PDict acc', r3)
                        | String "," r3 => scan_members fuel' acc' (skip_ws r3)
                        | _ => None
                        end
                    | None => None
                    end
                | _ => None
                end
            | None => None
            end
          else None
      | EmptyString => None
      end
  end
with scan_items (fuel : nat) (acc : list pyval) (s : string)
  : option (pyval * string) :=
  match fuel with
  | O => None
  | S fuel' =>
      match scan_once fuel' s with
      | Some (v, r) =>
          match skip_ws r with
          | String "]" r1 => Some (PList (acc ++ [v]), r1)
          | String "," r1 => scan_items fuel' (acc ++ [v]) (skip_ws r1)
          | _ => None
          end
      | None => None
      end
  end.

(** [json.loads(s)]: one value, white space around it, nothing else. *)
Definition loads (s : string) : option pyval :=
  let s0 := skip_ws s in
  match scan_once (2 * String.length s0 + 2) s0 with
  | Some (v, r) =>
      match skip_ws r with
      | EmptyString => Some v
      | _ => None
      end
  | None => None
  end.

(** The decoder as the service calls it (the message of the error is
    never read: the service drops it). *)
Definition loads_or_raise (s : string) : result pyval :=
  match loads s with
  | Some v => Return v
  | None => Raise (Exception "JSONDecodeError" "Expecting value")
  end.

End Json.

(** ** The machine: local files, the handler's local variables, and the
    calls made to the outside *)

Inductive event :=
| Fetch (storage_path : pyval) (dest : string)
| Spawn (script input : string) (execution_id : pyval)
| Upload (path blob_path : string)
| Post (url payload : pyval).

Record machine := Machine {
  fs : gset string;
  frame : dict;
  trace : list event
}.

(** A computation may change the machine and then return or raise; what
    it did before raising stays done. *)
Definition M (A : Type) : Type := machine -> result A * machine.

Definition ret {A} (a : A) : M A := fun m => (Return a, m).

Definition raise {A} (e : exn) : M A := fun m => (Raise e, m).

Definition bind {A B} (c : M A) (k : A -> M B) : M B :=
  fun m =>
    match c m with
    | (Return a, m') => k a m'
    | (Raise e, m') => (Raise e, m')
    end.

(** [try: c  except Exception as e: h e] *)
Definition try_except {A} (c : M A) (h : exn -> M A) : M A :=
  fun m =>
    match c m with
    | (Return a, m') => (Return a, m')
    | (Raise e, m') => h e m'
    end.

Definition lift {A} (r : result A) : M A := fun m => (r, m).

Definition emit (ev : event) : M unit :=
  fun m => (Return tt, Machine (fs m) (frame m) (trace m ++ [ev])).

Definition set_fs (f : gset string -> gset string) : M unit :=
  fun m => (Return tt, Machine (f (fs m)) (frame m) (trace m)).

(** [name = c]: the local variable is bound once [c] has returned. *)
Definition assign (name : string) (c : M pyval) : M pyval :=
  fun m =>
    match c m with
    | (Return v, m') =>
        (Return v, Machine (fs m') (Py.dict_set name v (frame m')) (trace m'))
    | (Raise e, m') => (Raise e, m')
    end.

(** [locals()] *)
Definition locals : M dict := fun m => (Return (frame m), m).

(** [os.path.exists(path)] *)
Definition os_path_exists (path : string) : M bool :=
  fun m => (Return (bool_decide (path ∈ fs m)), m).

Declare Scope monad_scope.
Delimit Scope monad_scope with monad.
Notation "x <- c ;; k" := (bind c (fun x => k))
  (at level 100, c at next level, right associativity) : monad_scope.
Notation "c ;; k" := (bind c (fun _ => k))
  (at level 100, right associativity) : monad_scope.
Open Scope monad_scope.

(** ** The environment of the service *)

(** What a launched script does: it may fail to start; otherwise it
    needs [duration] seconds, leaves the local files as [effect] says,
    and on its own exit has [returncode], [stdout] and [stderr]; when it
    is killed at the deadline, [captured] is the output read so far. *)
Record child := Child {
  spawn_error : option exn;
  duration : Z;
  returncode : Z;
  stdout : string;
  stderr : string;
  captured : option string * option string;
  effect : gset string -> gset string
}.

(** The result of [blob.download_to_filename]: on a failure the client
    library may or may not have removed the destination file. *)
Inductive fetched :=
| Fetched
| FetchFailed (e : exn) (dest_kept : bool).

Record env := Env {
  request_json : result pyval;            (* request.get_json() *)
  json_loads : string -> result pyval;    (* json.loads *)
  now_iso : string;                       (* datetime.now().isoformat() *)
  now_stamp : string;                     (* strftime('%Y%m%d_%H%M%S') *)
  str_other : pyval -> string;            (* str() of floats and containers *)
  storage_bucket : option exn;            (* storage_client.bucket(name) *)
  storage_blob : pyval -> option exn;     (* bucket.blob(name) *)
  temp_file : result string;              (* NamedTemporaryFile(..).name *)
  download : pyval -> string -> fetched;  (* blob.download_to_filename *)
  run_child : string -> string -> pyval -> child;
  upload_from_filename : string -> string -> option exn;
  signed_url : string -> result string;   (* blob.generate_signed_url *)
  getsize : string -> result Z;           (* os.path.getsize *)
  http_post : pyval -> pyval -> result Z; (* requests.post(..).status_code *)
  unlink_error : string -> option exn     (* a refusal of os.unlink *)
}.

Record response := Response {
  body : pyval;
  status_code : Z
}.

(** ** The service ([main.py]) *)

Section Service.

Variable E : env.

Definition or_raise (o : option exn) : M unit :=
  match o with
  | Some e => raise e
  | None => ret tt
  end.

(** [tempfile.NamedTemporaryFile(mode='w+', suffix='.csv', delete=False)]:
    the file exists from here on. *)
Definition NamedTemporaryFile : M string :=
  name <- lift (temp_file E) ;;
  set_fs (fun files => {[name]} ∪ files) ;;
  ret name.

Definition download_to_filename (storage_path : pyval) (dest : string)
  : M unit :=
  emit (Fetch storage_path dest) ;;
  match download E storage_path dest with
  | Fetched => ret tt
  | FetchFailed e dest_kept =>
      (if dest_kept then ret tt else set_fs (fun files => files ∖ {[dest]})) ;;
      raise e
  end.

(** [os.unlink(path)] *)
Definition os_unlink (path : string) : M unit :=
  or_raise (unlink_error E path) ;;
  present <- os_path_exists path ;;
  if present then set_fs (fun files => files ∖ {[path]})
  else raise (Exception "FileNotFoundError"
                ("[Errno 2] No such file or directory: '" +:+ path +:+ "'")).

(** [subprocess.run(['python', script], cwd=.., env=.., capture_output=True,
    text=True, timeout=timeout)] *)
Definition subprocess_run (script input : string) (execution_id : pyval)
    (timeout : Z) : M child :=
  emit (Spawn script input execution_id) ;;
  let c := run_child E script input execution_id in
  match spawn_error c with
  | Some e => raise e
  | None =>
      set_fs (effect c) ;;
      if timeout <? duration c then
        raise (TimeoutExpired ("['python', '" +:+ script +:+ "']") timeout
                 (fst (captured c)) (snd (captured c)))
      else ret c
  end.

(** [requests.post(url, json=payload, headers=.., timeout=30).status_code] *)
Definition requests_post (url payload : pyval) : M Z :=
  emit (Post url payload) ;;
  lift (http_post E url payload).

(** [download_file_from_storage] (lines 27-42) *)
Definition download_file_from_storage (file_reference : pyval) : M string :=
  try_except
    (or_raise (storage_bucket E) ;;
     storage_path <- lift (Py.subscript file_reference "storagePath") ;;
     or_raise (storage_blob E storage_path) ;;
     temp_file_name <- NamedTemporaryFile ;;
     download_to_filename storage_path temp_file_name ;;
     ret temp_file_name)
    (fun e => raise e).

(** [upload_result_to_storage] (lines 44-74) *)
Definition upload_result_to_storage (file_path : string)
    (execution_id : pyval) : M pyval :=
  try_except
    (or_raise (storage_bucket E) ;;
     let timestamp := now_stamp E in
     let filename :=
       Py.format (str_other E) execution_id +:+ "_" +:+ timestamp
         +:+ "_result.csv" in
     let blob_path := "finance-operations/results/" +:+ filename in
     or_raise (storage_blob E (PStr blob_path)) ;;
     emit (Upload file_path blob_path) ;;
     or_raise (upload_from_filename E file_path blob_path) ;;
     download_url <- lift (signed_url E blob_path) ;;
     size <- lift (getsize E file_path) ;;
     ret (PDict [("storagePath", PStr blob_path);
                 ("downloadUrl", PStr download_url);
                 ("filename", PStr filename);
                 ("originalName", PStr ("result_" +:+ timestamp +:+ ".csv"));
                 ("size", PInt size)]))
    (fun e => raise e).

(** [execute_script] (lines 76-131) *)
Definition execute_script (script_path : pyval) (input_file_path : string)
    (execution_id : pyval) : M pyval :=
  try_except
    (let script_dir := "/app/scripts" in
     full_script_path <- lift (Py.os_path_join script_dir script_path) ;;
     present <- os_path_exists full_script_path ;;
     (if negb present then
        raise (Exception "FileNotFoundError"
                 ("Script not found: " +:+ full_script_path))
      else ret tt) ;;
     result <- subprocess_run full_script_path input_file_path execution_id 300 ;;
     if returncode result =? 0 then
       ret (PDict [("success", PBool true);
                   ("stdout", PStr (stdout result));
                   ("stderr", PStr (stderr result));
                   ("returncode", PInt (returncode result))])
     else
       ret (PDict [("success", PBool false);
                   ("stdout", PStr (stdout result));
                   ("stderr", PStr (stderr result));
                   ("returncode", PInt (returncode result))]))
    (fun e =>
       match e with
       | TimeoutExpired _ _ _ _ =>
           ret (PDict [("success", PBool false);
                       ("error", PStr "Script execution timed out after 5 minutes")])
       | _ =>
           ret (PDict [("success", PBool false);
                       ("error", PStr (Py.exn_str e))])
       end).

(** [send_webhook_notification] (lines 133-158) *)
Definition send_webhook_notification
    (callback_url execution_id status results : pyval) : M unit :=
  try_except
    (let payload :=
       PDict [("executionId", execution_id);
              ("status", status);
              ("results", results);
              ("timestamp", PStr (now_iso E))] in
     code <- requests_post callback_url payload ;;
     if code =? 200 then ret tt else ret tt)
    (fun _ => ret tt).

(** The metrics read from the script's output (lines 191-199). *)
Definition parse_metrics (script_result : pyval) : M pyval :=
  try_except
    (out <- lift (Py.subscript script_result "stdout") ;;
     text <- lift (Py.strip out) ;;
     if PyStr.nonempty text then
       out' <- lift (Py.subscript script_result "stdout") ;;
       text' <- lift (Py.strip out') ;;
       lift (json_loads E (Py.last_line text'))
     else ret (PDict []))
    (fun _ => ret (PDict [])).

(** The result file of the script, stored if there is one
    (lines 182-189). *)
Definition materialize (execution_id : pyval) : M (list pyval) :=
  let result_file_path := "/tmp/result.csv" in
  present <- os_path_exists result_file_path ;;
  if present then
    result_file_ref <- upload_result_to_storage result_file_path execution_id ;;
    ret [result_file_ref]
  else ret [].

(** The result of a script that succeeded (lines 181-220). *)
Definition completed (script_result execution_id : pyval)
  : M (pyval * pyval) :=
  output_files <- materialize execution_id ;;
  metrics <- parse_metrics script_result ;;
  mocked <- lift (Py.get metrics "mocked") ;;
  let success_message :=
    if Py.truthy mocked then
      "Processing completed successfully"
        +:+ " (MOCKED - No real Stripe API calls made)"
    else "Processing completed successfully" in
  records_processed <- lift (Py.get_default metrics "recordsProcessed" (PInt 0)) ;;
  records_successful <- lift (Py.get_default metrics "recordsSuccessful" (PInt 0)) ;;
  records_failed <- lift (Py.get_default metrics "recordsFailed" (PInt 0)) ;;
  total_amount <- lift (Py.get metrics "totalAmount") ;;
  currency <- lift (Py.get metrics "currency") ;;
  mocked' <- lift (Py.get_default metrics "mocked" (PBool false)) ;;
  note <- lift (Py.get metrics "note") ;;
  ret (PStr "completed",
       PDict [("success", PBool true);
              ("message", PStr success_message);
              ("recordsProcessed", records_processed);
              ("recordsSuccessful", records_successful);
              ("recordsFailed", records_failed);
              ("totalAmount", total_amount);
              ("currency", currency);
              ("mocked", mocked');
              ("note", note);
              ("data", metrics);
              ("outputFiles", PList output_files)]).

(** The result of a script that failed (lines 221-232). *)
Definition failed (script_result : pyval) : M (pyval * pyval) :=
  error <- lift (Py.get_default script_result "error" (PStr "Unknown error")) ;;
  out <- lift (Py.get_default script_result "stdout" (PStr EmptyString)) ;;
  err <- lift (Py.get_default script_result "stderr" (PStr EmptyString)) ;;
  code <- lift (Py.get script_result "returncode") ;;
  ret (PStr "failed",
       PDict [("success", PBool false);
              ("message", PStr "Processing failed");
              ("errors", PList [error]);
              ("data", PDict [("stdout", out);
                              ("stderr", err);
                              ("returncode", code)])]).

(** The removal of the temporary files (lines 238-244). *)
Definition cleanup (input_file_path : string) : M unit :=
  try_except
    (os_unlink input_file_path ;;
     present <- os_path_exists "/tmp/result.csv" ;;
     if present then os_unlink "/tmp/result.csv" else ret tt)
    (fun _ => ret tt).

(** The pipeline once the request is parsed (lines 174-251). *)
Definition pipeline
    (execution_id script_path file_reference callback_url : pyval)
  : M response :=
  input_file_path <- download_file_from_storage file_reference ;;
  script_result <- execute_script script_path input_file_path execution_id ;;
  succeeded <- lift (Py.subscript script_result "success") ;;
  outcome <-
    (if Py.truthy succeeded then completed script_result execution_id
     else failed script_result) ;;
  let '(status, results) := outcome in
  (if Py.truthy callback_url then
     send_webhook_notification callback_url execution_id status results
   else ret tt) ;;
  cleanup input_file_path ;;
  ret (Response
         (PDict [("success", PBool true);
                 ("executionId", execution_id);
                 ("status", status);
                 ("results", results)])
         200).

(** The handler of whatever the pipeline raises (lines 253-272). *)
Definition on_error (e : exn) : M response :=
  vars <- locals ;;
  match Py.dict_get "callback_url" vars, Py.dict_get "execution_id" vars with
  | Some callback_url, Some execution_id =>
      send_webhook_notification callback_url execution_id (PStr "failed")
        (PDict [("success", PBool false);
                ("message", PStr ("Processing error: " +:+ Py.exn_str e));
                ("errors", PList [PStr (Py.exn_str e)])])
  | _, _ => ret tt
  end ;;
  ret (Response
         (PDict [("success", PBool false);
                 ("error", PStr (Py.exn_str e))])
         500).

(** [process_finance_operation] (lines 160-272) *)
Definition process_finance_operation : M response :=
  try_except
    (data <- assign "data" (lift (request_json E)) ;;
     execution_id <- assign "execution_id" (lift (Py.get data "executionId")) ;;
     operation_id <- assign "operation_id" (lift (Py.get data "operationId")) ;;
     script_path <- assign "script_path" (lift (Py.get data "scriptPath")) ;;
     file_reference <- assign "file_reference" (lift (Py.get data "fileReference")) ;;
     callback_url <- assign "callback_url" (lift (Py.get data "callbackUrl")) ;;
     pipeline execution_id script_path file_reference callback_url)
    on_error.

End Service.

(** One request: the handler starts with no local variable bound and
    nothing called yet, on the local files [files]. *)
Definition start (files : gset string) : machine := Machine files [] [].

Definition serve (E : env) (files : gset string) : result response * machine :=
  process_finance_operation E (start files).

(** ** Concrete worlds *)

Module World.
Import PyStr.

(** A request body with the five fields of the interface. *)
Definition fields (callback_url : pyval) : dict :=
  [("executionId", PStr "exec-1");
   ("operationId", PStr "op-1");
   ("scriptPath", PStr "stripe_balance_payout.py");
   ("fileReference", PDict [("storagePath", PStr "uploads/in.csv")]);
   ("callbackUrl", callback_url)].

Definition request (callback_url : pyval) : pyval :=
  PDict (fields callback_url).

(** The body [d] without its field [k]. *)
Definition without (k : string) (d : dict) : dict :=
  List.filter (fun kv => negb (String.eqb (fst kv) k)) d.

Definition script : string := "/app/scripts/stripe_balance_payout.py".
Definition input : string := "/tmp/tmpk3v9x2.csv".
Definition hook : pyval := PStr "https://app.example/hooks/finance".

(** A script that runs for two seconds and touches no file. *)
Definition exits (code : Z) (out err : string) : child :=
  Child None 2 code out err (None, None) (fun files => files).

(** A script that also writes [/tmp/result.csv]. *)
Definition writes_result (code : Z) (out err : string) : child :=
  Child None 2 code out err (None, None)
    (fun files => {["/tmp/result.csv"]} ∪ files).

(** A script still running after [seconds], killed with [out] read. *)
Definition hangs (seconds : Z) (out : string) : child :=
  Child None seconds 0 EmptyString EmptyString (Some out, None)
    (fun files => files).

(** What [requests.post] raises for the URL [None]. *)
Definition no_scheme : exn :=
  Exception "MissingSchema"
    "Invalid URL 'None': No scheme supplied. Perhaps you meant https://None?".

(** The world of one request: the body received, the outcome of the
    download, the behaviour of the script, the outcome of an upload
    and the answer of the callback endpoint. *)
Definition world (req : result pyval) (fetch : fetched) (c : child)
    (upload : option exn) (post : result Z) : env :=
  Env req Json.loads_or_raise "2025-06-01T12:00:00" "20250601_120000"
    (fun _ => "?") None (fun _ => None) (Return input)
    (fun _ _ => fetch) (fun _ _ _ => c) (fun _ _ => upload)
    (fun path => Return ("https://storage.example/" +:+ path))
    (fun _ => Return 512)
    (fun url _ => match url with PNone => Raise no_scheme | _ => post end)
    (fun _ => None).

(** The script directory of the container. *)
Definition image : gset string := {[ script ]}.

(** The metrics record of the scenario of the specification, and an
    output that ends with it after a line of progress. *)
Definition record : string :=
  dq "{'recordsProcessed':6,'recordsSuccessful':6,'recordsFailed':0,'mocked':true}".

Definition record_metrics : dict :=
  [("recordsProcessed", PInt 6); ("recordsSuccessful", PInt 6);
   ("recordsFailed", PInt 0); ("mocked", PBool true)].

Definition progress_then_record : string :=
  "progress" +:+ nl +:+ record +:+ nl.

(** The machine of such a world when the script [c] is over. *)
Definition finished (callback_url : pyval) (c : child) : machine :=
  Machine (effect c ({[input]} ∪ image))
    [("data", request callback_url);
     ("execution_id", PStr "exec-1");
     ("operation_id", PStr "op-1");
     ("script_path", PStr "stripe_balance_payout.py");
     ("file_reference", PDict [("storagePath", PStr "uploads/in.csv")]);
     ("callback_url", callback_url)]
    [Fetch (PStr "uploads/in.csv") input; Spawn script input (PStr "exec-1")].

Definition not_found : exn :=
  Exception "NotFound" "404 GET uploads/in.csv: No such object".

Definition upload_refused : exn :=
  Exception "Forbidden" "403 POST: storage.objects.create denied".

End World.

(** ** The values the properties speak of *)

Module Job.

(** The field [k] of a request body, [None] when it is missing. *)
Definition field (d : dict) (k : string) : pyval :=
  match Py.dict_get k d with
  | Some v => v
  | None => PNone
  end.

(** The entry [k] of a value that is a dictionary. *)
Definition item (v : pyval) (k : string) : option pyval :=
  match v with
  | PDict d => Py.dict_get k d
  | _ => None
  end.

(** The machine once the body [d] is parsed: the six local variables
    of lines 165-170 are bound. *)
Definition parsed (files : gset string) (d : dict) : machine :=
  Machine files
    [("data", PDict d);
     ("execution_id", field d "executionId");
     ("operation_id", field d "operationId");
     ("script_path", field d "scriptPath");
     ("file_reference", field d "fileReference");
     ("callback_url", field d "callbackUrl")]
    [].

(** The answer of a handled job. *)
Definition envelope (execution_id status results : pyval) : response :=
  Response
    (PDict [("success", PBool true);
            ("executionId", execution_id);
            ("status", status);
            ("results", results)])
    200.

(** The answer to an exception. *)
Definition error_envelope (e : exn) : response :=
  Response
    (PDict [("success", PBool false); ("error", PStr (Py.exn_str e))])
    500.

(** The job result sent to the callback for an exception. *)
Definition error_result (e : exn) : pyval :=
  PDict [("success", PBool false);
         ("message", PStr ("Processing error: " +:+ Py.exn_str e));
         ("errors", PList [PStr (Py.exn_str e)])].

(** The job result of a script that failed. *)
Definition failure_result (error out err code : pyval) : pyval :=
  PDict [("success", PBool false);
         ("message", PStr "Processing failed");
         ("errors", PList [error]);
         ("data", PDict [("stdout", out); ("stderr", err);
                         ("returncode", code)])].

(** The body posted to the callback. *)
Definition payload (E : env) (execution_id status results : pyval) : pyval :=
  PDict [("executionId", execution_id);
         ("status", status);
         ("results", results);
         ("timestamp", PStr (now_iso E))].

(** What the runner returns for a script that ran to its end. *)
Definition exit_outcome (c : child) : pyval :=
  PDict [("success", PBool (returncode c =? 0));
         ("stdout", PStr (stdout c));
         ("stderr", PStr (stderr c));
         ("returncode", PInt (returncode c))].

(** What the runner returns for any other failure. *)
Definition error_outcome (msg : string) : pyval :=
  PDict [("success", PBool false); ("error", PStr msg)].

Definition timeout_message : string :=
  "Script execution timed out after 5 minutes".

(** The machine after the child [c] was launched for the script
    [full]. *)
Definition launched (m : machine) (full input : string) (ex : pyval)
    (c : child) : machine :=
  Machine (effect c (fs m)) (frame m) (trace m ++ [Spawn full input ex]).

(** The job result built from the outcome [sd] of a failed script. *)
Definition failure_of (sd : dict) : pyval :=
  failure_result
    (match Py.dict_get "error" sd with Some v => v | None => PStr "Unknown error" end)
    (match Py.dict_get "stdout" sd with Some v => v | None => PStr EmptyString end)
    (match Py.dict_get "stderr" sd with Some v => v | None => PStr EmptyString end)
    (field sd "returncode").

(** The metrics read from the output [out] of a script. *)
Definition metrics_of (E : env) (out : string) : pyval :=
  if PyStr.nonempty (PyStr.strip out) then
    match json_loads E (Py.last_line (PyStr.strip out)) with
    | Return v => v
    | Raise _ => PDict []
    end
  else PDict [].

Definition with_default (default : pyval) (o : option pyval) : pyval :=
  match o with
  | Some v => v
  | None => default
  end.

(** The job result of a script that succeeded with the metrics [mt]
    and the stored files [outs]. *)
Definition success_result (mt : dict) (outs : list pyval) : pyval :=
  PDict [("success", PBool true);
         ("message",
          PStr (if Py.truthy (field mt "mocked") then
                  "Processing completed successfully"
                    +:+ " (MOCKED - No real Stripe API calls made)"
                else "Processing completed successfully"));
         ("recordsProcessed", with_default (PInt 0) (Py.dict_get "recordsProcessed" mt));
         ("recordsSuccessful", with_default (PInt 0) (Py.dict_get "recordsSuccessful" mt));
         ("recordsFailed", with_default (PInt 0) (Py.dict_get "recordsFailed" mt));
         ("totalAmount", field mt "totalAmount");
         ("currency", field mt "currency");
         ("mocked", with_default (PBool false) (Py.dict_get "mocked" mt));
         ("note", field mt "note");
         ("data", PDict mt);
         ("outputFiles", PList outs)].

(** The calls to the callback made for the result [results]. *)
Definition notified (E : env) (callback_url execution_id status results : pyval)
  : list event :=
  if Py.truthy callback_url then
    [Post callback_url (payload E execution_id status results)]
  else [].

(** The line [L] is a metrics record: the decoder reads the object [mt]
    from it, with or without the blanks around it. *)
Definition record_line (E : env) (L : string) (mt : dict) : Prop :=
  PyStr.blank L = false
  /\ json_loads E L = Return (PDict mt)
  /\ json_loads E (PyStr.rstrip L) = Return (PDict mt)
  /\ json_loads E (PyStr.strip L) = Return (PDict mt).

(** The request body is the object [d], its input file is fetched, its
    script is found and launched as the child [c], and [m] is the
    machine when [subprocess.run] is over. *)
Definition ran (E : env) (files : gset string) (d : dict) (c : child)
    (m : machine) : Prop :=
  exists input m1 full,
    request_json E = Return (PDict d)
    /\ download_file_from_storage E (field d "fileReference") (parsed files d)
       = (Return input, m1)
    /\ Py.os_path_join "/app/scripts" (field d "scriptPath") = Return full
    /\ full ∈ fs m1
    /\ c = run_child E full input (field d "executionId")
    /\ spawn_error c = None
    /\ m = launched m1 full input (field d "executionId") c.

(** The same environment with another callback endpoint. *)
Definition with_post (E : env) (post : pyval -> pyval -> result Z) : env :=
  Env (request_json E) (json_loads E) (now_iso E) (now_stamp E) (str_other E)
    (storage_bucket E) (storage_blob E) (temp_file E) (download E)
    (run_child E) (upload_from_filename E) (signed_url E) (getsize E)
    post (unlink_error E).

(** The same environment with other refusals of [os.unlink]. *)
Definition with_unlink (E : env) (refuse : string -> option exn) : env :=
  Env (request_json E) (json_loads E) (now_iso E) (now_stamp E) (str_other E)
    (storage_bucket E) (storage_blob E) (temp_file E) (download E)
    (run_child E) (upload_from_filename E) (signed_url E) (getsize E)
    (http_post E) refuse.

Definition is_post (ev : event) : bool :=
  match ev with Post _ _ => true | _ => false end.

Definition is_fetch (ev : event) : bool :=
  match ev with Fetch _ _ => true | _ => false end.

Definition is_spawn (ev : event) : bool :=
  match ev with Spawn _ _ _ => true | _ => false end.

(** The calls to [requests.post], to [blob.download_to_filename] and to
    [subprocess.run] in a trace. *)
Definition posts (t : list event) : list event := List.filter is_post t.
Definition fetches (t : list event) : list event := List.filter is_fetch t.
Definition spawns (t : list event) : list event := List.filter is_spawn t.

(** The last line of [s] that is not empty, if there is one. *)
Definition last_nonempty_line (s : string) : option string :=
  List.last
    (List.map Some (List.filter PyStr.nonempty (PyStr.split PyStr.NL s)))
    None.

End Job.

(** ** Statements that the code does not meet, as the specification
    words them *)

Module Stated.
Import Job.

(** A script over its time limit gives a job result whose failure
    reason is ["timeout"] and which keeps the output captured before
    the child was killed. *)
Definition timeout_keeps_partial_output : Prop :=
  forall E files d c m,
    ran E files d c m ->
    300 < duration c ->
    exists results data m',
      serve E files
      = (Return (envelope (field d "executionId") (PStr "failed") results), m')
      /\ item results "success" = Some (PBool false)
      /\ item results "errors" = Some (PList [PStr "timeout"])
      /\ item results "data" = Some data
      /\ (forall out, fst (captured c) = Some out ->
          item data "stdout" = Some (PStr out))
      /\ (forall err, snd (captured c) = Some err ->
          item data "stderr" = Some (PStr err)).


(** A request without [scriptPath] or without [fileReference] is
    refused before anything is fetched, launched or notified. *)
Definition missing_field_short_circuits : Prop :=
  forall E files d,
    request_json E = Return (PDict d) ->
    Py.dict_get "scriptPath" d = None \/ Py.dict_get "fileReference" d = None ->
    exists resp m,
      serve E files = (Return resp, m)
      /\ item (body resp) "success" = Some (PBool false)
      /\ fetches (trace m) = []
      /\ spawns (trace m) = []
      /\ posts (trace m) = [].

(** The name [script_path] resolves to a unit of the script directory:
    the path that the runner makes of it lies under [/app/scripts/] and
    is a file of the container. *)
Definition resolves (files : gset string) (script_path : pyval) : Prop :=
  exists rest,
    Py.os_path_join "/app/scripts" script_path
    = Return ("/app/scripts/" +:+ rest)
    /\ ("/app/scripts/" +:+ rest) ∈ files.

(** A script name that resolves to no unit of the script directory
    gives an outcome that has failed, with a failure reason. *)
Definition unresolved_name_is_not_found : Prop :=
  forall E script_path input execution_id m,
    ~ resolves (fs m) script_path ->
    exists outcome reason m',
      execute_script E script_path input execution_id m = (Return outcome, m')
      /\ item outcome "success" = Some (PBool false)
      /\ item outcome "error" = Some (PStr reason).

End Stated.

(** ** The calls of a request, by kind *)

Module Calls.

Inductive call := Fetching | Spawning | Uploading | Posting.

Definition call_of (ev : event) : call :=
  match ev with
  | Fetch _ _ => Fetching
  | Spawn _ _ _ => Spawning
  | Upload _ _ => Uploading
  | Post _ _ => Posting
  end.

Definition calls (t : list event) : list call := List.map call_of t.

(** At most one call, of the kind [k]. *)
Definition at_most_one (k : call) (t : list event) : Prop :=
  t = [] \/ exists ev, call_of ev = k /\ t = [ev].

Definition is_upload (ev : event) : bool :=
  match ev with Upload _ _ => true | _ => false end.

Definition uploads (t : list event) : list event := List.filter is_upload t.

(** The status code of an answer. *)
Definition status_code_of (r : result response) : option Z :=
  match r with
  | Return resp => Some (status_code resp)
  | Raise _ => None
  end.

(** The name under which [upload_result_to_storage] stores the result
    file of [execution_id] (line 52). *)
Definition blob_path (E : env) (execution_id : pyval) : string :=
  "finance-operations/results/"
    +:+ (Py.format (str_other E) execution_id +:+ "_" +:+ now_stamp E
           +:+ "_result.csv").

(** The descriptor that [upload_result_to_storage] returns for the file
    [size] bytes long, stored for [execution_id] and signed as [url]
    (lines 65-71). *)
Definition descriptor (E : env) (execution_id : pyval) (url : string)
    (size : Z) : pyval :=
  let filename :=
    Py.format (str_other E) execution_id +:+ "_" +:+ now_stamp E
      +:+ "_result.csv" in
  PDict [("storagePath", PStr ("finance-operations/results/" +:+ filename));
         ("downloadUrl", PStr url);
         ("filename", PStr filename);
         ("originalName", PStr ("result_" +:+ now_stamp E +:+ ".csv"));
         ("size", PInt size)].

(** Local files in which an earlier job has left its result file. *)
Definition stale : gset string := {[ World.script; "/tmp/result.csv" ]}.

(** The machine of a concrete world started on [files], when the script
    [c] is over. *)
Definition finished_on (files : gset string) (callback_url : pyval)
    (c : child) : machine :=
  Machine (effect c ({[World.input]} ∪ files))
    (frame (World.finished callback_url c))
    (trace (World.finished callback_url c)).

(** A script that writes its result file and removes its input file. *)
Definition consumes_input (code : Z) (out : string) : child :=
  Child None 2 code out EmptyString (None, None)
    (fun files => {["/tmp/result.csv"]} ∪ (files ∖ {[World.input]})).

(** A script that cannot be started. *)
Definition unlaunchable (e : exn) : child :=
  Child (Some e) 0 0 EmptyString EmptyString (None, None) (fun files => files).

End Calls.

(** ** The payout script of the container
    ([scripts/stripe_balance_payout.py])

    The script prints its log to stderr; the log is not modelled, and
    what is proved below holds for every log. *)

Module MockPayout.
Import PyStr.

(** [str.lower] on one character, for code points below 256. *)
Definition lower_char (c : ascii) : ascii :=
  let n := N_of_ascii c in
  if ((65 <=? n) && (n <=? 90) || (192 <=? n) && (n <=? 214)
      || (216 <=? n) && (n <=? 222))%N
  then ascii_of_N (n + 32)
  else c.

Fixpoint lower (s : string) : string :=
  match s with
  | EmptyString => EmptyString
  | String c s' => String (lower_char c) (lower s')
  end.

(** [str.upper] on ASCII text, which is all the script applies it to:
    the currency codes of its own balance. *)
Definition upper_char (c : ascii) : ascii :=
  let n := N_of_ascii c in
  if ((97 <=? n) && (n <=? 122))%N then ascii_of_N (n - 32) else c.

Fixpoint upper (s : string) : string :=
  match s with
  | EmptyString => EmptyString
  | String c s' => String (upper_char c) (upper s')
  end.

(** [r] then [k], for computations that may raise. *)
Definition and_then {A B} (r : result A) (k : A -> result B) : result B :=
  match r with
  | Return a => k a
  | Raise e => Raise e
  end.

(** What the script finds around it. *)
Record host := Host {
  environ : string -> option string;        (* os.environ.get(name) *)
  path_exists : string -> bool;             (* os.path.exists(path) *)
  csv_rows : string -> result (list dict);  (* list(csv.DictReader(open(path))) *)
  clock : nat -> Z;                         (* int(time.time()), call by call *)
  today : string;                           (* datetime.now().isoformat() *)
  dumps : pyval -> string;                  (* json.dumps *)
  write_error : option (exn * bool)         (* a failure of writing the result
                                               file; whether the file exists
                                               after it *)
}.

(** What one run leaves: the exit status, the text printed to stdout,
    the rows of [/tmp/result.csv] when it was written to its end, and
    whether the run has created that file. *)
Record outcome := Outcome {
  exit_code : Z;
  printed : string;
  result_csv : option (list dict);
  created : bool
}.

(** The variables of the loop of [main] (lines 156-159), and the number
    of calls to [time.time()] made so far. *)
Record tally := Tally {
  results : list dict;
  total_amount_processed : Z;
  successful_payouts : Z;
  failed_payouts : Z;
  ticks : nat
}.

Definition default_currencies : list string :=
  ["aed"; "bhd"; "thb"; "nok"; "qar"; "hkd"].

(** [row.get('currency')] taken as a condition *)
Definition has_currency (row : dict) : bool :=
  match Py.dict_get "currency" row with
  | Some v => Py.truthy v
  | None => false
  end.

(** [v.lower()] *)
Definition lower_of (v : pyval) : result string :=
  match v with
  | PStr s => Return (lower s)
  | _ => Raise (Py.no_attribute v "lower")
  end.

(** [[row['currency'].lower() for row in rows if row.get('currency')]]
    (line 42) *)
Fixpoint currencies_of (rows : list dict) : result (list string) :=
  match rows with
  | [] => Return []
  | row :: rest =>
      if has_currency row then
        and_then (Py.subscript (PDict row) "currency") (fun v =>
        and_then (lower_of v) (fun c =>
        and_then (currencies_of rest) (fun cs =>
        Return (c :: cs))))
      else currencies_of rest
  end.

(** The literal of lines 61-75; only its list [available] is read, as
    pairs of a currency and an amount. *)
Definition get_stripe_balance_mock : list (string * Z) :=
  [("aed", 125043); ("bhd", 45678); ("thb", 987654); ("nok", 234567);
   ("qar", 156789); ("hkd", 345678); ("usd", 50000); ("eur", 75000)].

Section Script.

Variable H : host.

(** [read_csv_input] (lines 23-51) *)
Definition read_csv_input : result (list string) :=
  let missing := Exception "FileNotFoundError" "Input CSV file not found" in
  match environ H "INPUT_CSV_PATH" with
  | None => Raise missing
  | Some input_csv_path =>
      if negb (nonempty input_csv_path)
         || negb (path_exists H input_csv_path)
      then Raise missing
      else
        let currencies := default_currencies in
        match
          and_then (csv_rows H input_csv_path) (fun rows =>
            match rows with
            | first :: _ =>
                match Py.dict_get "currency" first with
                | Some _ => currencies_of rows
                | None => Return currencies
                end
            | [] => Return currencies
            end)
        with
        | Return found => Return found
        | Raise _ => Return currencies
        end
  end.

(** [create_payout_mock] (lines 80-111), called when [time.time()] has
    been called [k] times; it calls it three times. *)
Definition create_payout_mock (k : nat) (amount : Z)
    (currency description : string) : dict :=
  let payout_id :=
    "po_mock_" +:+ currency +:+ "_" +:+ str_of_Z (clock H k) in
  let mock_response :=
    PDict [("id", PStr payout_id);
           ("object", PStr "payout");
           ("amount", PInt amount);
           ("currency", PStr currency);
           ("description", PStr description);
           ("status", PStr "pending");
           ("type", PStr "bank_account");
           ("created", PInt (clock H (k + 1)));
           ("arrival_date", PInt (clock H (k + 2) + 86400));
           ("method", PStr "standard")] in
  [("currency", PStr currency);
   ("amount", PInt amount);
   ("status_code", PInt 200);
   ("response", PStr (dumps H mock_response));
   ("success", PBool true);
   ("payout_id", PStr payout_id)].

(** The row written for one result (lines 126-133). *)
Definition csv_row (entry : dict) : result dict :=
  and_then (Py.subscript (PDict entry) "currency") (fun currency =>
  and_then (Py.subscript (PDict entry) "amount") (fun amount =>
  and_then (Py.subscript (PDict entry) "status_code") (fun payout_status =>
  and_then (Py.get_default (PDict entry) "payout_id" (PStr "N/A"))
    (fun payout_id =>
  and_then (Py.subscript (PDict entry) "response") (fun payout_response =>
  and_then (Py.subscript (PDict entry) "success") (fun success =>
  Return [("currency", currency);
          ("amount", amount);
          ("payout_status", payout_status);
          ("payout_id", payout_id);
          ("payout_response", payout_response);
          ("success", PStr (if Py.truthy success then "Yes" else "No"))])))))).

Fixpoint csv_rows_of (results : list dict) : result (list dict) :=
  match results with
  | [] => Return []
  | entry :: rest =>
      and_then (csv_row entry) (fun row =>
      and_then (csv_rows_of rest) (fun rows =>
      Return (row :: rows)))
  end.

(** [write_results_csv] (lines 113-136): the rows written, or the
    exception; and whether [/tmp/result.csv] exists afterwards.  An
    exception in the making of a row comes when the file is open. *)
Definition write_results_csv (results : list dict)
  : result (list dict) * bool :=
  match write_error H with
  | Some (e, kept) => (Raise e, kept)
  | None => (csv_rows_of results, true)
  end.

(** The loop of [main] (lines 161-185) *)
Fixpoint process_payouts (execution_id : string)
    (target_currencies : list string) (available : list (string * Z))
    (t : tally) : result tally :=
  match available with
  | [] => Return t
  | (currency, amount) :: rest =>
      if existsb (String.eqb currency) target_currencies && (0 <? amount) then
        let payout_result :=
          create_payout_mock (ticks t) amount currency
            ("Clear " +:+ upper currency +:+ " balance to USD - Execution "
               +:+ execution_id) in
        and_then (Py.subscript (PDict payout_result) "success") (fun ok =>
        process_payouts execution_id target_currencies rest
          (if Py.truthy ok then
             Tally (results t ++ [payout_result])
               (total_amount_processed t + amount)
               (successful_payouts t + 1) (failed_payouts t) (ticks t + 3)
           else
             Tally (results t ++ [payout_result])
               (total_amount_processed t + amount)
               (successful_payouts t) (failed_payouts t + 1) (ticks t + 3)))
      else process_payouts execution_id target_currencies rest t
  end.

(** [[r['currency'] for r in results]] (line 201) *)
Fixpoint processed_currencies (results : list dict) : result (list pyval) :=
  match results with
  | [] => Return []
  | r :: rest =>
      and_then (Py.subscript (PDict r) "currency") (fun c =>
      and_then (processed_currencies rest) (fun cs =>
      Return (c :: cs)))
  end.

(** The metrics of lines 192-204. *)
Definition metrics_record (execution_id : string)
    (target_currencies : list string) (t : tally) (processed : list pyval)
  : pyval :=
  PDict [("recordsProcessed", PInt (Z.of_nat (List.length (results t))));
         ("recordsSuccessful", PInt (successful_payouts t));
         ("recordsFailed", PInt (failed_payouts t));
         ("totalAmount", PInt (total_amount_processed t));
         ("currency", PStr "mixed");
         ("executionId", PStr execution_id);
         ("timestamp", PStr (today H));
         ("targetCurrencies", PList (List.map PStr target_currencies));
         ("processedCurrencies", PList processed);
         ("mocked", PBool true);
         ("note",
          PStr "This is a mocked response - no real Stripe API calls were made")].

(** The metrics of lines 218-226. *)
Definition error_metrics (e : exn) : pyval :=
  PDict [("recordsProcessed", PInt 0);
         ("recordsSuccessful", PInt 0);
         ("recordsFailed", PInt 1);
         ("error", PStr (Py.exn_str e));
         ("executionId",
          PStr (match environ H "EXECUTION_ID" with
                | Some x => x
                | None => "unknown"
                end));
         ("timestamp", PStr (today H));
         ("mocked", PBool true)].

(** The handler of lines 214-229: [print] adds the end of line. *)
Definition abort (e : exn) (kept : bool) : outcome :=
  Outcome 1 (dumps H (error_metrics e) +:+ nl) None kept.

(** [main] (lines 138-229).  [sys.exit(0)] raises [SystemExit], which
    [except Exception] does not catch. *)
Definition main : outcome :=
  let execution_id :=
    match environ H "EXECUTION_ID" with
    | Some x => x
    | None => "unknown"
    end in
  match read_csv_input with
  | Raise e => abort e false
  | Return target_currencies =>
      match process_payouts execution_id target_currencies
              get_stripe_balance_mock (Tally [] 0 0 0 0%nat) with
      | Raise e => abort e false
      | Return t =>
          let '(written, kept) :=
            match results t with
            | [] => (Return None, false)
            | _ :: _ =>
                match write_results_csv (results t) with
                | (Return rows, kept) => (Return (Some rows), kept)
                | (Raise e, kept) => (Raise e, kept)
                end
            end in
          match written with
          | Raise e => abort e kept
          | Return rows =>
              match processed_currencies (results t) with
              | Raise e => abort e kept
              | Return processed =>
                  Outcome 0
                    (dumps H (metrics_record execution_id target_currencies t
                                processed) +:+ nl)
                    rows kept
              end
          end
      end
  end.

End Script.

(** The script as the child process of the service: it has written
    [log] to stderr and has run for [seconds]. *)
Definition as_child (H : host) (log : string) (seconds : Z) : child :=
  Child None seconds (exit_code (main H)) (printed (main H)) log (None, None)
    (fun files =>
       if created (main H) then {["/tmp/result.csv"]} ∪ files else files).

End MockPayout.

(** ** A JSON encoder

    [json.dumps] belongs to the Python library, so the script takes it
    from its host, and what is proved of the script holds for every
    encoder.  [JsonText.dumps] is an encoder to run the script on
    concrete inputs: the text CPython writes with its default options
    ([ensure_ascii], items separated by a comma and a space, keys by a
    colon and a space), the text of a float being left to [float_text]. *)

Module JsonText.
Import PyStr.

Definition hex_digit (n : N) : ascii :=
  if (n <? 10)%N then ascii_of_N (48 + n) else ascii_of_N (87 + n).

Definition backslash : ascii := ascii_of_N 92.

(** One character of a string, as [ensure_ascii] writes it. *)
Definition escape_char (c : ascii) : string :=
  let n := N_of_ascii c in
  if (n =? 34)%N then String backslash (String c EmptyString)
  else if (n =? 92)%N then String backslash (String c EmptyString)
  else if (n =? 10)%N then String backslash "n"
  else if (n =? 13)%N then String backslash "r"
  else if (n =? 9)%N then String backslash "t"
  else if (n =? 8)%N then String backslash "b"
  else if (n =? 12)%N then String backslash "f"
  else if (n <? 32)%N || (126 <? n)%N then
    String backslash
      ("u00" +:+ String (hex_digit (n / 16))
                   (String (hex_digit (n mod 16)) EmptyString))
  else String c EmptyString.

Fixpoint escape (s : string) : string :=
  match s with
  | EmptyString => EmptyString
  | String c s' => escape_char c +:+ escape s'
  end.

Definition quote (s : string) : string :=
  String (ascii_of_N 34) (escape s +:+ String (ascii_of_N 34) EmptyString).

Fixpoint separated (l : list string) : string :=
  match l with
  | [] => EmptyString
  | [x] => x
  | x :: l' => x +:+ ", " +:+ separated l'
  end.

Fixpoint dumps_with (float_text : pyfloat -> string) (v : pyval) : string :=
  match v with
  | PNone => "null"
  | PBool true => "true"
  | PBool false => "false"
  | PInt z => str_of_Z z
  | PFloat f => float_text f
  | PStr s => quote s
  | PList l => "[" +:+ separated (List.map (dumps_with float_text) l) +:+ "]"
  | PDict d =>
      "{"
        +:+ separated
              (List.map
                 (fun kv => quote (fst kv) +:+ ": " +:+ dumps_with float_text (snd kv))
                 d)
        +:+ "}"
  end.

(** The encoder for values without a float. *)
Definition dumps : pyval -> string := dumps_with (fun _ => "NaN").

End JsonText.

(** ** What a run of the payout script amounts to *)

Module Ledger.
Import PyStr MockPayout.

(** The balances paid out for the target currencies: those of a target
    currency with a positive amount, in the order of the balance. *)
Definition due (target_currencies : list string)
    (available : list (string * Z)) : list (string * Z) :=
  List.filter
    (fun b => existsb (String.eqb (fst b)) target_currencies && (0 <? snd b))
    available.

Definition total (paid : list (string * Z)) : Z :=
  List.fold_right Z.add 0 (List.map snd paid).

(** The execution id the script works for (line 141). *)
Definition execution (H : host) : string :=
  match environ H "EXECUTION_ID" with
  | Some x => x
  | None => "unknown"
  end.

(** The results of the payouts for [paid], the first of them made when
    [time.time()] has been called [k] times. *)
Fixpoint receipts (H : host) (k : nat) (paid : list (string * Z))
  : list dict :=
  match paid with
  | [] => []
  | (currency, amount) :: rest =>
      create_payout_mock H k amount currency
        ("Clear " +:+ upper currency +:+ " balance to USD - Execution "
           +:+ execution H)
        :: receipts H (k + 3) rest
  end.

(** The metrics a run prints when it has paid out for
    [target_currencies]. *)
Definition report (H : host) (target_currencies : list string) : dict :=
  let paid := due target_currencies get_stripe_balance_mock in
  [("recordsProcessed", PInt (Z.of_nat (List.length paid)));
   ("recordsSuccessful", PInt (Z.of_nat (List.length paid)));
   ("recordsFailed", PInt 0);
   ("totalAmount", PInt (total paid));
   ("currency", PStr "mixed");
   ("executionId", PStr (execution H));
   ("timestamp", PStr (today H));
   ("targetCurrencies", PList (List.map PStr target_currencies));
   ("processedCurrencies", PList (List.map (fun b => PStr (fst b)) paid));
   ("mocked", PBool true);
   ("note",
    PStr "This is a mocked response - no real Stripe API calls were made")].

(** A row as [csv.DictReader] yields it: its currency cell, if it has
    one, is a text or [None]. *)
Definition textual (row : dict) : bool :=
  match Py.dict_get "currency" row with
  | Some (PStr _) | Some PNone | None => true
  | Some _ => false
  end.

(** The currencies that such rows name: the cells that are not empty,
    in small letters. *)
Fixpoint named (rows : list dict) : list string :=
  match rows with
  | [] => []
  | row :: rest =>
      match Py.dict_get "currency" row with
      | Some (PStr (String c s)) => lower (String c s) :: named rest
      | _ => named rest
      end
  end.

(** What a row of the result file says of its payout. *)
Definition row_summary (row : dict)
  : option pyval * option pyval * option pyval * option pyval :=
  (Py.dict_get "currency" row, Py.dict_get "amount" row,
   Py.dict_get "payout_status" row, Py.dict_get "success" row).

Definition is_nil {A} (l : list A) : bool :=
  match l with
  | [] => true
  | _ :: _ => false
  end.

(** A host of the script in the container of [World]: the service has
    set the two variables, the input file holds [rows], and writing the
    result file fails as [refusal] says. *)
Definition container (rows : result (list dict))
    (refusal : option (exn * bool)) : host :=
  Host
    (fun name =>
       if String.eqb name "INPUT_CSV_PATH" then Some World.input
       else if String.eqb name "EXECUTION_ID" then Some "exec-1"
       else None)
    (fun path => String.eqb path World.input)
    (fun _ => rows)
    (fun k => 1748779200 + Z.of_nat k)
    "2025-06-01T12:00:02.531004"
    JsonText.dumps
    refusal.

(** A host without the input variable. *)
Definition bare : host :=
  Host (fun _ => None) (fun _ => false) (fun _ => Return [])
    (fun k => 1748779200 + Z.of_nat k) "2025-06-01T12:00:02.531004"
    JsonText.dumps None.

(** Input rows that name three currencies, one of them twice and in
    capitals, one unknown to the balance, and one row without any. *)
Definition sample_rows : list dict :=
  [[("currency", PStr "NOK"); ("limit", PStr "10")];
   [("currency", PStr "aed"); ("limit", PStr EmptyString)];
   [("currency", PStr EmptyString); ("limit", PStr "5")];
   [("currency", PStr "nok"); ("limit", PStr "7")];
   [("currency", PStr "sek"); ("limit", PStr "1")]].

End Ledger.


(** * Properties *)

(** ** Lines of a text *)

Module PyStrFacts.
Import PyStr.

Lemma app_cons (c : ascii) (a b : string) :
  String c a +:+ b = String c (a +:+ b).
Proof. reflexivity. Qed.

Lemma app_nil_l (b : string) : EmptyString +:+ b = b.
Proof. reflexivity. Qed.

Lemma app_nil_r (s : string) : s +:+ EmptyString = s.
Proof.
  induction s as [|c s IH]; [reflexivity |]. now rewrite app_cons, IH.
Qed.

Lemma app_assoc (a b c : string) : (a +:+ b) +:+ c = a +:+ b +:+ c.
Proof.
  induction a as [|x a IH]; [reflexivity |]. now rewrite !app_cons, IH.
Qed.

Lemma split_cons (s : string) : exists hd tl, split NL s = hd :: tl.
Proof.
  induction s as [|c s (hd & tl & IH)]; simpl; [eauto |].
  destruct (Ascii.eqb c NL); [eauto |]. rewrite IH. eauto.
Qed.

Lemma split_one (s : string) : has_nl s = false -> split NL s = [s].
Proof.
  induction s as [|c s IH]; simpl; [reflexivity |].
  destruct (Ascii.eqb c NL); simpl; [discriminate |].
  intros H. rewrite (IH H). reflexivity.
Qed.

Lemma split_app (a b : string) :
  split NL (a +:+ String NL b) = split NL a ++ split NL b.
Proof.
  induction a as [|c a IH]; [rewrite app_nil_l | rewrite app_cons]; simpl.
  - reflexivity.
  - destruct (Ascii.eqb c NL); [now rewrite IH |].
    rewrite IH. destruct (split_cons a) as (hd & tl & ->). reflexivity.
Qed.

Lemma join_cons (x y : string) (l : list string) :
  join (x :: y :: l) = x +:+ String NL (join (y :: l)).
Proof. reflexivity. Qed.

Lemma join_split (s : string) : join (split NL s) = s.
Proof.
  induction s as [|c s IH]; simpl; [reflexivity |].
  destruct (split_cons s) as (hd & tl & Hs). rewrite Hs in *.
  destruct (Ascii.eqb_spec c NL) as [->|Hc].
  - rewrite join_cons, IH. reflexivity.
  - destruct tl as [|x tl].
    + simpl in *. now rewrite IH.
    + rewrite join_cons in *. rewrite app_cons, IH. reflexivity.
Qed.

Lemma split_lines (s : string) :
  Forall (fun x => has_nl x = false) (split NL s).
Proof.
  induction s as [|c s IH]; simpl; [repeat constructor |].
  destruct (Ascii.eqb c NL) eqn:Hc; [constructor; [reflexivity | exact IH] |].
  destruct (split_cons s) as (hd & tl & Hs). rewrite Hs in *.
  inversion IH; subst. constructor; [| assumption].
  simpl. rewrite Hc. assumption.
Qed.

Lemma last_item_app (l : list string) (x : string) :
  last_item (l ++ [x]) = x.
Proof. unfold last_item. apply List.last_last. Qed.

(** *** Stripping *)

Lemma rstrip_app (a b : string) :
  rstrip b <> EmptyString -> rstrip (a +:+ b) = a +:+ rstrip b.
Proof.
  intros Hb. induction a as [|c a IH]; [reflexivity |].
  rewrite !app_cons. simpl. rewrite IH.
  destruct (a +:+ rstrip b) eqn:Hab; [| reflexivity].
  destruct a; [rewrite app_nil_l in Hab; contradiction | discriminate Hab].
Qed.

Lemma rstrip_blank (s : string) : blank s = true -> rstrip s = EmptyString.
Proof.
  induction s as [|c s IH]; simpl; [reflexivity |].
  intros [Hc Hs]%andb_prop. rewrite (IH Hs), Hc. reflexivity.
Qed.

Lemma rstrip_app_blank (a b : string) :
  blank b = true -> rstrip (a +:+ b) = rstrip a.
Proof.
  intros Hb. induction a as [|c a IH].
  - rewrite app_nil_l. apply rstrip_blank. exact Hb.
  - rewrite app_cons. simpl. rewrite IH. reflexivity.
Qed.

Lemma lstrip_blank (a b : string) :
  blank a = true -> lstrip (a +:+ b) = lstrip b.
Proof.
  induction a as [|c a IH]; [reflexivity |].
  rewrite app_cons. simpl.
  intros [Hc Hs]%andb_prop. rewrite Hc. apply IH. exact Hs.
Qed.

(** A text with a character that is not blank keeps, once stripped on
    the left, whatever follows it. *)
Lemma lstrip_app (a b : string) :
  blank a = false -> lstrip (a +:+ b) = lstrip a +:+ b.
Proof.
  induction a as [|c a IH]; [discriminate |].
  rewrite app_cons. simpl.
  destruct (isspace c); simpl; [exact IH | reflexivity].
Qed.

Lemma lstrip_not_blank (a : string) :
  blank a = false -> lstrip a <> EmptyString.
Proof.
  induction a as [|c a IH]; simpl; [discriminate |].
  destruct (isspace c); simpl; [exact IH | discriminate].
Qed.

Lemma lstrip_endswith (c : ascii) (s : string) :
  endswith c s = true -> lstrip s <> EmptyString ->
  endswith c (lstrip s) = true.
Proof.
  induction s as [|a s IH]; simpl; [discriminate |].
  destruct (isspace a).
  - destruct s as [|b s]; [simpl; contradiction |]. exact IH.
  - simpl. auto.
Qed.

Lemma endswith_app (c : ascii) (s : string) :
  endswith c s = true -> exists p, s = p +:+ String c EmptyString.
Proof.
  induction s as [|a s IH]; simpl; [discriminate |].
  destruct s as [|b s].
  - intros ->%Ascii.eqb_eq. exists EmptyString. reflexivity.
  - intros H. destruct (IH H) as [p Hp]. exists (String a p).
    rewrite app_cons, <- Hp. reflexivity.
Qed.

Lemma endswith_snoc (c : ascii) (p : string) :
  endswith c (p +:+ String c EmptyString) = true.
Proof.
  induction p as [|a p IH]; [apply Ascii.eqb_refl |].
  rewrite app_cons. simpl.
  destruct (p +:+ String c EmptyString) eqn:Hp; [| exact IH].
  destruct p; discriminate Hp.
Qed.

Lemma endswith_app_r (c : ascii) (a b : string) :
  b <> EmptyString -> endswith c (a +:+ b) = endswith c b.
Proof.
  intros Hb. induction a as [|x a IH]; [reflexivity |].
  rewrite app_cons. simpl.
  destruct (a +:+ b) eqn:Hab; [| exact IH].
  destruct a; [rewrite app_nil_l in Hab; contradiction | discriminate Hab].
Qed.

Lemma nonempty_app (a : string) (c : ascii) (b : string) :
  nonempty (a +:+ String c b) = true.
Proof. destruct a; reflexivity. Qed.

(** *** The last line that is not empty *)

Lemma join_app_cons (l1 : list string) (x : string) (l2 : list string) :
  join (l1 ++ x :: l2) = closed l1 +:+ join (x :: l2).
Proof.
  induction l1 as [|y l1 IH]; [reflexivity |].
  change ((y :: l1) ++ x :: l2) with (y :: (l1 ++ x :: l2)).
  destruct (l1 ++ x :: l2) as [|z l] eqn:Hl.
  - destruct l1; discriminate Hl.
  - rewrite join_cons, IH. simpl closed.
    rewrite app_assoc, app_cons. reflexivity.
Qed.

Lemma closed_endswith (l : list string) :
  l <> [] -> endswith NL (closed l) = true.
Proof.
  induction l as [|x l IH]; [contradiction |]. intros _. simpl.
  destruct l as [|y l].
  - apply endswith_snoc.
  - rewrite endswith_app_r by discriminate.
    change (endswith NL (String NL (closed (y :: l))))
      with (match closed (y :: l) with
            | EmptyString => Ascii.eqb NL NL
            | String _ _ => endswith NL (closed (y :: l))
            end).
    destruct (closed (y :: l)); [reflexivity |].
    apply IH. discriminate.
Qed.

Lemma join_empties (x : string) (l : list string) :
  Forall (fun y => nonempty y = false) l ->
  exists tail, join (x :: l) = x +:+ tail /\ blank tail = true.
Proof.
  revert x. induction l as [|y l IH]; intros x Hl.
  - exists EmptyString. rewrite app_nil_r. split; reflexivity.
  - inversion Hl as [|? ? Hy Hl']; subst.
    destruct y; [| discriminate Hy].
    destruct (IH EmptyString Hl') as (tail & Ht & Hb).
    exists (String NL tail). rewrite join_cons, Ht, app_nil_l.
    split; [reflexivity | exact Hb].
Qed.

Lemma last_filter {A} (p : A -> bool) (l : list A) (x : A) :
  List.last (List.map Some (List.filter p l)) None = Some x ->
  exists l1 l2,
    l = l1 ++ x :: l2 /\ p x = true /\ Forall (fun y => p y = false) l2.
Proof.
  induction l as [|a l IH]; simpl; [discriminate |].
  destruct (List.filter p l) as [|b f] eqn:Hf.
  - destruct (p a) eqn:Ha; simpl; [| discriminate].
    intros [= ->]. exists [], l. repeat split; [exact Ha |].
    apply Forall_forall. intros y Hy.
    destruct (p y) eqn:Hpy; [| reflexivity].
    assert (In y (List.filter p l)) as Hin
      by (apply List.filter_In; split; [| exact Hpy];
          apply list_elem_of_In; exact Hy).
    rewrite Hf in Hin. destruct Hin.
  - intros H.
    assert (List.last (List.map Some (b :: f)) None = Some x) as H'
      by (destruct (p a); exact H).
    destruct (IH H') as (l1 & l2 & -> & Hx & Hl2).
    exists (a :: l1), l2. repeat split; assumption.
Qed.

Lemma has_nl_lstrip (s : string) : has_nl s = false -> has_nl (lstrip s) = false.
Proof.
  induction s as [|c s IH]; simpl; [reflexivity |].
  intros [Hc Hs]%orb_false_elim.
  destruct (isspace c); [exact (IH Hs) |]. simpl. now rewrite Hc, Hs.
Qed.

Lemma has_nl_rstrip (s : string) : has_nl s = false -> has_nl (rstrip s) = false.
Proof.
  induction s as [|c s IH]; simpl; [reflexivity |].
  intros [Hc Hs]%orb_false_elim. specialize (IH Hs).
  destruct (rstrip s).
  - destruct (isspace c); simpl; [reflexivity | now rewrite Hc].
  - simpl in *. now rewrite Hc, IH.
Qed.

Lemma rstrip_not_blank (s : string) :
  blank s = false -> rstrip s <> EmptyString.
Proof.
  induction s as [|c s IH]; simpl; [discriminate |].
  intros Hb. destruct (rstrip s) eqn:Hr; [| discriminate].
  destruct (isspace c); [| discriminate].
  simpl in Hb. elim (IH Hb). reflexivity.
Qed.

Lemma blank_lstrip (s : string) : blank s = false -> blank (lstrip s) = false.
Proof.
  induction s as [|c s IH]; simpl; [discriminate |].
  destruct (isspace c) eqn:Hc; simpl; [exact IH |].
  intros _. now rewrite Hc.
Qed.

Lemma nonempty_iff (s : string) : s <> EmptyString -> nonempty s = true.
Proof. destruct s; [contradiction | reflexivity]. Qed.

(** What the service hands to the JSON decoder is the last line that is
    not empty, without the blanks at its end and, when nothing but
    blanks comes before it, without the blanks at its start; and the
    stripped output is not empty. *)
Lemma last_line_strip (s L : string) :
  Job.last_nonempty_line s = Some L ->
  blank L = false ->
  (Py.last_line (strip s) = rstrip L \/ Py.last_line (strip s) = strip L)
  /\ nonempty (strip s) = true.
Proof.
  unfold Job.last_nonempty_line, Py.last_line. intros Hlast HLb.
  destruct (last_filter _ _ _ Hlast) as (l1 & l2 & Hs & HLne & Hl2).
  assert (has_nl L = false) as Hnl.
  { pose proof (split_lines s) as Hall. rewrite Hs in Hall.
    apply Forall_app in Hall as [_ Hall]. now inversion Hall. }
  destruct (join_empties L l2 Hl2) as (tail & Htail & Hblank).
  assert (s = closed l1 +:+ L +:+ tail) as ->.
  { rewrite <- (join_split s), Hs, join_app_cons, Htail. reflexivity. }
  unfold strip.
  destruct (blank (closed l1)) eqn:Hpre.
  - rewrite lstrip_blank by exact Hpre.
    rewrite lstrip_app by exact HLb.
    rewrite rstrip_app_blank by exact Hblank.
    rewrite (split_one _ (has_nl_rstrip _ (has_nl_lstrip _ Hnl))).
    split; [right; reflexivity |].
    apply nonempty_iff, rstrip_not_blank, blank_lstrip. exact HLb.
  - rewrite lstrip_app by exact Hpre.
    assert (l1 <> []) as Hl1 by (intros ->; discriminate Hpre).
    pose proof (lstrip_endswith NL _ (closed_endswith l1 Hl1)
                  (lstrip_not_blank _ Hpre)) as Hend.
    destruct (endswith_app _ _ Hend) as [p ->].
    assert (rstrip (L +:+ tail) = rstrip L) as Hr
      by (apply rstrip_app_blank; exact Hblank).
    rewrite rstrip_app by (rewrite Hr; apply rstrip_not_blank; exact HLb).
    rewrite Hr, app_assoc, app_cons, app_nil_l.
    rewrite split_app, (split_one _ (has_nl_rstrip _ Hnl)). split.
    + left. apply last_item_app.
    + apply nonempty_app.
Qed.

End PyStrFacts.

(** ** Running computations *)

Lemma bind_return {A B} (c : M A) (k : A -> M B) m a m' :
  c m = (Return a, m') -> bind c k m = k a m'.
Proof. intros H. unfold bind. rewrite H. reflexivity. Qed.

Lemma bind_raise {A B} (c : M A) (k : A -> M B) m e m' :
  c m = (Raise e, m') -> bind c k m = (Raise e, m').
Proof. intros H. unfold bind. rewrite H. reflexivity. Qed.

Lemma bind_returns {A B} (c : M A) (k : A -> M B) m b m' :
  bind c k m = (Return b, m') ->
  exists a m1, c m = (Return a, m1) /\ k a m1 = (Return b, m').
Proof.
  unfold bind. destruct (c m) as [[a|e] m1]; intros H.
  - exists a, m1. split; [reflexivity | exact H].
  - discriminate H.
Qed.

Lemma try_except_return {A} (c : M A) (h : exn -> M A) m a m' :
  c m = (Return a, m') -> try_except c h m = (Return a, m').
Proof. intros H. unfold try_except. rewrite H. reflexivity. Qed.

Lemma try_except_raise {A} (c : M A) (h : exn -> M A) m e m' :
  c m = (Raise e, m') -> try_except c h m = h e m'.
Proof. intros H. unfold try_except. rewrite H. reflexivity. Qed.

Lemma machine_eta m : Machine (fs m) (frame m) (trace m) = m.
Proof. destruct m. reflexivity. Qed.

(** *** The notifier *)

Lemma send_webhook_notification_run E cb ex st res m :
  send_webhook_notification E cb ex st res m
  = (Return tt,
     Machine (fs m) (frame m) (trace m ++ [Post cb (Job.payload E ex st res)])).
Proof.
  unfold send_webhook_notification, try_except, requests_post, bind, emit, lift.
  cbn. fold (Job.payload E ex st res).
  destruct (http_post E cb (Job.payload E ex st res)) as [code|e]; cbn.
  - destruct (code =? 200); reflexivity.
  - reflexivity.
Qed.

(** *** The handler of exceptions *)

Lemma on_error_run E e m cb ex :
  Py.dict_get "callback_url" (frame m) = Some cb ->
  Py.dict_get "execution_id" (frame m) = Some ex ->
  on_error E e m
  = (Return (Job.error_envelope e),
     Machine (fs m) (frame m)
       (trace m ++ [Post cb (Job.payload E ex (PStr "failed") (Job.error_result e))])).
Proof.
  intros Hcb Hex. unfold on_error, locals, bind. rewrite Hcb, Hex.
  rewrite send_webhook_notification_run. reflexivity.
Qed.

Lemma on_error_returns E e m :
  exists t,
    on_error E e m = (Return (Job.error_envelope e), Machine (fs m) (frame m) t).
Proof.
  unfold on_error, locals, bind.
  destruct (Py.dict_get "callback_url" (frame m)) as [cb|];
    [destruct (Py.dict_get "execution_id" (frame m)) as [ex|] |].
  - rewrite send_webhook_notification_run. eexists. reflexivity.
  - eexists. cbn. rewrite machine_eta. reflexivity.
  - eexists. cbn. rewrite machine_eta. reflexivity.
Qed.

(** *** The cleanup *)

Lemma os_unlink_frame E p m r m' :
  os_unlink E p m = (r, m') ->
  frame m' = frame m /\ trace m' = trace m /\ fs m' ⊆ fs m.
Proof.
  unfold os_unlink, or_raise, os_path_exists, bind, set_fs, raise, ret.
  destruct (unlink_error E p) as [e|]; cbn.
  - intros H. injection H as <- <-. set_solver.
  - destruct (bool_decide (p ∈ fs m)); cbn; intros H; injection H as <- <-;
      cbn; set_solver.
Qed.

Lemma cleanup_returns E p m :
  exists files,
    cleanup E p m = (Return tt, Machine files (frame m) (trace m))
    /\ files ⊆ fs m.
Proof.
  unfold cleanup, try_except, bind.
  destruct (os_unlink E p m) as [[[]|e] m1] eqn:H1.
  - apply os_unlink_frame in H1 as (Hf & Ht & Hs).
    unfold os_path_exists at 1.
    destruct (bool_decide ("/tmp/result.csv" ∈ fs m1)).
    + destruct (os_unlink E "/tmp/result.csv" m1) as [[[]|e] m2] eqn:H2;
        apply os_unlink_frame in H2 as (Hf2 & Ht2 & Hs2);
        exists (fs m2); cbn; (split; [| set_solver]);
        rewrite <- Hf, <- Ht, <- Hf2, <- Ht2, machine_eta; reflexivity.
    + exists (fs m1). cbn. split; [| set_solver].
      rewrite <- Hf, <- Ht, machine_eta. reflexivity.
  - apply os_unlink_frame in H1 as (Hf & Ht & Hs).
    exists (fs m1). cbn. split; [| set_solver].
    rewrite <- Hf, <- Ht, machine_eta. reflexivity.
Qed.

Lemma cleanup_removes E p m :
  unlink_error E p = None ->
  unlink_error E "/tmp/result.csv" = None ->
  p ∈ fs m ->
  cleanup E p m
  = (Return tt,
     Machine (fs m ∖ {[p]} ∖ {["/tmp/result.csv"]}) (frame m) (trace m)).
Proof.
  intros Hp Hr Hin.
  unfold cleanup, try_except, bind, os_unlink, or_raise, os_path_exists,
    set_fs, raise, ret.
  rewrite Hp. cbn. rewrite bool_decide_eq_true_2 by exact Hin. cbn.
  destruct (bool_decide ("/tmp/result.csv" ∈ fs m ∖ {[p]})) eqn:Hres.
  - rewrite Hr. cbn. rewrite Hres. cbn. reflexivity.
  - apply bool_decide_eq_false_1 in Hres. f_equal. f_equal.
    apply set_eq. set_solver.
Qed.

(** *** The script runner *)

Import Job.

Lemma execute_script_not_joined E sp input ex m e :
  Py.os_path_join "/app/scripts" sp = Raise e ->
  execute_script E sp input ex m = (Return (error_outcome (Py.exn_str e)), m).
Proof.
  intros Hj. unfold execute_script, try_except, bind, lift. rewrite Hj.
  destruct sp; cbn in Hj; try discriminate Hj; injection Hj as <-; reflexivity.
Qed.

Lemma execute_script_missing E sp input ex m full :
  Py.os_path_join "/app/scripts" sp = Return full ->
  full ∉ fs m ->
  execute_script E sp input ex m
  = (Return (error_outcome ("Script not found: " +:+ full)), m).
Proof.
  intros Hj Hin.
  unfold execute_script, try_except, bind, lift, os_path_exists. rewrite Hj.
  rewrite bool_decide_eq_false_2 by exact Hin. reflexivity.
Qed.

Lemma execute_script_spawn_error E sp input ex m full e :
  Py.os_path_join "/app/scripts" sp = Return full ->
  full ∈ fs m ->
  spawn_error (run_child E full input ex) = Some e ->
  exists out,
    execute_script E sp input ex m
    = (Return (error_outcome out),
       Machine (fs m) (frame m) (trace m ++ [Spawn full input ex])).
Proof.
  intros Hj Hin Hs.
  unfold execute_script, try_except, bind, lift, os_path_exists,
    subprocess_run, emit, raise, ret.
  rewrite Hj. rewrite bool_decide_eq_true_2 by exact Hin. cbn. rewrite Hs.
  destruct e; eexists; reflexivity.
Qed.

Lemma execute_script_exit E sp input ex m full :
  let c := run_child E full input ex in
  Py.os_path_join "/app/scripts" sp = Return full ->
  full ∈ fs m ->
  spawn_error c = None ->
  duration c <= 300 ->
  execute_script E sp input ex m
  = (Return (exit_outcome c), launched m full input ex c).
Proof.
  intros c Hj Hin Hs Hd.
  unfold execute_script, try_except, bind, lift, os_path_exists,
    subprocess_run, emit, raise, ret, set_fs.
  rewrite Hj. rewrite bool_decide_eq_true_2 by exact Hin. cbn.
  fold c. rewrite Hs. cbn.
  replace (300 <? duration c) with false by (symmetry; apply Z.ltb_ge; exact Hd).
  unfold exit_outcome, launched.
  destruct (returncode c =? 0); reflexivity.
Qed.

Lemma execute_script_timeout E sp input ex m full :
  let c := run_child E full input ex in
  Py.os_path_join "/app/scripts" sp = Return full ->
  full ∈ fs m ->
  spawn_error c = None ->
  300 < duration c ->
  execute_script E sp input ex m
  = (Return (error_outcome timeout_message), launched m full input ex c).
Proof.
  intros c Hj Hin Hs Hd.
  unfold execute_script, try_except, bind, lift, os_path_exists,
    subprocess_run, emit, raise, ret, set_fs.
  rewrite Hj. rewrite bool_decide_eq_true_2 by exact Hin. cbn.
  fold c. rewrite Hs. cbn.
  replace (300 <? duration c) with true by (symmetry; apply Z.ltb_lt; exact Hd).
  reflexivity.
Qed.

(** The runner always returns, and what it returns is an outcome of one
    of two shapes. *)
Lemma execute_script_returns E sp input ex m :
  exists sr m',
    execute_script E sp input ex m = (Return sr, m')
    /\ ((exists msg, sr = error_outcome msg)
        \/ (exists c, sr = exit_outcome c))
    /\ frame m' = frame m
    /\ (trace m' = trace m
        \/ exists full, trace m' = trace m ++ [Spawn full input ex]).
Proof.
  destruct (Py.os_path_join "/app/scripts" sp) as [full|e] eqn:Hj.
  2:{ rewrite (execute_script_not_joined _ _ _ _ _ _ Hj).
      do 2 eexists. repeat split; eauto. }
  destruct (decide (full ∈ fs m)) as [Hin|Hin].
  2:{ rewrite (execute_script_missing _ _ _ _ _ _ Hj Hin).
      do 2 eexists. repeat split; eauto. }
  destruct (spawn_error (run_child E full input ex)) as [e|] eqn:Hs.
  { destruct (execute_script_spawn_error _ _ _ _ _ _ _ Hj Hin Hs) as [out ->].
    do 2 eexists. repeat split; cbn; eauto. }
  destruct (Z_le_gt_dec (duration (run_child E full input ex)) 300) as [Hd|Hd].
  - rewrite (execute_script_exit _ _ _ _ _ _ Hj Hin Hs Hd).
    do 2 eexists. repeat split; cbn; eauto.
  - rewrite (execute_script_timeout _ _ _ _ _ _ Hj Hin Hs) by lia.
    do 2 eexists. repeat split; cbn; eauto.
Qed.

(** *** The request and the fetch *)

Lemma serve_parsed E files d :
  request_json E = Return (PDict d) ->
  serve E files
  = try_except
      (pipeline E (field d "executionId") (field d "scriptPath")
         (field d "fileReference") (field d "callbackUrl"))
      (on_error E) (parsed files d).
Proof.
  intros Hreq.
  unfold serve, process_finance_operation, try_except, bind, assign, lift, start.
  rewrite Hreq. reflexivity.
Qed.

Lemma serve_no_body E files e :
  request_json E = Raise e ->
  serve E files = (Return (error_envelope e), start files).
Proof.
  intros Hreq.
  unfold serve, process_finance_operation, try_except, bind, assign, lift, start.
  rewrite Hreq. reflexivity.
Qed.

Lemma serve_not_object E files v :
  request_json E = Return v ->
  (forall d, v <> PDict d) ->
  serve E files
  = (Return (error_envelope (Py.no_attribute v "get")),
     Machine files [("data", v)] []).
Proof.
  intros Hreq Hv.
  unfold serve, process_finance_operation, try_except, bind, assign, lift, start.
  rewrite Hreq.
  destruct v; try reflexivity. elim (Hv d). reflexivity.
Qed.

Lemma posts_app t u : posts (t ++ u) = posts t ++ posts u.
Proof. apply List.filter_app. Qed.

(** The fetch binds no variable and calls only the artifact store, at
    most once. *)
Lemma download_frame E fr m r m' :
  download_file_from_storage E fr m = (r, m') ->
  frame m' = frame m
  /\ (trace m' = trace m
      \/ exists sp dest, trace m' = trace m ++ [Fetch sp dest]).
Proof.
  unfold download_file_from_storage, try_except, bind, or_raise, lift,
    NamedTemporaryFile, download_to_filename, emit, set_fs, raise, ret.
  destruct (storage_bucket E) as [e|]; cbn.
  { intros H. inversion H. auto. }
  destruct (Py.subscript fr "storagePath") as [sp|e]; cbn.
  2:{ intros H. inversion H. auto. }
  destruct (storage_blob E sp) as [e|]; cbn.
  { intros H. inversion H. auto. }
  destruct (temp_file E) as [name|e]; cbn.
  2:{ intros H. inversion H. auto. }
  destruct (download E sp name) as [|e []]; cbn;
    intros H; inversion H; cbn; eauto.
Qed.

(** *** The pipeline *)

Lemma pipeline_fetch_error E ex sp fr cb m e m1 :
  download_file_from_storage E fr m = (Raise e, m1) ->
  pipeline E ex sp fr cb m = (Raise e, m1).
Proof. intros H. unfold pipeline. apply bind_raise. exact H. Qed.

Lemma notify_run E cb ex st res m :
  (if Py.truthy cb then send_webhook_notification E cb ex st res else ret tt) m
  = (Return tt,
     Machine (fs m) (frame m) (trace m ++ notified E cb ex st res)).
Proof.
  unfold notified. destruct (Py.truthy cb).
  - apply send_webhook_notification_run.
  - unfold ret. rewrite app_nil_r, machine_eta. reflexivity.
Qed.

Lemma failed_run sd m :
  failed (PDict sd) m = (Return (PStr "failed", failure_of sd), m).
Proof. reflexivity. Qed.

Lemma pipeline_failed E ex sp fr cb m input m1 sd m2 v :
  download_file_from_storage E fr m = (Return input, m1) ->
  execute_script E sp input ex m1 = (Return (PDict sd), m2) ->
  Py.dict_get "success" sd = Some v ->
  Py.truthy v = false ->
  exists files,
    pipeline E ex sp fr cb m
    = (Return (envelope ex (PStr "failed") (failure_of sd)),
       Machine files (frame m2)
         (trace m2 ++ notified E cb ex (PStr "failed") (failure_of sd)))
    /\ files ⊆ fs m2.
Proof.
  intros Hd Hx Hs Hv. unfold pipeline.
  rewrite (bind_return _ _ _ _ _ Hd).
  rewrite (bind_return _ _ _ _ _ Hx).
  unfold bind at 1, lift at 1. cbn. rewrite Hs, Hv.
  rewrite (bind_return _ _ _ _ _ (failed_run sd m2)).
  rewrite (bind_return _ _ _ _ _ (notify_run E cb ex _ _ m2)).
  destruct (cleanup_returns E input
              (Machine (fs m2) (frame m2)
                 (trace m2 ++ notified E cb ex (PStr "failed") (failure_of sd))))
    as (files & Hc & Hsub).
  rewrite (bind_return _ _ _ _ _ Hc).
  exists files. split; [reflexivity | exact Hsub].
Qed.

(** *** The metrics and the result of a successful script *)

Lemma parse_metrics_run E sd out m :
  Py.dict_get "stdout" sd = Some (PStr out) ->
  parse_metrics E (PDict sd) m = (Return (metrics_of E out), m).
Proof.
  intros Ho.
  unfold parse_metrics, try_except, bind, lift, metrics_of, Py.subscript.
  rewrite Ho. unfold Py.strip.
  destruct (PyStr.nonempty (PyStr.strip out)); [| reflexivity].
  destruct (json_loads E (Py.last_line (PyStr.strip out))); reflexivity.
Qed.

(** The parse step never raises, whatever it is given. *)
Lemma parse_metrics_returns E sr m :
  exists v, parse_metrics E sr m = (Return v, m).
Proof.
  unfold parse_metrics, try_except, bind, lift, ret.
  destruct (Py.subscript sr "stdout") as [out|e]; [| eauto].
  destruct (Py.strip out) as [text|e]; [| eauto].
  destruct (PyStr.nonempty text); [| eauto].
  destruct (json_loads E (Py.last_line text)); eauto.
Qed.

Lemma assemble_run (mt : dict) (outs : list pyval) m :
  (mocked <- lift (Py.get (PDict mt) "mocked") ;;
   let success_message :=
     if Py.truthy mocked then
       "Processing completed successfully"
         +:+ " (MOCKED - No real Stripe API calls made)"
     else "Processing completed successfully" in
   records_processed <- lift (Py.get_default (PDict mt) "recordsProcessed" (PInt 0)) ;;
   records_successful <- lift (Py.get_default (PDict mt) "recordsSuccessful" (PInt 0)) ;;
   records_failed <- lift (Py.get_default (PDict mt) "recordsFailed" (PInt 0)) ;;
   total_amount <- lift (Py.get (PDict mt) "totalAmount") ;;
   currency <- lift (Py.get (PDict mt) "currency") ;;
   mocked' <- lift (Py.get_default (PDict mt) "mocked" (PBool false)) ;;
   note <- lift (Py.get (PDict mt) "note") ;;
   ret (PStr "completed",
        PDict [("success", PBool true);
               ("message", PStr success_message);
               ("recordsProcessed", records_processed);
               ("recordsSuccessful", records_successful);
               ("recordsFailed", records_failed);
               ("totalAmount", total_amount);
               ("currency", currency);
               ("mocked", mocked');
               ("note", note);
               ("data", PDict mt);
               ("outputFiles", PList outs)])) m
  = (Return (PStr "completed", success_result mt outs), m).
Proof. reflexivity. Qed.

Lemma completed_run E sd ex m outs m1 out mt :
  materialize E ex m = (Return outs, m1) ->
  Py.dict_get "stdout" sd = Some (PStr out) ->
  metrics_of E out = PDict mt ->
  completed E (PDict sd) ex m
  = (Return (PStr "completed", success_result mt outs), m1).
Proof.
  intros Hm Ho Hmt. unfold completed.
  rewrite (bind_return _ _ _ _ _ Hm).
  rewrite (bind_return _ _ _ _ _ (parse_metrics_run E sd out m1 Ho)).
  rewrite Hmt. apply assemble_run.
Qed.

(** Metrics that are not an object make the assembly raise. *)
Lemma completed_not_object E sd ex m outs m1 out :
  materialize E ex m = (Return outs, m1) ->
  Py.dict_get "stdout" sd = Some (PStr out) ->
  (forall mt, metrics_of E out <> PDict mt) ->
  completed E (PDict sd) ex m
  = (Raise (Py.no_attribute (metrics_of E out) "get"), m1).
Proof.
  intros Hm Ho Hmt. unfold completed.
  rewrite (bind_return _ _ _ _ _ Hm).
  rewrite (bind_return _ _ _ _ _ (parse_metrics_run E sd out m1 Ho)).
  apply bind_raise. unfold lift.
  destruct (metrics_of E out); try reflexivity. elim (Hmt d). reflexivity.
Qed.

(** Whatever a successful script returns with is a result built from
    metrics that are an object. *)
Lemma completed_returns E sr ex m st res m' :
  completed E sr ex m = (Return (st, res), m') ->
  exists mt outs, st = PStr "completed" /\ res = success_result mt outs.
Proof.
  unfold completed. intros H.
  apply bind_returns in H as (outs & m1 & _ & H).
  apply bind_returns in H as (metrics & m2 & _ & H).
  destruct metrics as [| | | | | |mt];
    try (apply bind_returns in H as (x & mx & Hx & _); discriminate Hx).
  rewrite assemble_run in H. inversion H. eauto.
Qed.

Lemma materialize_frame E ex m r m' :
  materialize E ex m = (r, m') ->
  fs m' = fs m /\ frame m' = frame m /\ posts (trace m') = posts (trace m).
Proof.
  unfold materialize, bind, os_path_exists, upload_result_to_storage,
    try_except, or_raise, lift, emit, raise, ret.
  destruct (bool_decide ("/tmp/result.csv" ∈ fs m)); cbn.
  2:{ intros H. inversion H. auto. }
  destruct (storage_bucket E) as [e|]; cbn.
  { intros H. inversion H. auto. }
  destruct (storage_blob E _) as [e|]; cbn.
  { intros H. inversion H. auto. }
  destruct (upload_from_filename E _ _) as [e|]; cbn.
  { intros H. inversion H. cbn. rewrite posts_app, app_nil_r. auto. }
  destruct (signed_url E _) as [url|e]; cbn.
  2:{ intros H. inversion H. cbn. rewrite posts_app, app_nil_r. auto. }
  destruct (getsize E _) as [size|e]; cbn;
    intros H; inversion H; cbn; rewrite posts_app, app_nil_r; auto.
Qed.

Lemma pipeline_completed E ex sp fr cb m input m1 sd m2 v outs m3 out mt :
  download_file_from_storage E fr m = (Return input, m1) ->
  execute_script E sp input ex m1 = (Return (PDict sd), m2) ->
  Py.dict_get "success" sd = Some v ->
  Py.truthy v = true ->
  materialize E ex m2 = (Return outs, m3) ->
  Py.dict_get "stdout" sd = Some (PStr out) ->
  metrics_of E out = PDict mt ->
  exists files,
    pipeline E ex sp fr cb m
    = (Return (envelope ex (PStr "completed") (success_result mt outs)),
       Machine files (frame m3)
         (trace m3
            ++ notified E cb ex (PStr "completed") (success_result mt outs)))
    /\ files ⊆ fs m3.
Proof.
  intros Hd Hx Hs Hv Hm Ho Hmt. unfold pipeline.
  rewrite (bind_return _ _ _ _ _ Hd).
  rewrite (bind_return _ _ _ _ _ Hx).
  unfold bind at 1, lift at 1. cbn. rewrite Hs, Hv.
  rewrite (bind_return _ _ _ _ _ (completed_run E sd ex m2 outs m3 out mt Hm Ho Hmt)).
  rewrite (bind_return _ _ _ _ _ (notify_run E cb ex _ _ m3)).
  destruct (cleanup_returns E input
              (Machine (fs m3) (frame m3)
                 (trace m3
                    ++ notified E cb ex (PStr "completed") (success_result mt outs))))
    as (files & Hc & Hsub).
  rewrite (bind_return _ _ _ _ _ Hc).
  exists files. split; [reflexivity | exact Hsub].
Qed.

(** An exception after the script has run reaches the handler with the
    input file in place. *)
Lemma pipeline_completed_raises E ex sp fr cb m input m1 sd m2 v e m3 :
  download_file_from_storage E fr m = (Return input, m1) ->
  execute_script E sp input ex m1 = (Return (PDict sd), m2) ->
  Py.dict_get "success" sd = Some v ->
  Py.truthy v = true ->
  completed E (PDict sd) ex m2 = (Raise e, m3) ->
  pipeline E ex sp fr cb m = (Raise e, m3).
Proof.
  intros Hd Hx Hs Hv Hc. unfold pipeline.
  rewrite (bind_return _ _ _ _ _ Hd).
  rewrite (bind_return _ _ _ _ _ Hx).
  unfold bind at 1, lift at 1. cbn. rewrite Hs, Hv.
  apply bind_raise. exact Hc.
Qed.

(** *** From the request to the answer *)

Lemma ran_exit E files d c m :
  ran E files d c m ->
  duration c <= 300 ->
  exists input m1,
    request_json E = Return (PDict d)
    /\ download_file_from_storage E (field d "fileReference") (parsed files d)
       = (Return input, m1)
    /\ execute_script E (field d "scriptPath") input (field d "executionId") m1
       = (Return (exit_outcome c), m).
Proof.
  intros (input & m1 & full & Hreq & Hd & Hj & Hin & -> & Hs & ->) Hdur.
  exists input, m1. repeat split; [exact Hreq | exact Hd |].
  apply execute_script_exit; assumption.
Qed.

Lemma ran_timeout E files d c m :
  ran E files d c m ->
  300 < duration c ->
  exists input m1,
    request_json E = Return (PDict d)
    /\ download_file_from_storage E (field d "fileReference") (parsed files d)
       = (Return input, m1)
    /\ execute_script E (field d "scriptPath") input (field d "executionId") m1
       = (Return (error_outcome timeout_message), m).
Proof.
  intros (input & m1 & full & Hreq & Hd & Hj & Hin & -> & Hs & ->) Hdur.
  exists input, m1. repeat split; [exact Hreq | exact Hd |].
  apply execute_script_timeout; assumption.
Qed.

Lemma ran_posts E files d c m :
  ran E files d c m -> posts (trace m) = [].
Proof.
  intros (input & m1 & full & Hreq & Hd & Hj & Hin & -> & Hs & ->).
  apply download_frame in Hd as [_ Ht]. unfold launched. cbn.
  rewrite posts_app, app_nil_r.
  destruct Ht as [-> | (sp & dest & ->)]; reflexivity.
Qed.

(** A job whose script failed is answered as handled, with the failure
    sent to the callback when there is one. *)
Lemma serve_failed E files d input m1 sd m2 v :
  request_json E = Return (PDict d) ->
  download_file_from_storage E (field d "fileReference") (parsed files d)
  = (Return input, m1) ->
  execute_script E (field d "scriptPath") input (field d "executionId") m1
  = (Return (PDict sd), m2) ->
  Py.dict_get "success" sd = Some v ->
  Py.truthy v = false ->
  exists left,
    serve E files
    = (Return (envelope (field d "executionId") (PStr "failed") (failure_of sd)),
       Machine left (frame m2)
         (trace m2
            ++ notified E (field d "callbackUrl") (field d "executionId")
                 (PStr "failed") (failure_of sd)))
    /\ left ⊆ fs m2.
Proof.
  intros Hreq Hd Hx Hs Hv. rewrite (serve_parsed _ _ _ Hreq).
  destruct (pipeline_failed E (field d "executionId") (field d "scriptPath")
              (field d "fileReference") (field d "callbackUrl")
              _ _ _ _ _ _ Hd Hx Hs Hv) as (left & Hp & Hsub).
  exists left. split; [| exact Hsub].
  apply try_except_return. exact Hp.
Qed.

Lemma serve_fetch_error E files d e m1 :
  request_json E = Return (PDict d) ->
  download_file_from_storage E (field d "fileReference") (parsed files d)
  = (Raise e, m1) ->
  serve E files
  = (Return (error_envelope e),
     Machine (fs m1) (frame m1)
       (trace m1
          ++ [Post (field d "callbackUrl")
                (payload E (field d "executionId") (PStr "failed")
                   (error_result e))])).
Proof.
  intros Hreq Hd. rewrite (serve_parsed _ _ _ Hreq).
  rewrite (try_except_raise _ _ _ _ _
             (pipeline_fetch_error E _ _ _ _ _ _ _ Hd)).
  apply download_frame in Hd as [Hf _].
  apply on_error_run; rewrite Hf; reflexivity.
Qed.

(** ** Outcomes of the script runner and failed jobs *)

(** C9 (as amended): the Script Runner knows no registered units: it
    joins the name to [/app/scripts] and asks whether that path exists.
    A name whose joined path does not exist makes it return an outcome
    with [success] false whose error tells that the script was not
    found, and nothing is launched; a name that is not even a string
    gives an outcome with [success] false as well.  No exception leaves
    [execute_script], whatever its arguments.  A name whose joined path
    exists is launched, wherever that path lies: for an absolute name
    the joined path is the name itself, outside the script directory. *)
Theorem unresolved_script_is_an_outcome :
  (forall E script_path input execution_id m,
      (forall full, Py.os_path_join "/app/scripts" script_path = Return full ->
                    full ∉ fs m) ->
      exists msg,
        execute_script E script_path input execution_id m
        = (Return (error_outcome msg), m)
        /\ item (error_outcome msg) "success" = Some (PBool false)
        /\ forall full,
            Py.os_path_join "/app/scripts" script_path = Return full ->
            msg = "Script not found: " +:+ full)
  /\ (forall E script_path input execution_id m,
         exists outcome m',
           execute_script E script_path input execution_id m
           = (Return outcome, m'))
  /\ (forall E script_path input execution_id m full,
         Py.os_path_join "/app/scripts" script_path = Return full ->
         full ∈ fs m ->
         exists outcome m',
           execute_script E script_path input execution_id m
           = (Return outcome, m')
           /\ trace m' = trace m ++ [Spawn full input execution_id])
  /\ (forall name,
         Py.os_path_join "/app/scripts" (PStr (String "/" name))
         = Return (String "/" name)).
Proof.
  split; [| split; [| split]].
  - intros E sp input ex m Hmiss.
    destruct (Py.os_path_join "/app/scripts" sp) as [full|e] eqn:Hj.
    + exists ("Script not found: " +:+ full). split; [| split].
      * apply execute_script_missing; [exact Hj | apply Hmiss; reflexivity].
      * reflexivity.
      * intros full' [= <-]. reflexivity.
    + exists (Py.exn_str e). split; [| split].
      * apply execute_script_not_joined. exact Hj.
      * reflexivity.
      * intros full' Hfull. discriminate Hfull.
  - intros E sp input ex m.
    destruct (execute_script_returns E sp input ex m) as (sr & m' & H & _).
    exists sr, m'. exact H.
  - intros E sp input ex m full Hj Hin.
    destruct (spawn_error (run_child E full input ex)) as [e|] eqn:Hs.
    + destruct (execute_script_spawn_error E sp input ex m full e Hj Hin Hs)
        as (out & Hrun).
      eexists _, _. split; [exact Hrun | reflexivity].
    + destruct (Z_le_gt_dec (duration (run_child E full input ex)) 300)
        as [Hle | Hgt].
      * eexists _, _. split;
          [exact (execute_script_exit E sp input ex m full Hj Hin Hs Hle)
          | reflexivity].
      * eexists _, _. split;
          [apply (execute_script_timeout E sp input ex m full Hj Hin Hs); lia
          | reflexivity].
  - intros name. reflexivity.
Qed.

Lemma unresolved_script_is_an_outcome_witness :
  exists msg,
    execute_script
      (World.world (Return (World.request PNone)) Fetched
         (World.exits 0 EmptyString EmptyString) None (Return 200))
      (PStr "ledger_export.py") World.input (PStr "exec-1")
      (start World.image)
    = (Return (error_outcome msg), start World.image)
    /\ msg = "Script not found: /app/scripts/ledger_export.py".
Proof.
  destruct unresolved_script_is_an_outcome as [H _].
  destruct (H (World.world (Return (World.request PNone)) Fetched
                 (World.exits 0 EmptyString EmptyString) None (Return 200))
              (PStr "ledger_export.py") World.input (PStr "exec-1")
              (start World.image))
    as (msg & Hrun & _ & Hmsg).
  - intros full [= <-]. vm_compute. intros Hin. discriminate Hin.
  - exists msg. split; [exact Hrun |]. apply Hmsg. reflexivity.
Defined.

(** C9 (counterexample): the name [/opt/tools/purge.py] resolves to no
    unit of the script directory; the path exists in the container, and
    the runner launches it and returns an outcome with [success] true. *)
Lemma unresolved_name_is_not_found_fails :
  ~ Stated.unresolved_name_is_not_found.
Proof.
  intros Hstated.
  destruct (Hstated
              (World.world (Return (World.request PNone)) Fetched
                 (World.exits 0 EmptyString EmptyString) None (Return 200))
              (PStr "/opt/tools/purge.py") World.input (PStr "exec-1")
              (start {[ "/opt/tools/purge.py" ]}))
    as (outcome & reason & m' & Hrun & Hsuccess & _).
  - intros (rest & Hjoin & _). vm_compute in Hjoin. discriminate Hjoin.
  - vm_compute in Hrun. injection Hrun as <- _.
    vm_compute in Hsuccess. discriminate Hsuccess.
Qed.

(** In a concrete world whose fetch succeeds, the script is launched. *)
Lemma world_ran cb c up post :
  spawn_error c = None ->
  ran (World.world (Return (World.request cb)) Fetched c up post)
    World.image (World.fields cb) c (World.finished cb c).
Proof.
  intros Hs.
  exists World.input,
    (Machine ({[World.input]} ∪ World.image)
       (frame (parsed World.image (World.fields cb)))
       [Fetch (PStr "uploads/in.csv") World.input]),
    World.script.
  split; [reflexivity |]. split; [reflexivity |]. split; [reflexivity |].
  split; [vm_compute; reflexivity |]. split; [reflexivity |].
  split; [exact Hs | reflexivity].
Qed.



(** C3 (as amended): a script still running after 300 seconds gives a
    job that is answered as handled with status [failed]; its result has
    [success] false, the single error "Script execution timed out after 5
    minutes", and as data an empty stdout, an empty stderr and no exit
    code: the output captured before the child was killed is not kept. *)
Theorem timeout_is_a_failed_job :
  forall E files d c m,
    ran E files d c m ->
    300 < duration c ->
    exists left,
      serve E files
      = (Return
           (envelope (field d "executionId") (PStr "failed")
              (failure_result (PStr "Script execution timed out after 5 minutes")
                 (PStr EmptyString) (PStr EmptyString) PNone)),
         Machine left (frame m)
           (trace m
              ++ notified E (field d "callbackUrl") (field d "executionId")
                   (PStr "failed")
                   (failure_result
                      (PStr "Script execution timed out after 5 minutes")
                      (PStr EmptyString) (PStr EmptyString) PNone)))
      /\ left ⊆ fs m.
Proof.
  intros E files d c m Hran Hd.
  destruct (ran_timeout _ _ _ _ _ Hran Hd) as (input & m1 & Hreq & Hf & Hx).
  apply (serve_failed E files d input m1 _ m (PBool false) Hreq Hf Hx);
    reflexivity.
Qed.

Lemma timeout_is_a_failed_job_witness :
  exists left t,
    serve (World.world (Return (World.request World.hook)) Fetched
             (World.hangs 301 "partial") None (Return 200))
      World.image
    = (Return
         (envelope (PStr "exec-1") (PStr "failed")
            (failure_result (PStr "Script execution timed out after 5 minutes")
               (PStr EmptyString) (PStr EmptyString) PNone)),
       Machine left
         (frame (World.finished World.hook (World.hangs 301 "partial"))) t).
Proof.
  destruct (timeout_is_a_failed_job
              (World.world (Return (World.request World.hook)) Fetched
                 (World.hangs 301 "partial") None (Return 200))
              World.image (World.fields World.hook)
              (World.hangs 301 "partial")
              (World.finished World.hook (World.hangs 301 "partial")))
    as (left & Hserve & _).
  - apply world_ran. reflexivity.
  - vm_compute. reflexivity.
  - exists left. eexists. exact Hserve.
Defined.

(** C3 (counterexample): a script killed after 301 seconds with
    "partial" already read from its stdout; the stdout of the job result
    is empty (and the reason it names is "Script execution timed out
    after 5 minutes", not "timeout"). *)
Lemma timeout_keeps_partial_output_fails :
  ~ Stated.timeout_keeps_partial_output.
Proof.
  intros H.
  destruct (H (World.world (Return (World.request World.hook)) Fetched
                 (World.hangs 301 "partial") None (Return 200))
              World.image (World.fields World.hook)
              (World.hangs 301 "partial")
              (World.finished World.hook (World.hangs 301 "partial")))
    as (results & data & m' & Hserve & _ & _ & Hdata & Hout & _).
  - apply world_ran. reflexivity.
  - vm_compute. reflexivity.
  - vm_compute in Hserve. injection Hserve as Hres _. subst results.
    vm_compute in Hdata. injection Hdata as Hd. subst data.
    specialize (Hout "partial" eq_refl).
    vm_compute in Hout. discriminate Hout.
Qed.

(** C1: no exception leaves [process_finance_operation]: every request
    is answered.  A fetch error is answered with [success] false and
    reported to the callback, when one was supplied, as a failure result;
    a script failure (exit code other than 0) and a timeout are answered
    with a job result whose [success] is false, and that same result is
    sent to the callback, when one was supplied, before the answer is
    returned. *)
Theorem failures_become_results :
  (forall E files, exists resp m, serve E files = (Return resp, m))
  /\ (forall E files d e m1,
         request_json E = Return (PDict d) ->
         download_file_from_storage E (field d "fileReference") (parsed files d)
         = (Raise e, m1) ->
         exists m,
           serve E files = (Return (error_envelope e), m)
           /\ item (body (error_envelope e)) "success" = Some (PBool false)
           /\ item (error_result e) "success" = Some (PBool false)
           /\ (Py.truthy (field d "callbackUrl") = true ->
               posts (trace m)
               = [Post (field d "callbackUrl")
                    (payload E (field d "executionId") (PStr "failed")
                       (error_result e))]))
  /\ (forall E files d c m1,
         ran E files d c m1 ->
         300 < duration c \/ returncode c <> 0 ->
         exists results m,
           serve E files
           = (Return (envelope (field d "executionId") (PStr "failed") results), m)
           /\ item results "success" = Some (PBool false)
           /\ (Py.truthy (field d "callbackUrl") = true ->
               posts (trace m)
               = [Post (field d "callbackUrl")
                    (payload E (field d "executionId") (PStr "failed") results)])).
Proof.
  split; [| split].
  - intros E files. unfold serve, process_finance_operation, try_except.
    match goal with
    | |- context [match ?c (start files) with _ => _ end] =>
        destruct (c (start files)) as [[resp|e] m]
    end.
    + eauto.
    + destruct (on_error_returns E e m) as [t Ht]. rewrite Ht. eauto.
  - intros E files d e m1 Hreq Hd.
    eexists. split; [apply serve_fetch_error; eassumption |].
    split; [reflexivity |]. split; [reflexivity |].
    intros _. cbn. rewrite posts_app.
    apply download_frame in Hd as [_ [-> | (sp & dest & ->)]]; reflexivity.
  - intros E files d c m1 Hran Hfail.
    pose proof (ran_posts _ _ _ _ _ Hran) as Hposts.
    assert (exists sd v input m0,
               request_json E = Return (PDict d)
               /\ download_file_from_storage E (field d "fileReference")
                    (parsed files d) = (Return input, m0)
               /\ execute_script E (field d "scriptPath") input
                    (field d "executionId") m0 = (Return (PDict sd), m1)
               /\ Py.dict_get "success" sd = Some v
               /\ Py.truthy v = false) as (sd & v & input & m0 & Hreq & Hd & Hx & Hs & Hv).
    { destruct (Z_le_gt_dec (duration c) 300) as [Hle|Hgt].
      - destruct Hfail as [Hgt|Hne]; [lia |].
        destruct (ran_exit _ _ _ _ _ Hran Hle) as (input & m0 & Hreq & Hd & Hx).
        unfold exit_outcome in Hx.
        eexists _, (PBool (returncode c =? 0)), input, m0.
        split; [exact Hreq |]. split; [exact Hd |]. split; [exact Hx |].
        split; [reflexivity |]. cbn. apply Z.eqb_neq. exact Hne.
      - destruct (ran_timeout _ _ _ _ _ Hran) as (input & m0 & Hreq & Hd & Hx);
          [lia |].
        unfold error_outcome in Hx.
        eexists _, (PBool false), input, m0.
        split; [exact Hreq |]. split; [exact Hd |]. split; [exact Hx |].
        split; reflexivity. }
    destruct (serve_failed E files d input m0 sd m1 v Hreq Hd Hx Hs Hv)
      as (left & Hserve & _).
    eexists _, _. split; [exact Hserve |]. split; [reflexivity |].
    intros Hcb. cbn. unfold notified. rewrite Hcb, posts_app, Hposts.
    reflexivity.
Qed.

Lemma failures_become_results_witness :
  (exists m,
      serve (World.world (Return (World.request World.hook))
               (FetchFailed World.not_found false)
               (World.exits 0 EmptyString EmptyString) None (Return 200))
        World.image
      = (Return (error_envelope World.not_found), m)
      /\ posts (trace m)
         = [Post World.hook
              (PDict [("executionId", PStr "exec-1");
                      ("status", PStr "failed");
                      ("results", error_result World.not_found);
                      ("timestamp", PStr "2025-06-01T12:00:00")])])
  /\ (exists results m,
         serve (World.world (Return (World.request World.hook)) Fetched
                  (World.exits 1 EmptyString "boom") None (Return 503))
           World.image
         = (Return (envelope (PStr "exec-1") (PStr "failed") results), m)
         /\ item results "success" = Some (PBool false)
         /\ posts (trace m)
            = [Post World.hook
                 (PDict [("executionId", PStr "exec-1");
                         ("status", PStr "failed");
                         ("results", results);
                         ("timestamp", PStr "2025-06-01T12:00:00")])]).
Proof.
  destruct failures_become_results as (_ & Hfetch & Hscript). split.
  - destruct (Hfetch
                (World.world (Return (World.request World.hook))
                   (FetchFailed World.not_found false)
                   (World.exits 0 EmptyString EmptyString) None (Return 200))
                World.image (World.fields World.hook) World.not_found
                (Machine World.image
                   (frame (parsed World.image (World.fields World.hook)))
                   [Fetch (PStr "uploads/in.csv") World.input]))
      as (m & Hserve & _ & _ & Hposts).
    + reflexivity.
    + vm_compute. reflexivity.
    + exists m. split; [exact Hserve |]. apply Hposts. reflexivity.
  - destruct (Hscript
                (World.world (Return (World.request World.hook)) Fetched
                   (World.exits 1 EmptyString "boom") None (Return 503))
                World.image (World.fields World.hook)
                (World.exits 1 EmptyString "boom")
                (World.finished World.hook (World.exits 1 EmptyString "boom")))
      as (results & m & Hserve & Hsuccess & Hposts).
    + apply world_ran. reflexivity.
    + right. vm_compute. discriminate.
    + exists results, m. split; [exact Hserve |]. split; [exact Hsuccess |].
      apply Hposts. reflexivity.
Defined.

(** ** Completed jobs

    *** What an answer can be *)

Lemma failed_returns sr m st res m' :
  failed sr m = (Return (st, res), m') -> st = PStr "failed".
Proof.
  unfold failed. intros H.
  apply bind_returns in H as (error & m1 & _ & H).
  apply bind_returns in H as (out & m2 & _ & H).
  apply bind_returns in H as (err & m3 & _ & H).
  apply bind_returns in H as (code & m4 & _ & H).
  unfold ret in H. now inversion H.
Qed.

(** A handled answer is the envelope of what [completed] or [failed]
    returned. *)
Lemma pipeline_returns E ex sp fr cb m resp m' :
  pipeline E ex sp fr cb m = (Return resp, m') ->
  exists sr m2 st res m3,
    resp = envelope ex st res
    /\ (completed E sr ex m2 = (Return (st, res), m3)
        \/ failed sr m2 = (Return (st, res), m3)).
Proof.
  unfold pipeline. intros H.
  apply bind_returns in H as (input & m1 & _ & H).
  apply bind_returns in H as (sr & m2 & _ & H).
  apply bind_returns in H as (succeeded & m2' & Hs & H).
  apply bind_returns in H as ([st res] & m3 & Ho & H).
  apply bind_returns in H as ([] & m4 & _ & H).
  apply bind_returns in H as ([] & m5 & _ & H).
  unfold ret in H. inversion H; subst.
  unfold lift in Hs. inversion Hs; subst.
  exists sr, m2', st, res, m3. split; [reflexivity |].
  destruct (Py.truthy succeeded); auto.
Qed.

(** Every answer is a handled envelope or the answer to an exception. *)
Lemma serve_returns E files resp m :
  serve E files = (Return resp, m) ->
  (exists e, resp = error_envelope e)
  \/ (exists d sr m2 st res m3,
         request_json E = Return (PDict d)
         /\ resp = envelope (field d "executionId") st res
         /\ (completed E sr (field d "executionId") m2 = (Return (st, res), m3)
             \/ failed sr m2 = (Return (st, res), m3))).
Proof.
  intros H. destruct (request_json E) as [v|e] eqn:Hreq.
  - destruct v as [| | | | | |d];
      try (rewrite (serve_not_object _ _ _ Hreq) in H by discriminate;
           inversion H; eauto).
    rewrite (serve_parsed _ _ _ Hreq) in H. unfold try_except in H.
    destruct (pipeline E _ _ _ _ (parsed files d)) as [[r|e] m'] eqn:Hp.
    + inversion H; subst.
      destruct (pipeline_returns _ _ _ _ _ _ _ _ Hp)
        as (sr & m2 & st & res & m3 & Hr & Hc).
      right. exists d, sr, m2, st, res, m3. auto.
    + destruct (on_error_returns E e m') as [t Ht]. rewrite Ht in H.
      inversion H. eauto.
  - rewrite (serve_no_body _ _ _ Hreq) in H. inversion H. eauto.
Qed.

(** C10: the result of every job answered with status [completed] has
    the keys [recordsProcessed], [recordsSuccessful] and [recordsFailed],
    each with the value the parsed metrics give it and with 0 when the
    metrics lack it, and the key [mocked], with the value of the metrics
    and with [False] when they lack it; with empty metrics the four
    values are 0, 0, 0 and [False]. *)
Theorem completed_result_has_counters :
  forall E files resp m results,
    serve E files = (Return resp, m) ->
    item (body resp) "status" = Some (PStr "completed") ->
    item (body resp) "results" = Some results ->
    exists mt,
      item results "data" = Some (PDict mt)
      /\ item results "success" = Some (PBool true)
      /\ item results "recordsProcessed"
         = Some (with_default (PInt 0) (Py.dict_get "recordsProcessed" mt))
      /\ item results "recordsSuccessful"
         = Some (with_default (PInt 0) (Py.dict_get "recordsSuccessful" mt))
      /\ item results "recordsFailed"
         = Some (with_default (PInt 0) (Py.dict_get "recordsFailed" mt))
      /\ item results "mocked"
         = Some (with_default (PBool false) (Py.dict_get "mocked" mt))
      /\ (mt = [] ->
          item results "recordsProcessed" = Some (PInt 0)
          /\ item results "recordsSuccessful" = Some (PInt 0)
          /\ item results "recordsFailed" = Some (PInt 0)
          /\ item results "mocked" = Some (PBool false)).
Proof.
  intros E files resp m results Hserve Hstatus Hresults.
  destruct (serve_returns _ _ _ _ Hserve)
    as [[e ->] | (d & sr & m2 & st & res & m3 & _ & -> & Hc)].
  { discriminate Hstatus. }
  cbn in Hstatus, Hresults.
  injection Hstatus as ->. injection Hresults as ->.
  destruct Hc as [Hc | Hc].
  - destruct (completed_returns _ _ _ _ _ _ _ Hc) as (mt & outs & _ & ->).
    exists mt. repeat split; try reflexivity; subst mt; reflexivity.
  - apply failed_returns in Hc. discriminate Hc.
Qed.

Lemma completed_result_has_counters_witness :
  exists results,
    item (body (match fst (serve
                              (World.world (Return (World.request PNone)) Fetched
                                 (World.exits 0 "done" EmptyString) None
                                 (Return 200))
                              World.image) with
                | Return resp => resp
                | Raise e => error_envelope e
                end)) "results" = Some results
    /\ item results "data" = Some (PDict [])
    /\ item results "recordsProcessed" = Some (PInt 0)
    /\ item results "recordsSuccessful" = Some (PInt 0)
    /\ item results "recordsFailed" = Some (PInt 0)
    /\ item results "mocked" = Some (PBool false).
Proof.
  pose (E := World.world (Return (World.request PNone)) Fetched
               (World.exits 0 "done" EmptyString) None (Return 200)).
  pose (out := serve E World.image).
  assert (exists resp m results,
             out = (Return resp, m)
             /\ item (body resp) "status" = Some (PStr "completed")
             /\ item (body resp) "results" = Some results)
    as (resp & m & results & Hout & Hstatus & Hresults).
  { vm_compute. do 3 eexists. split; [reflexivity |]. split; reflexivity. }
  destruct (completed_result_has_counters E World.image resp m results
              Hout Hstatus Hresults)
    as (mt & Hdata & _ & Hp & Hs & Hf & Hm & Hempty).
  exists results. fold E. fold out. rewrite Hout. cbn [fst].
  split; [exact Hresults |].
  assert (mt = []) as ->.
  { subst out. vm_compute in Hout. injection Hout as <- _.
    vm_compute in Hresults. injection Hresults as <-.
    vm_compute in Hdata. injection Hdata as <-. reflexivity. }
  destruct (Hempty eq_refl) as (H1 & H2 & H3 & H4).
  repeat split; assumption.
Defined.

(** *** Jobs whose script succeeded *)

(** The metrics depend on the last line that is not empty, and on
    nothing before it. *)
Lemma metrics_of_last_line E out L mt :
  last_nonempty_line out = Some L ->
  record_line E L mt ->
  metrics_of E out = PDict mt.
Proof.
  intros Hlast (Hb & _ & Hr & Hs). unfold metrics_of.
  destruct (PyStrFacts.last_line_strip out L Hlast Hb) as [[-> | ->] ->].
  - rewrite Hr. reflexivity.
  - rewrite Hs. reflexivity.
Qed.

Lemma serve_completed E files d input m1 sd m2 v outs m3 out mt :
  request_json E = Return (PDict d) ->
  download_file_from_storage E (field d "fileReference") (parsed files d)
  = (Return input, m1) ->
  execute_script E (field d "scriptPath") input (field d "executionId") m1
  = (Return (PDict sd), m2) ->
  Py.dict_get "success" sd = Some v ->
  Py.truthy v = true ->
  materialize E (field d "executionId") m2 = (Return outs, m3) ->
  Py.dict_get "stdout" sd = Some (PStr out) ->
  metrics_of E out = PDict mt ->
  exists left,
    serve E files
    = (Return (envelope (field d "executionId") (PStr "completed")
                 (success_result mt outs)),
       Machine left (frame m3)
         (trace m3
            ++ notified E (field d "callbackUrl") (field d "executionId")
                 (PStr "completed") (success_result mt outs)))
    /\ left ⊆ fs m3.
Proof.
  intros Hreq Hd Hx Hs Hv Hm Ho Hmt. rewrite (serve_parsed _ _ _ Hreq).
  destruct (pipeline_completed E (field d "executionId") (field d "scriptPath")
              (field d "fileReference") (field d "callbackUrl")
              _ _ _ _ _ _ _ _ _ _ Hd Hx Hs Hv Hm Ho Hmt)
    as (left & Hp & Hsub).
  exists left. split; [| exact Hsub].
  apply try_except_return. exact Hp.
Qed.




(** ** Requests that lack a field *)

Lemma download_without_reference E m :
  exists e,
    download_file_from_storage E PNone m = (Raise e, m).
Proof.
  unfold download_file_from_storage, try_except, bind, or_raise, lift, raise.
  destruct (storage_bucket E) as [e|]; eauto.
Qed.

(** A fetch that returns has created its file and called the store
    once. *)
Lemma download_returns E fr m input m1 :
  download_file_from_storage E fr m = (Return input, m1) ->
  exists sp,
    m1 = Machine ({[input]} ∪ fs m) (frame m) (trace m ++ [Fetch sp input]).
Proof.
  unfold download_file_from_storage, try_except, bind, or_raise, lift,
    NamedTemporaryFile, download_to_filename, emit, set_fs, raise, ret.
  destruct (storage_bucket E) as [e|]; cbn; [discriminate |].
  destruct (Py.subscript fr "storagePath") as [sp|e]; cbn; [| discriminate].
  destruct (storage_blob E sp) as [e|]; cbn; [discriminate |].
  destruct (temp_file E) as [name|e]; cbn; [| discriminate].
  destruct (download E sp name) as [|e []]; cbn; try discriminate.
  intros H. inversion H; subst. eauto.
Qed.

Lemma field_missing d k : Py.dict_get k d = None -> field d k = PNone.
Proof. intros H. unfold field. rewrite H. reflexivity. Qed.

(** C7 (as amended): the service has no validation step.  A request
    without [fileReference] fails in the fetch, before any file is
    created or downloaded and before any subprocess: it is answered with
    the error envelope (status code 500), and the failure is sent to the
    callback when [callbackUrl] is present.  A request without
    [scriptPath] has its input file downloaded; the Script Runner then
    fails before it launches a subprocess, and the job is answered as
    handled with status [failed], the failure being sent to the callback
    when [callbackUrl] is present. *)
Theorem missing_fields_fail_downstream :
  (forall E files d,
      request_json E = Return (PDict d) ->
      Py.dict_get "fileReference" d = None ->
      exists e m,
        serve E files = (Return (error_envelope e), m)
        /\ fs m = files
        /\ fetches (trace m) = []
        /\ spawns (trace m) = []
        /\ (Py.truthy (field d "callbackUrl") = true ->
            posts (trace m)
            = [Post (field d "callbackUrl")
                 (payload E (field d "executionId") (PStr "failed")
                    (error_result e))]))
  /\ (forall E files d input m1,
         request_json E = Return (PDict d) ->
         Py.dict_get "scriptPath" d = None ->
         download_file_from_storage E (field d "fileReference") (parsed files d)
         = (Return input, m1) ->
         exists left sp results,
           serve E files
           = (Return (envelope (field d "executionId") (PStr "failed") results),
              Machine left (frame m1)
                (Fetch sp input
                   :: notified E (field d "callbackUrl") (field d "executionId")
                        (PStr "failed") results))
           /\ results
              = failure_result
                  (PStr "join() argument must be str, bytes, or os.PathLike object, not 'NoneType'")
                  (PStr EmptyString) (PStr EmptyString) PNone).
Proof.
  split.
  - intros E files d Hreq Hfr.
    destruct (download_without_reference E (parsed files d)) as [e He].
    rewrite <- (field_missing d _ Hfr) in He.
    exists e. eexists. split; [apply (serve_fetch_error _ _ _ _ _ Hreq He) |].
    cbn [fs trace]. split; [reflexivity |]. split; [reflexivity |].
    split; [reflexivity |]. intros _. reflexivity.
  - intros E files d input m1 Hreq Hsp Hd.
    destruct (download_returns _ _ _ _ _ Hd) as [sp Hm1].
    assert (execute_script E (field d "scriptPath") input (field d "executionId") m1
            = (Return
                 (PDict [("success", PBool false);
                         ("error",
                          PStr "join() argument must be str, bytes, or os.PathLike object, not 'NoneType'")]),
               m1)) as Hx.
    { rewrite (field_missing d _ Hsp).
      exact (execute_script_not_joined E PNone input _ m1
               (Exception "TypeError"
                  "join() argument must be str, bytes, or os.PathLike object, not 'NoneType'")
               eq_refl). }
    destruct (serve_failed E files d input m1 _ m1 (PBool false) Hreq Hd Hx)
      as (left & Hserve & _); try reflexivity.
    exists left, sp. eexists. split; [| reflexivity].
    rewrite Hserve. rewrite Hm1. reflexivity.
Qed.

Lemma missing_fields_fail_downstream_witness :
  (exists e m,
      serve (World.world
               (Return (PDict (World.without "fileReference"
                                 (World.fields World.hook))))
               Fetched (World.exits 0 EmptyString EmptyString) None (Return 200))
        World.image
      = (Return (error_envelope e), m)
      /\ fs m = World.image
      /\ fetches (trace m) = []
      /\ spawns (trace m) = [])
  /\ (exists left sp results,
         serve (World.world
                  (Return (PDict (World.without "scriptPath"
                                    (World.fields World.hook))))
                  Fetched (World.exits 0 EmptyString EmptyString) None
                  (Return 200))
           World.image
         = (Return (envelope (PStr "exec-1") (PStr "failed") results),
            Machine left
              (frame (parsed World.image
                        (World.without "scriptPath" (World.fields World.hook))))
              [Fetch sp World.input;
               Post World.hook
                 (PDict [("executionId", PStr "exec-1");
                         ("status", PStr "failed");
                         ("results", results);
                         ("timestamp", PStr "2025-06-01T12:00:00")])])).
Proof.
  destruct missing_fields_fail_downstream as [Hfile Hscript]. split.
  - destruct (Hfile
                (World.world
                   (Return (PDict (World.without "fileReference"
                                     (World.fields World.hook))))
                   Fetched (World.exits 0 EmptyString EmptyString) None
                   (Return 200))
                World.image
                (World.without "fileReference" (World.fields World.hook)))
      as (e & m & Hserve & Hfs & Hfetch & Hspawn & _).
    + reflexivity.
    + reflexivity.
    + exists e, m. repeat split; assumption.
  - destruct (Hscript
                (World.world
                   (Return (PDict (World.without "scriptPath"
                                     (World.fields World.hook))))
                   Fetched (World.exits 0 EmptyString EmptyString) None
                   (Return 200))
                World.image
                (World.without "scriptPath" (World.fields World.hook))
                World.input
                (Machine ({[World.input]} ∪ World.image)
                   (frame (parsed World.image
                             (World.without "scriptPath"
                                (World.fields World.hook))))
                   [Fetch (PStr "uploads/in.csv") World.input]))
      as (left & sp & results & Hserve & _).
    + reflexivity.
    + reflexivity.
    + reflexivity.
    + exists left, sp, results. exact Hserve.
Defined.

(** C7 (counterexample): a request without [scriptPath] and with a
    callback; its input file is downloaded and the callback is called. *)
Lemma missing_field_short_circuits_fails :
  ~ Stated.missing_field_short_circuits.
Proof.
  intros H.
  destruct (H (World.world
                 (Return (PDict (World.without "scriptPath"
                                   (World.fields World.hook))))
                 Fetched (World.exits 0 EmptyString EmptyString) None
                 (Return 200))
              World.image
              (World.without "scriptPath" (World.fields World.hook)))
    as (resp & m & Hserve & _ & Hfetch & _).
  - reflexivity.
  - left. reflexivity.
  - vm_compute in Hserve. injection Hserve as _ Hm. subst m.
    vm_compute in Hfetch. discriminate Hfetch.
Qed.

(** ** The callback, the files left, and metrics that are not an object

    *** The callback endpoint and the removal of files do not decide
    the answer *)

Lemma on_error_with_post E post e m :
  on_error (with_post E post) e m = on_error E e m.
Proof.
  unfold on_error, locals, bind.
  destruct (Py.dict_get "callback_url" (frame m)) as [cb|]; [| reflexivity].
  destruct (Py.dict_get "execution_id" (frame m)) as [ex|]; [| reflexivity].
  rewrite !send_webhook_notification_run. reflexivity.
Qed.

Lemma pipeline_with_post E post ex sp fr cb m :
  pipeline (with_post E post) ex sp fr cb m = pipeline E ex sp fr cb m.
Proof.
  unfold pipeline, bind.
  change (download_file_from_storage (with_post E post))
    with (download_file_from_storage E).
  destruct (download_file_from_storage E fr m) as [[input|e] m1]; [| reflexivity].
  change (execute_script (with_post E post)) with (execute_script E).
  destruct (execute_script E sp input ex m1) as [[sr|e] m2]; [| reflexivity].
  destruct (lift (Py.subscript sr "success") m2) as [[ok|e] m3]; [| reflexivity].
  change (completed (with_post E post)) with (completed E).
  destruct ((if Py.truthy ok then completed E sr ex else failed sr) m3)
    as [[[st res]|e] m4]; [| reflexivity].
  rewrite !notify_run. reflexivity.
Qed.

(** The answer, the calls made and the files left are the same whatever
    the callback endpoint does. *)
Lemma serve_with_post E post files :
  serve (with_post E post) files = serve E files.
Proof.
  destruct (request_json E) as [v|e] eqn:Hreq.
  - destruct v as [| | | | | |d];
      try (rewrite (serve_not_object E files _ Hreq) by discriminate;
           apply serve_not_object; [exact Hreq | discriminate]).
    rewrite (serve_parsed E files d Hreq).
    rewrite (serve_parsed (with_post E post) files d Hreq).
    unfold try_except. rewrite pipeline_with_post.
    destruct (pipeline E _ _ _ _ (parsed files d)) as [[r|e] m']; [reflexivity |].
    apply on_error_with_post.
  - rewrite (serve_no_body E files e Hreq).
    apply serve_no_body. exact Hreq.
Qed.

Lemma pipeline_with_unlink E refuse ex sp fr cb m :
  fst (pipeline (with_unlink E refuse) ex sp fr cb m)
  = fst (pipeline E ex sp fr cb m)
  /\ frame (snd (pipeline (with_unlink E refuse) ex sp fr cb m))
     = frame (snd (pipeline E ex sp fr cb m))
  /\ trace (snd (pipeline (with_unlink E refuse) ex sp fr cb m))
     = trace (snd (pipeline E ex sp fr cb m)).
Proof.
  unfold pipeline, bind.
  change (download_file_from_storage (with_unlink E refuse))
    with (download_file_from_storage E).
  destruct (download_file_from_storage E fr m) as [[input|e] m1]; [| auto].
  change (execute_script (with_unlink E refuse)) with (execute_script E).
  destruct (execute_script E sp input ex m1) as [[sr|e] m2]; [| auto].
  destruct (lift (Py.subscript sr "success") m2) as [[ok|e] m3]; [| auto].
  change (completed (with_unlink E refuse)) with (completed E).
  destruct ((if Py.truthy ok then completed E sr ex else failed sr) m3)
    as [[[st res]|e] m4]; [| auto].
  change (send_webhook_notification (with_unlink E refuse))
    with (send_webhook_notification E).
  rewrite !notify_run.
  match goal with
  | |- context [cleanup E input ?m5] =>
      destruct (cleanup_returns E input m5) as (f1 & -> & _);
      destruct (cleanup_returns (with_unlink E refuse) input m5) as (f2 & -> & _)
  end.
  auto.
Qed.

(** The answer and the calls made are the same whatever [os.unlink]
    refuses. *)
Lemma serve_with_unlink E refuse files :
  fst (serve (with_unlink E refuse) files) = fst (serve E files)
  /\ trace (snd (serve (with_unlink E refuse) files))
     = trace (snd (serve E files)).
Proof.
  destruct (request_json E) as [v|e] eqn:Hreq.
  - destruct v as [| | | | | |d];
      try (rewrite (serve_not_object E files _ Hreq) by discriminate;
           rewrite (serve_not_object (with_unlink E refuse) files _ Hreq)
             by discriminate;
           split; reflexivity).
    rewrite (serve_parsed E files d Hreq).
    rewrite (serve_parsed (with_unlink E refuse) files d Hreq).
    unfold try_except.
    destruct (pipeline_with_unlink E refuse (field d "executionId")
                (field d "scriptPath") (field d "fileReference")
                (field d "callbackUrl") (parsed files d)) as (Hr & Hf & Ht).
    destruct (pipeline (with_unlink E refuse) _ _ _ _ (parsed files d))
      as [r1 m1].
    destruct (pipeline E _ _ _ _ (parsed files d)) as [r2 m2].
    cbn in Hr, Hf, Ht. subst r2.
    destruct r1 as [r|e]; [auto |].
    unfold on_error, locals, bind. rewrite Hf.
    destruct (Py.dict_get "callback_url" (frame m2)) as [cb|];
      [destruct (Py.dict_get "execution_id" (frame m2)) as [ex|] |];
      cbn; try (split; [reflexivity | exact Ht]).
    change (send_webhook_notification (with_unlink E refuse))
      with (send_webhook_notification E).
    rewrite !send_webhook_notification_run. cbn. rewrite Ht. auto.
  - rewrite (serve_no_body E files e Hreq).
    rewrite (serve_no_body (with_unlink E refuse) files e Hreq).
    split; reflexivity.
Qed.

(** *** The callback is called at most once *)

Lemma completed_frame E sr ex m r m' :
  completed E sr ex m = (r, m') ->
  fs m' = fs m /\ frame m' = frame m /\ posts (trace m') = posts (trace m).
Proof.
  unfold completed, bind.
  destruct (materialize E ex m) as [[outs|e] m1] eqn:Hm;
    apply materialize_frame in Hm.
  2:{ intros H. inversion H; subst. exact Hm. }
  destruct (parse_metrics_returns E sr m1) as [metrics ->].
  unfold lift, ret.
  repeat match goal with
         | |- context [match ?x with Return _ => _ | Raise _ => _ end] =>
             destruct x
         end;
    intros H; inversion H; subst; exact Hm.
Qed.

Lemma failed_frame sr m r m' : failed sr m = (r, m') -> m' = m.
Proof.
  unfold failed, bind, lift, ret.
  repeat match goal with
         | |- context [match ?x with Return _ => _ | Raise _ => _ end] =>
             destruct x
         end;
    intros H; inversion H; reflexivity.
Qed.

Lemma outcome_frame E sr ex (ok : bool) m r m' :
  (if ok then completed E sr ex else failed sr) m = (r, m') ->
  fs m' = fs m /\ frame m' = frame m /\ posts (trace m') = posts (trace m).
Proof.
  destruct ok; intros H.
  - exact (completed_frame _ _ _ _ _ _ H).
  - apply failed_frame in H. subst. auto.
Qed.

Lemma execute_script_posts E sp input ex m sr m' :
  execute_script E sp input ex m = (Return sr, m') ->
  frame m' = frame m /\ posts (trace m') = posts (trace m).
Proof.
  intros H.
  destruct (execute_script_returns E sp input ex m)
    as (sr' & m'' & Hx & _ & Hf & Ht).
  rewrite Hx in H. inversion H; subst. split; [exact Hf |].
  destruct Ht as [-> | (full & ->)]; [reflexivity |].
  rewrite posts_app. apply app_nil_r.
Qed.

Lemma download_posts E fr m r m' :
  download_file_from_storage E fr m = (r, m') ->
  frame m' = frame m /\ posts (trace m') = posts (trace m).
Proof.
  intros H. apply download_frame in H as [Hf Ht]. split; [exact Hf |].
  destruct Ht as [-> | (sp & dest & ->)]; [reflexivity |].
  rewrite posts_app. apply app_nil_r.
Qed.

(** The pipeline binds no variable; it calls the callback as [notified]
    says when it returns, and not at all when it raises. *)
Lemma pipeline_posts E ex sp fr cb m r m' :
  pipeline E ex sp fr cb m = (r, m') ->
  frame m' = frame m
  /\ match r with
     | Return _ =>
         exists st res,
           posts (trace m') = posts (trace m) ++ notified E cb ex st res
     | Raise _ => posts (trace m') = posts (trace m)
     end.
Proof.
  unfold pipeline, bind. intros H.
  destruct (download_file_from_storage E fr m) as [[input|e] m1] eqn:Hd;
    apply download_posts in Hd as [Hf1 Hp1].
  2:{ inversion H; subst. auto. }
  destruct (execute_script_returns E sp input ex m1) as (sr & m2 & Hx & _).
  rewrite Hx in H. apply execute_script_posts in Hx as [Hf2 Hp2].
  unfold lift at 1 in H.
  destruct (Py.subscript sr "success") as [ok|e].
  2:{ inversion H; subst. split; congruence. }
  destruct ((if Py.truthy ok then completed E sr ex else failed sr) m2)
    as [[[st res]|e] m3] eqn:Ho;
    apply outcome_frame in Ho as (_ & Hf3 & Hp3).
  2:{ inversion H; subst. split; congruence. }
  rewrite notify_run in H.
  match type of H with
  | context [cleanup E input ?m5] =>
      destruct (cleanup_returns E input m5) as (left & Hc & _);
      rewrite Hc in H
  end.
  inversion H; subst. cbn. split; [congruence |].
  exists st, res. rewrite posts_app. f_equal; [congruence |].
  unfold notified. destruct (Py.truthy cb); reflexivity.
Qed.

(** For every request the callback is called at most once, and exactly
    once when the body is an object with a callback URL. *)
Lemma serve_posts E files :
  (length (posts (trace (snd (serve E files)))) <= 1)%nat
  /\ (forall d, request_json E = Return (PDict d) ->
                Py.truthy (field d "callbackUrl") = true ->
                length (posts (trace (snd (serve E files)))) = 1%nat).
Proof.
  destruct (request_json E) as [v|e] eqn:Hreq.
  2:{ rewrite (serve_no_body _ _ _ Hreq). cbn. split; [lia | discriminate]. }
  destruct v as [| | | | | |d];
    try (rewrite (serve_not_object _ _ _ Hreq) by discriminate; cbn;
         split; [lia | discriminate]).
  rewrite (serve_parsed _ _ _ Hreq). unfold try_except.
  destruct (pipeline E _ _ _ _ (parsed files d)) as [r m'] eqn:Hp.
  apply pipeline_posts in Hp as [Hf Hposts].
  destruct r as [resp|e].
  - destruct Hposts as (st & res & Hposts). cbn. rewrite Hposts.
    unfold notified. split.
    + destruct (Py.truthy (field d "callbackUrl")); cbn; lia.
    + intros d' [= <-] ->. reflexivity.
  - rewrite (on_error_run E e m' (field d "callbackUrl") (field d "executionId"))
      by (rewrite Hf; reflexivity).
    cbn. rewrite posts_app, Hposts. cbn. split; [lia | reflexivity].
Qed.

(** *** The files left by a handled job *)

(** When the input file is still there at the end of the script and
    [os.unlink] refuses nothing, a job answered as handled leaves neither
    its input file nor [/tmp/result.csv]. *)
Lemma handled_job_leaves_no_staging_file E files d input m1 sr m2 resp m' :
  request_json E = Return (PDict d) ->
  download_file_from_storage E (field d "fileReference") (parsed files d)
  = (Return input, m1) ->
  execute_script E (field d "scriptPath") input (field d "executionId") m1
  = (Return sr, m2) ->
  input ∈ fs m2 ->
  unlink_error E input = None ->
  unlink_error E "/tmp/result.csv" = None ->
  serve E files = (Return resp, m') ->
  status_code resp = 200 ->
  (input ∉ fs m') /\ ("/tmp/result.csv" ∉ fs m').
Proof.
  intros Hreq Hd Hx Hin Hu1 Hu2 Hserve Hcode.
  rewrite (serve_parsed _ _ _ Hreq) in Hserve.
  unfold try_except, pipeline in Hserve.
  rewrite (bind_return _ _ _ _ _ Hd) in Hserve.
  rewrite (bind_return _ _ _ _ _ Hx) in Hserve.
  unfold bind at 1, lift at 1 in Hserve.
  assert (forall e m, on_error E e m <> (Return resp, m')) as Hno.
  { intros e m He. destruct (on_error_returns E e m) as [t Ht].
    rewrite Ht in He. inversion He; subst. discriminate Hcode. }
  destruct (Py.subscript sr "success") as [ok|e]; [| elim (Hno _ _ Hserve)].
  unfold bind at 1 in Hserve.
  destruct ((if Py.truthy ok then completed E sr (field d "executionId")
             else failed sr) m2) as [[[st res]|e] m3] eqn:Ho;
    [| elim (Hno _ _ Hserve)].
  apply outcome_frame in Ho as (Hfs & _ & _).
  rewrite (bind_return _ _ _ _ _ (notify_run E _ _ _ _ m3)) in Hserve.
  match type of Hserve with
  | context [bind (cleanup E input) _ ?m4] =>
      assert (input ∈ fs m4) as Hin4 by (cbn; rewrite Hfs; exact Hin);
      rewrite (bind_return _ _ _ _ _ (cleanup_removes E input m4 Hu1 Hu2 Hin4))
        in Hserve
  end.
  unfold ret in Hserve. inversion Hserve; subst. cbn. set_solver.
Qed.

(** A job answered with the error envelope after its script has run
    keeps every file that was there when the script ended. *)
Lemma error_answer_keeps_files E files d input m1 sr m2 resp m' :
  request_json E = Return (PDict d) ->
  download_file_from_storage E (field d "fileReference") (parsed files d)
  = (Return input, m1) ->
  execute_script E (field d "scriptPath") input (field d "executionId") m1
  = (Return sr, m2) ->
  serve E files = (Return resp, m') ->
  status_code resp = 500 ->
  fs m' = fs m2.
Proof.
  intros Hreq Hd Hx Hserve Hcode.
  rewrite (serve_parsed _ _ _ Hreq) in Hserve.
  unfold try_except, pipeline in Hserve.
  rewrite (bind_return _ _ _ _ _ Hd) in Hserve.
  rewrite (bind_return _ _ _ _ _ Hx) in Hserve.
  unfold bind at 1, lift at 1 in Hserve.
  assert (forall e m, on_error E e m = (Return resp, m') -> fs m' = fs m) as Hkeep.
  { intros e m He. destruct (on_error_returns E e m) as [t Ht].
    rewrite Ht in He. inversion He; subst. reflexivity. }
  destruct (Py.subscript sr "success") as [ok|e]; [| exact (Hkeep _ _ Hserve)].
  unfold bind at 1 in Hserve.
  destruct ((if Py.truthy ok then completed E sr (field d "executionId")
             else failed sr) m2) as [[[st res]|e] m3] eqn:Ho;
    apply outcome_frame in Ho as (Hfs & _ & _).
  2:{ rewrite (Hkeep _ _ Hserve). exact Hfs. }
  rewrite (bind_return _ _ _ _ _ (notify_run E _ _ _ _ m3)) in Hserve.
  match type of Hserve with
  | context [bind (cleanup E input) _ ?m4] =>
      destruct (cleanup_returns E input m4) as (left & Hc & _);
      rewrite (bind_return _ _ _ _ _ Hc) in Hserve
  end.
  unfold ret in Hserve. inversion Hserve; subst. discriminate Hcode.
Qed.

(** *** Metrics that are not an object *)

(** When the script exits with 0 and what is decoded from its last line
    is not an object, the job is answered with the error envelope. *)
Lemma serve_metrics_not_object E files d c m outs m3 :
  ran E files d c m ->
  duration c <= 300 ->
  returncode c = 0 ->
  materialize E (field d "executionId") m = (Return outs, m3) ->
  (forall mt, metrics_of E (stdout c) <> PDict mt) ->
  fst (serve E files)
  = Return (error_envelope (Py.no_attribute (metrics_of E (stdout c)) "get")).
Proof.
  intros Hran Hdur Hrc Hm Hmt.
  destruct (ran_exit _ _ _ _ _ Hran Hdur) as (input & m1 & Hreq & Hd & Hx).
  unfold exit_outcome in Hx.
  pose proof (completed_not_object E
                [("success", PBool (returncode c =? 0));
                 ("stdout", PStr (stdout c));
                 ("stderr", PStr (stderr c));
                 ("returncode", PInt (returncode c))]
                (field d "executionId") m outs m3 (stdout c) Hm eq_refl Hmt)
    as Hc.
  assert (Py.truthy (PBool (returncode c =? 0)) = true) as Hv
    by (cbn; rewrite Hrc; reflexivity).
  pose proof (pipeline_completed_raises E (field d "executionId")
                (field d "scriptPath") (field d "fileReference")
                (field d "callbackUrl") _ _ _ _ _ _ _ _ Hd Hx eq_refl Hv Hc)
    as Hp.
  rewrite (serve_parsed _ _ _ Hreq).
  rewrite (try_except_raise _ _ _ _ _ Hp).
  destruct (on_error_returns E (Py.no_attribute (metrics_of E (stdout c)) "get") m3)
    as [t ->].
  reflexivity.
Qed.



(** *** Three jobs that go wrong *)

(** C5: a script that exits with 0 and prints [42] as its last line.
    The parse step does not raise, but what it yields is the integer 42,
    not a mapping; the lookup of [mocked] in it then raises, and the job
    is answered with the error envelope. *)
Theorem number_on_last_line_fails_the_job :
  let c := World.exits 0 "42" EmptyString in
  let E := World.world (Return (World.request World.hook)) Fetched c None
             (Return 200) in
  parse_metrics E (exit_outcome c) (World.finished World.hook c)
  = (Return (PInt 42), World.finished World.hook c)
  /\ fst (serve E World.image)
     = Return (Response
                 (PDict [("success", PBool false);
                         ("error", PStr "'int' object has no attribute 'get'")])
                 500).
Proof. split; vm_compute; reflexivity. Qed.

(** C6: a request without [callbackUrl] whose input is not in the
    artifact store.  The handler of the exception calls the notifier all
    the same, which calls [requests.post] once with the URL [None]. *)
Theorem notifier_called_without_callback :
  let d := World.without "callbackUrl" (World.fields PNone) in
  let E := World.world (Return (PDict d)) (FetchFailed World.not_found false)
             (World.exits 0 EmptyString EmptyString) None (Return 200) in
  Py.dict_get "callbackUrl" d = None
  /\ fst (serve E World.image) = Return (error_envelope World.not_found)
  /\ posts (trace (snd (serve E World.image)))
     = [Post PNone
          (payload E (PStr "exec-1") (PStr "failed")
             (error_result World.not_found))].
Proof. split; [| split]; vm_compute; reflexivity. Qed.

(** C2: a script that exits with 0 and leaves [/tmp/result.csv], and an
    artifact store that refuses the upload.  The job is answered with the
    error envelope, and both the downloaded input file and
    [/tmp/result.csv] are still there. *)
Theorem upload_error_leaves_staging_files :
  let c := World.writes_result 0 World.progress_then_record EmptyString in
  let E := World.world (Return (World.request World.hook)) Fetched c
             (Some World.upload_refused) (Return 200) in
  (World.input ∉ World.image)
  /\ ("/tmp/result.csv" ∉ World.image)
  /\ fst (serve E World.image) = Return (error_envelope World.upload_refused)
  /\ (World.input ∈ fs (snd (serve E World.image)))
  /\ ("/tmp/result.csv" ∈ fs (snd (serve E World.image))).
Proof.
  split; [| split; [| split; [| split]]].
  - vm_compute. discriminate.
  - vm_compute. discriminate.
  - vm_compute. reflexivity.
  - vm_compute. reflexivity.
  - vm_compute. reflexivity.
Qed.

(** * Further properties of the service *)

Import Calls.

(** ** The calls of one request *)

Lemma at_most_one_sublist k t : at_most_one k t -> calls t `sublist_of` [k].
Proof.
  intros [-> | (ev & <- & ->)]; cbn.
  - apply sublist_nil_l.
  - reflexivity.
Qed.

Lemma download_trace E fr m r m' :
  download_file_from_storage E fr m = (r, m') ->
  exists f, trace m' = trace m ++ f /\ at_most_one Fetching f.
Proof.
  intros H. apply download_frame in H as [_ [-> | (sp & dest & ->)]].
  - exists []. rewrite app_nil_r. split; [reflexivity | left; reflexivity].
  - eexists. split; [reflexivity |]. right. eexists. split; [| reflexivity]. reflexivity.
Qed.

Lemma execute_script_trace E sp input ex m sr m' :
  execute_script E sp input ex m = (Return sr, m') ->
  exists s, trace m' = trace m ++ s /\ at_most_one Spawning s.
Proof.
  intros H.
  destruct (execute_script_returns E sp input ex m)
    as (sr' & m'' & Hx & _ & _ & Ht).
  rewrite Hx in H. inversion H; subst.
  destruct Ht as [-> | (full & ->)].
  - exists []. rewrite app_nil_r. split; [reflexivity | left; reflexivity].
  - eexists. split; [reflexivity |]. right. eexists. split; [| reflexivity]. reflexivity.
Qed.

Lemma materialize_trace E ex m r m' :
  materialize E ex m = (r, m') ->
  exists u, trace m' = trace m ++ u /\ at_most_one Uploading u.
Proof.
  assert (forall t : list event, exists u, t = t ++ u /\ at_most_one Uploading u)
    as Hsame.
  { intros t. exists []. rewrite app_nil_r.
    split; [reflexivity | left; reflexivity]. }
  assert (forall (t : list event) p b,
             exists u, t ++ [Upload p b] = t ++ u /\ at_most_one Uploading u)
    as Hone.
  { intros t p b. eexists. split; [reflexivity |].
    right. eexists. split; [| reflexivity]. reflexivity. }
  unfold materialize, bind, os_path_exists, upload_result_to_storage,
    try_except, or_raise, lift, emit, raise, ret.
  destruct (bool_decide ("/tmp/result.csv" ∈ fs m)); cbn.
  2:{ intros H. inversion H. apply Hsame. }
  destruct (storage_bucket E) as [e|]; cbn.
  { intros H. inversion H. apply Hsame. }
  destruct (storage_blob E _) as [e|]; cbn.
  { intros H. inversion H. apply Hsame. }
  destruct (upload_from_filename E _ _) as [e|]; cbn.
  { intros H. inversion H. cbn. apply Hone. }
  destruct (signed_url E _) as [url|e]; cbn.
  2:{ intros H. inversion H. cbn. apply Hone. }
  destruct (getsize E _) as [size|e]; cbn;
    intros H; inversion H; cbn; apply Hone.
Qed.

Lemma completed_trace E sr ex m r m' :
  completed E sr ex m = (r, m') ->
  exists u, trace m' = trace m ++ u /\ at_most_one Uploading u.
Proof.
  unfold completed, bind.
  destruct (materialize E ex m) as [[outs|e] m1] eqn:Hm;
    apply materialize_trace in Hm.
  2:{ intros H. inversion H; subst. exact Hm. }
  destruct (parse_metrics_returns E sr m1) as [metrics ->].
  unfold lift, ret.
  repeat match goal with
         | |- context [match ?x with Return _ => _ | Raise _ => _ end] =>
             destruct x
         end;
    intros H; inversion H; subst; exact Hm.
Qed.

Lemma outcome_trace E sr ex (ok : bool) m r m' :
  (if ok then completed E sr ex else failed sr) m = (r, m') ->
  exists u, trace m' = trace m ++ u /\ at_most_one Uploading u.
Proof.
  destruct ok; intros H.
  - exact (completed_trace _ _ _ _ _ _ H).
  - apply failed_frame in H. subst. exists []. rewrite app_nil_r.
    split; [reflexivity | left; reflexivity].
Qed.

(** The pipeline fetches, launches, stores and notifies, each at most
    once and in this order, and has notified nothing when it raises. *)
Lemma pipeline_trace E ex sp fr cb m r m' :
  pipeline E ex sp fr cb m = (r, m') ->
  exists f s u p,
    trace m' = trace m ++ f ++ s ++ u ++ p
    /\ at_most_one Fetching f /\ at_most_one Spawning s
    /\ at_most_one Uploading u /\ at_most_one Posting p
    /\ (forall e, r = Raise e -> p = []).
Proof.
  assert (at_most_one Spawning []) as Hs0 by (left; reflexivity).
  assert (at_most_one Uploading []) as Hu0 by (left; reflexivity).
  assert (at_most_one Posting []) as Hp0 by (left; reflexivity).
  unfold pipeline, bind. intros H.
  destruct (download_file_from_storage E fr m) as [[input|e] m1] eqn:Hd;
    apply download_trace in Hd as (f & Hf & Hfk).
  2:{ inversion H; subst. exists f, [], [], [].
      rewrite !app_nil_r. repeat split; assumption. }
  destruct (execute_script_returns E sp input ex m1) as (sr & m2 & Hx & _).
  rewrite Hx in H. apply execute_script_trace in Hx as (s & Hs & Hsk).
  unfold lift at 1 in H.
  destruct (Py.subscript sr "success") as [ok|e].
  2:{ inversion H; subst. exists f, s, [], [].
      rewrite !app_nil_r, Hs, Hf, <- app_assoc. repeat split; assumption. }
  destruct ((if Py.truthy ok then completed E sr ex else failed sr) m2)
    as [[[st res]|e] m3] eqn:Ho;
    apply outcome_trace in Ho as (u & Hu & Huk).
  2:{ inversion H; subst. exists f, s, u, [].
      rewrite !app_nil_r, Hu, Hs, Hf, <- !app_assoc.
      repeat split; assumption. }
  rewrite notify_run in H.
  match type of H with
  | context [cleanup E input ?m5] =>
      destruct (cleanup_returns E input m5) as (left & Hc & _);
      rewrite Hc in H
  end.
  inversion H; subst. cbn.
  exists f, s, u, (notified E cb ex st res).
  rewrite Hu, Hs, Hf, <- !app_assoc.
  split; [reflexivity |]. repeat split; try assumption.
  - unfold notified. destruct (Py.truthy cb); [| left; reflexivity].
    right. eexists. split; [| reflexivity]. reflexivity.
  - intros e He. discriminate He.
Qed.

(** X1: whatever the request and whatever the outside does, the service
    downloads at most one blob, launches at most one subprocess, uploads
    at most one file and posts at most one notification, in this
    order. *)
Theorem calls_in_order :
  forall E files,
    calls (trace (snd (serve E files)))
      `sublist_of` [Fetching; Spawning; Uploading; Posting].
Proof.
  intros E files. destruct (request_json E) as [v|e] eqn:Hreq.
  2:{ rewrite (serve_no_body _ _ _ Hreq). apply sublist_nil_l. }
  destruct v as [| | | | | |d];
    try (rewrite (serve_not_object _ _ _ Hreq) by discriminate;
         apply sublist_nil_l).
  rewrite (serve_parsed _ _ _ Hreq). unfold try_except.
  destruct (pipeline E _ _ _ _ (parsed files d)) as [r m'] eqn:Hp.
  pose proof Hp as Hframe. apply pipeline_posts in Hframe as [Hframe _].
  apply pipeline_trace in Hp as (f & s & u & p & Ht & Hf & Hs & Hu & Hpk & Hr).
  cbn in Ht.
  assert (forall q, at_most_one Posting q ->
                    calls (f ++ s ++ u ++ q)
                      `sublist_of` [Fetching; Spawning; Uploading; Posting])
    as Hall.
  { intros q Hq. unfold calls. rewrite !List.map_app.
    apply (sublist_app _ [Fetching] _ [Spawning; Uploading; Posting]);
      [apply at_most_one_sublist; exact Hf |].
    apply (sublist_app _ [Spawning] _ [Uploading; Posting]);
      [apply at_most_one_sublist; exact Hs |].
    apply (sublist_app _ [Uploading] _ [Posting]);
      apply at_most_one_sublist; assumption. }
  destruct r as [resp|e].
  - cbn. rewrite Ht. apply Hall. exact Hpk.
  - rewrite (on_error_run E e m' (field d "callbackUrl") (field d "executionId"))
      by (rewrite Hframe; reflexivity).
    cbn. rewrite Ht, (Hr e eq_refl), app_nil_r, <- !app_assoc.
    apply Hall. right. eexists. split; [| reflexivity]. reflexivity.
Qed.

(** ** What the callback is told *)

(** The pipeline answers with the status and result it has sent to the
    callback. *)
Lemma pipeline_notifies E ex sp fr cb m resp m' :
  pipeline E ex sp fr cb m = (Return resp, m') ->
  exists st res,
    resp = envelope ex st res
    /\ posts (trace m') = posts (trace m) ++ notified E cb ex st res.
Proof.
  unfold pipeline, bind. intros H.
  destruct (download_file_from_storage E fr m) as [[input|e] m1] eqn:Hd;
    apply download_posts in Hd as [Hf1 Hp1]; [| discriminate H].
  destruct (execute_script_returns E sp input ex m1) as (sr & m2 & Hx & _).
  rewrite Hx in H. apply execute_script_posts in Hx as [Hf2 Hp2].
  unfold lift at 1 in H.
  destruct (Py.subscript sr "success") as [ok|e]; [| discriminate H].
  destruct ((if Py.truthy ok then completed E sr ex else failed sr) m2)
    as [[[st res]|e] m3] eqn:Ho;
    apply outcome_frame in Ho as (_ & Hf3 & Hp3); [| discriminate H].
  rewrite notify_run in H.
  match type of H with
  | context [cleanup E input ?m5] =>
      destruct (cleanup_returns E input m5) as (left & Hc & _);
      rewrite Hc in H
  end.
  inversion H; subst. cbn. exists st, res. split; [reflexivity |].
  rewrite posts_app. f_equal; [congruence |].
  unfold notified. destruct (Py.truthy cb); reflexivity.
Qed.

(** X2: for a request whose body is an object with a callback URL, the
    callback is called exactly once, at that URL and for the execution
    id of the request, and it is told what the caller is told: the
    status and result of the answer when the job is handled, and
    [failed] with the result made from the exception when the answer is
    the error envelope. *)
Theorem callback_hears_the_answer :
  forall E files d,
    request_json E = Return (PDict d) ->
    Py.truthy (field d "callbackUrl") = true ->
    exists st res,
      posts (trace (snd (serve E files)))
      = [Post (field d "callbackUrl")
           (payload E (field d "executionId") st res)]
      /\ (fst (serve E files)
          = Return (envelope (field d "executionId") st res)
          \/ exists e,
              fst (serve E files) = Return (error_envelope e)
              /\ st = PStr "failed" /\ res = error_result e).
Proof.
  intros E files d Hreq Hcb.
  rewrite (serve_parsed _ _ _ Hreq). unfold try_except.
  destruct (pipeline E _ _ _ _ (parsed files d)) as [[resp|e] m'] eqn:Hp.
  - apply pipeline_notifies in Hp as (st & res & -> & Hposts).
    exists st, res. cbn. rewrite Hposts. unfold notified. rewrite Hcb.
    split; [reflexivity | left; reflexivity].
  - apply pipeline_posts in Hp as [Hf Hposts].
    rewrite (on_error_run E e m' (field d "callbackUrl") (field d "executionId"))
      by (rewrite Hf; reflexivity).
    exists (PStr "failed"), (error_result e). cbn.
    rewrite posts_app, Hposts. cbn.
    split; [reflexivity |]. right. exists e. auto.
Qed.

Lemma callback_hears_the_answer_witness :
  exists st res,
    posts (trace (snd (serve
                        (World.world (Return (World.request World.hook)) Fetched
                           (World.exits 1 EmptyString "boom") None (Return 200))
                        World.image)))
    = [Post World.hook
         (payload
            (World.world (Return (World.request World.hook)) Fetched
               (World.exits 1 EmptyString "boom") None (Return 200))
            (PStr "exec-1") st res)].
Proof.
  destruct (callback_hears_the_answer
              (World.world (Return (World.request World.hook)) Fetched
                 (World.exits 1 EmptyString "boom") None (Return 200))
              World.image (World.fields World.hook))
    as (st & res & Hposts & _).
  - reflexivity.
  - reflexivity.
  - exists st, res. exact Hposts.
Defined.

(** ** The result file *)

(** A concrete world started on the local files [files]. *)
Lemma world_ran_on files cb c up post :
  World.script ∈ files ->
  spawn_error c = None ->
  ran (World.world (Return (World.request cb)) Fetched c up post)
    files (World.fields cb) c (finished_on files cb c).
Proof.
  intros Hin Hs.
  exists World.input,
    (Machine ({[World.input]} ∪ files)
       (frame (parsed files (World.fields cb)))
       [Fetch (PStr "uploads/in.csv") World.input]),
    World.script.
  split; [reflexivity |]. split; [reflexivity |]. split; [reflexivity |].
  split; [cbn; set_solver |]. split; [reflexivity |].
  split; [exact Hs | reflexivity].
Qed.

Lemma ran_frame E files d c m :
  ran E files d c m ->
  frame m = frame (parsed files d)
  /\ exists input m1,
      download_file_from_storage E (field d "fileReference") (parsed files d)
      = (Return input, m1)
      /\ fs m = effect c (fs m1).
Proof.
  intros (input & m1 & full & Hreq & Hd & Hj & Hin & -> & Hs & ->).
  split.
  - apply download_frame in Hd as [Hf _]. exact Hf.
  - exists input, m1. split; [exact Hd | reflexivity].
Qed.

Lemma materialize_absent E ex m :
  "/tmp/result.csv" ∉ fs m -> materialize E ex m = (Return [], m).
Proof.
  intros H. unfold materialize, bind, os_path_exists.
  rewrite bool_decide_eq_false_2 by exact H. reflexivity.
Qed.

Lemma materialize_stored E ex m url size :
  "/tmp/result.csv" ∈ fs m ->
  storage_bucket E = None ->
  storage_blob E (PStr (blob_path E ex)) = None ->
  upload_from_filename E "/tmp/result.csv" (blob_path E ex) = None ->
  signed_url E (blob_path E ex) = Return url ->
  getsize E "/tmp/result.csv" = Return size ->
  materialize E ex m
  = (Return [descriptor E ex url size],
     Machine (fs m) (frame m)
       (trace m ++ [Upload "/tmp/result.csv" (blob_path E ex)])).
Proof.
  intros Hin Hb Hbl Hup Hurl Hsz.
  unfold materialize, bind, os_path_exists.
  rewrite bool_decide_eq_true_2 by exact Hin.
  unfold upload_result_to_storage, try_except, bind, or_raise, emit, lift, ret.
  fold (blob_path E ex).
  rewrite Hb. cbn. unfold blob_path in *. rewrite Hbl. cbn.
  rewrite Hup. cbn. rewrite Hurl, Hsz. reflexivity.
Qed.

(** X3: when the script has exited with 0 and storing its result file
    raises, the job is not completed: the answer is the error envelope
    of that exception, whatever the script has printed; the callback
    variable and the execution id being bound, the notifier is called
    with status [failed]; no file is removed. *)
Theorem storage_failure_fails_the_job :
  forall E files d c m e m3,
    ran E files d c m ->
    duration c <= 300 ->
    returncode c = 0 ->
    materialize E (field d "executionId") m = (Raise e, m3) ->
    serve E files
    = (Return (error_envelope e),
       Machine (fs m) (frame m)
         (trace m3
            ++ [Post (field d "callbackUrl")
                  (payload E (field d "executionId") (PStr "failed")
                     (error_result e))]))
    /\ ("/tmp/result.csv" ∈ fs m).
Proof.
  intros E files d c m e m3 Hran Hd Hrc Hm.
  destruct (ran_frame _ _ _ _ _ Hran) as (Hframe & _).
  destruct (ran_exit _ _ _ _ _ Hran Hd) as (input & m1 & Hreq & Hf & Hx).
  split.
  - rewrite (serve_parsed _ _ _ Hreq).
    assert (completed E (exit_outcome c) (field d "executionId") m = (Raise e, m3))
      as Hc by (apply bind_raise; exact Hm).
    unfold exit_outcome in Hx, Hc.
    rewrite (try_except_raise _ _ _ _ _
               (pipeline_completed_raises E _ _ _ (field d "callbackUrl")
                  _ _ _ _ _ (PBool (returncode c =? 0)) _ _
                  Hf Hx eq_refl ltac:(cbn; rewrite Hrc; reflexivity) Hc)).
    apply materialize_frame in Hm as (Hfs & Hfr & _).
    rewrite (on_error_run E e m3 (field d "callbackUrl") (field d "executionId"))
      by (rewrite Hfr, Hframe; reflexivity).
    rewrite Hfs, Hfr. reflexivity.
  - destruct (decide ("/tmp/result.csv" ∈ fs m)) as [Hin | Hout];
      [exact Hin |].
    rewrite (materialize_absent _ _ _ Hout) in Hm. discriminate Hm.
Qed.

Lemma storage_failure_fails_the_job_witness :
  fst (serve
         (World.world (Return (World.request World.hook)) Fetched
            (World.writes_result 0 World.progress_then_record EmptyString)
            (Some World.upload_refused) (Return 200))
         World.image)
  = Return (error_envelope World.upload_refused).
Proof.
  destruct (storage_failure_fails_the_job
              (World.world (Return (World.request World.hook)) Fetched
                 (World.writes_result 0 World.progress_then_record EmptyString)
                 (Some World.upload_refused) (Return 200))
              World.image (World.fields World.hook)
              (World.writes_result 0 World.progress_then_record EmptyString)
              (World.finished World.hook
                 (World.writes_result 0 World.progress_then_record EmptyString))
              World.upload_refused
              (snd (materialize
                      (World.world (Return (World.request World.hook)) Fetched
                         (World.writes_result 0 World.progress_then_record
                            EmptyString)
                         (Some World.upload_refused) (Return 200))
                      (PStr "exec-1")
                      (World.finished World.hook
                         (World.writes_result 0 World.progress_then_record
                            EmptyString)))))
    as [Hserve _].
  - apply world_ran. reflexivity.
  - vm_compute. discriminate.
  - reflexivity.
  - vm_compute. reflexivity.
  - rewrite Hserve. reflexivity.
Defined.

(** X4: for a script that has exited with 0, the result file is the
    file at the fixed path [/tmp/result.csv], whoever has written it.
    When no such file exists once the script is over, the completed job
    lists no output file and nothing is uploaded; when one exists and
    the store accepts it, it is uploaded once, under the name made from
    the execution id and the time, and the completed job lists exactly
    its descriptor. *)
Theorem output_is_the_file_at_the_fixed_path :
  forall E files d c m mt,
    ran E files d c m ->
    duration c <= 300 ->
    returncode c = 0 ->
    metrics_of E (stdout c) = PDict mt ->
    let ex := field d "executionId" in
    let cb := field d "callbackUrl" in
    (("/tmp/result.csv" ∉ fs m) ->
     exists left,
       serve E files
       = (Return (envelope ex (PStr "completed") (success_result mt [])),
          Machine left (frame m)
            (trace m
               ++ notified E cb ex (PStr "completed") (success_result mt []))))
    /\ (forall url size,
           "/tmp/result.csv" ∈ fs m ->
           storage_bucket E = None ->
           storage_blob E (PStr (blob_path E ex)) = None ->
           upload_from_filename E "/tmp/result.csv" (blob_path E ex) = None ->
           signed_url E (blob_path E ex) = Return url ->
           getsize E "/tmp/result.csv" = Return size ->
           exists left,
             serve E files
             = (Return (envelope ex (PStr "completed")
                          (success_result mt [descriptor E ex url size])),
                Machine left (frame m)
                  ((trace m ++ [Upload "/tmp/result.csv" (blob_path E ex)])
                     ++ notified E cb ex (PStr "completed")
                          (success_result mt [descriptor E ex url size])))).
Proof.
  intros E files d c m mt Hran Hd Hrc Hmt ex cb.
  destruct (ran_exit _ _ _ _ _ Hran Hd) as (input & m1 & Hreq & Hf & Hx).
  unfold exit_outcome in Hx.
  assert (Py.truthy (PBool (returncode c =? 0)) = true) as Hok
      by (cbn; rewrite Hrc; reflexivity).
  split.
  - intros Hout.
    destruct (serve_completed E files d input m1 _ m _ [] m (stdout c) mt
                Hreq Hf Hx eq_refl Hok (materialize_absent _ _ _ Hout)
                eq_refl Hmt) as (left & Hserve & _).
    exists left. exact Hserve.
  - intros url size Hin Hb Hbl Hup Hurl Hsz.
    destruct (serve_completed E files d input m1 _ m _ _ _ (stdout c) mt
                Hreq Hf Hx eq_refl Hok
                (materialize_stored E ex m url size Hin Hb Hbl Hup Hurl Hsz)
                eq_refl Hmt) as (left & Hserve & _).
    exists left. exact Hserve.
Qed.

(** The result file of an earlier job is taken for the result of a
    script that writes none. *)
Lemma output_is_the_file_at_the_fixed_path_witness :
  exists left t,
    serve
      (World.world (Return (World.request PNone)) Fetched
         (World.exits 0 World.record EmptyString) None (Return 200))
      stale
    = (Return (envelope (PStr "exec-1") (PStr "completed")
                 (success_result World.record_metrics
                    [PDict [("storagePath",
                             PStr "finance-operations/results/exec-1_20250601_120000_result.csv");
                            ("downloadUrl",
                             PStr "https://storage.example/finance-operations/results/exec-1_20250601_120000_result.csv");
                            ("filename", PStr "exec-1_20250601_120000_result.csv");
                            ("originalName", PStr "result_20250601_120000.csv");
                            ("size", PInt 512)]])),
       Machine left
         (frame (World.finished PNone (World.exits 0 World.record EmptyString)))
         t).
Proof.
  destruct (output_is_the_file_at_the_fixed_path
              (World.world (Return (World.request PNone)) Fetched
                 (World.exits 0 World.record EmptyString) None (Return 200))
              stale (World.fields PNone)
              (World.exits 0 World.record EmptyString)
              (finished_on stale PNone (World.exits 0 World.record EmptyString))
              World.record_metrics)
    as [_ Hstored].
  - apply world_ran_on; [vm_compute; reflexivity | reflexivity].
  - vm_compute. discriminate.
  - reflexivity.
  - vm_compute. reflexivity.
  - destruct (Hstored
                "https://storage.example/finance-operations/results/exec-1_20250601_120000_result.csv"
                512) as (left & Hserve).
    + vm_compute. reflexivity.
    + reflexivity.
    + reflexivity.
    + reflexivity.
    + vm_compute. reflexivity.
    + reflexivity.
    + exists left. eexists. exact Hserve.
Defined.



(** ** Requests that never reach the script *)

(** X6: a request whose body cannot be read, or is not an object, is
    answered with the error envelope before anything else happens: no
    file is created, nothing is fetched, launched, stored or posted, not
    even to a callback, since no callback is known yet. *)
Theorem malformed_body_has_no_side_effect :
  forall E files,
    (forall d, request_json E <> Return (PDict d)) ->
    exists e,
      fst (serve E files) = Return (error_envelope e)
      /\ fs (snd (serve E files)) = files
      /\ trace (snd (serve E files)) = [].
Proof.
  intros E files Hbody. destruct (request_json E) as [v|e] eqn:Hreq.
  - exists (Py.no_attribute v "get").
    rewrite (serve_not_object _ _ v Hreq); [auto |].
    intros d ->. exact (Hbody d eq_refl).
  - exists e. rewrite (serve_no_body _ _ _ Hreq). auto.
Qed.

Lemma malformed_body_has_no_side_effect_witness :
  exists e,
    fst (serve
           (World.world (Return (PList [World.request World.hook])) Fetched
              (World.exits 0 World.record EmptyString) None (Return 200))
           World.image)
    = Return (error_envelope e).
Proof.
  destruct (malformed_body_has_no_side_effect
              (World.world (Return (PList [World.request World.hook])) Fetched
                 (World.exits 0 World.record EmptyString) None (Return 200))
              World.image) as (e & Hserve & _).
  - intros d H. discriminate H.
  - exists e. exact Hserve.
Defined.

(** X7: a download that fails after the temporary file was created
    leaves that file behind whenever the storage client has not removed
    it itself: the answer is the error envelope of the failure, no
    script is launched, and nothing unlinks the file. *)
Theorem failed_download_keeps_temp_file :
  forall E files d sp name e kept,
    request_json E = Return (PDict d) ->
    storage_bucket E = None ->
    Py.subscript (field d "fileReference") "storagePath" = Return sp ->
    storage_blob E sp = None ->
    temp_file E = Return name ->
    download E sp name = FetchFailed e kept ->
    fst (serve E files) = Return (error_envelope e)
    /\ fs (snd (serve E files))
       = (if kept then {[name]} ∪ files else ({[name]} ∪ files) ∖ {[name]})
    /\ fetches (trace (snd (serve E files))) = [Fetch sp name]
    /\ spawns (trace (snd (serve E files))) = [].
Proof.
  intros E files d sp name e kept Hreq Hb Hsp Hbl Htmp Hdl.
  assert (download_file_from_storage E (field d "fileReference") (parsed files d)
          = (Raise e,
             Machine (if kept then {[name]} ∪ files
                      else ({[name]} ∪ files) ∖ {[name]})
               (frame (parsed files d)) [Fetch sp name])) as Hd.
  { unfold download_file_from_storage, try_except, bind, or_raise, lift,
      NamedTemporaryFile, download_to_filename, bind, emit, set_fs, raise, ret.
    rewrite Hb. cbn. rewrite Hsp, Hbl. cbn. rewrite Htmp. cbn. rewrite Hdl.
    destruct kept; reflexivity. }
  rewrite (serve_fetch_error _ _ _ _ _ Hreq Hd). cbn.
  repeat (split; [reflexivity |]). reflexivity.
Qed.

Lemma failed_download_keeps_temp_file_witness :
  World.input
    ∈ fs (snd (serve
                 (World.world (Return (World.request World.hook))
                    (FetchFailed World.upload_refused true)
                    (World.exits 0 World.record EmptyString) None (Return 200))
                 World.image)).
Proof.
  destruct (failed_download_keeps_temp_file
              (World.world (Return (World.request World.hook))
                 (FetchFailed World.upload_refused true)
                 (World.exits 0 World.record EmptyString) None (Return 200))
              World.image (World.fields World.hook) (PStr "uploads/in.csv")
              World.input World.upload_refused true)
    as (_ & Hfs & _).
  - reflexivity.
  - reflexivity.
  - reflexivity.
  - reflexivity.
  - reflexivity.
  - reflexivity.
  - rewrite Hfs. set_solver.
Defined.

(** X8: a script that cannot be started (whatever [subprocess.run]
    raises before the child runs) does not abort the job: it is answered
    as handled with status [failed], the text of the exception as its
    single error, and neither output nor exit code. *)
Theorem launch_failure_is_a_failed_job :
  forall E files d input m1 full cls text,
    request_json E = Return (PDict d) ->
    download_file_from_storage E (field d "fileReference") (parsed files d)
    = (Return input, m1) ->
    Py.os_path_join "/app/scripts" (field d "scriptPath") = Return full ->
    full ∈ fs m1 ->
    spawn_error (run_child E full input (field d "executionId"))
    = Some (Exception cls text) ->
    exists left,
      serve E files
      = (Return
           (envelope (field d "executionId") (PStr "failed")
              (failure_result (PStr text) (PStr EmptyString) (PStr EmptyString)
                 PNone)),
         Machine left (frame m1)
           ((trace m1 ++ [Spawn full input (field d "executionId")])
              ++ notified E (field d "callbackUrl") (field d "executionId")
                   (PStr "failed")
                   (failure_result (PStr text) (PStr EmptyString)
                      (PStr EmptyString) PNone)))
      /\ left ⊆ fs m1.
Proof.
  intros E files d input m1 full cls text Hreq Hd Hj Hin Hs.
  assert (execute_script E (field d "scriptPath") input (field d "executionId") m1
          = (Return (error_outcome text),
             Machine (fs m1) (frame m1)
               (trace m1 ++ [Spawn full input (field d "executionId")]))) as Hx.
  { unfold execute_script, try_except, bind, lift, os_path_exists,
      subprocess_run, emit, raise, ret.
    rewrite Hj. rewrite bool_decide_eq_true_2 by exact Hin. cbn. rewrite Hs.
    reflexivity. }
  unfold error_outcome in Hx.
  destruct (serve_failed E files d input m1 _ _ (PBool false)
              Hreq Hd Hx eq_refl eq_refl) as (left & Hserve & Hsub).
  exists left. split; [exact Hserve | exact Hsub].
Qed.

Lemma launch_failure_is_a_failed_job_witness :
  exists m,
    serve
      (World.world (Return (World.request World.hook)) Fetched
         (unlaunchable
            (Exception "PermissionError" "[Errno 13] Permission denied: 'python'"))
         None (Return 200))
      World.image
    = (Return
         (envelope (PStr "exec-1") (PStr "failed")
            (failure_result
               (PStr "[Errno 13] Permission denied: 'python'")
               (PStr EmptyString) (PStr EmptyString) PNone)),
       m).
Proof.
  destruct (launch_failure_is_a_failed_job
              (World.world (Return (World.request World.hook)) Fetched
                 (unlaunchable
                    (Exception "PermissionError"
                       "[Errno 13] Permission denied: 'python'"))
                 None (Return 200))
              World.image (World.fields World.hook) World.input
              (Machine ({[World.input]} ∪ World.image)
                 (frame (parsed World.image (World.fields World.hook)))
                 [Fetch (PStr "uploads/in.csv") World.input])
              World.script "PermissionError"
              "[Errno 13] Permission denied: 'python'")
    as (left & Hserve & _).
  - reflexivity.
  - reflexivity.
  - reflexivity.
  - vm_compute. reflexivity.
  - reflexivity.
  - eexists. exact Hserve.
Defined.

(** ** The temporary files *)

(** The removal stops at the first file that cannot be removed. *)
Lemma cleanup_skipped E p m :
  (p ∉ fs m) \/ unlink_error E p <> None ->
  cleanup E p m = (Return tt, m).
Proof.
  intros H.
  unfold cleanup, try_except, bind, os_unlink, or_raise, os_path_exists,
    set_fs, raise, ret.
  destruct (unlink_error E p) as [e|]; [reflexivity |].
  destruct H as [Hout | Hno]; [| elim Hno; reflexivity].
  cbn. rewrite bool_decide_eq_false_2 by exact Hout. reflexivity.
Qed.

Lemma serve_answers E files :
  exists resp m, serve E files = (Return resp, m).
Proof.
  unfold serve, process_finance_operation, try_except.
  match goal with
  | |- context [match ?c (start files) with _ => _ end] =>
      destruct (c (start files)) as [[resp|e] m]
  end.
  - eauto.
  - destruct (on_error_returns E e m) as [t Ht]. rewrite Ht. eauto.
Qed.

(** The files at the end of a request whose script has run, in terms of
    the removal made once the outcome is known. *)
Lemma serve_files E files d input m1 sr m2 resp m' :
  request_json E = Return (PDict d) ->
  download_file_from_storage E (field d "fileReference") (parsed files d)
  = (Return input, m1) ->
  execute_script E (field d "scriptPath") input (field d "executionId") m1
  = (Return sr, m2) ->
  serve E files = (Return resp, m') ->
  (status_code resp = 500 /\ fs m' = fs m2)
  \/ (exists m4,
         status_code resp = 200
         /\ fs m4 = fs m2
         /\ fs m' = fs (snd (cleanup E input m4))).
Proof.
  intros Hreq Hd Hx Hserve.
  rewrite (serve_parsed _ _ _ Hreq) in Hserve.
  unfold try_except, pipeline in Hserve.
  rewrite (bind_return _ _ _ _ _ Hd) in Hserve.
  rewrite (bind_return _ _ _ _ _ Hx) in Hserve.
  unfold bind at 1, lift at 1 in Hserve.
  assert (forall e m, on_error E e m = (Return resp, m') ->
                      status_code resp = 500 /\ fs m' = fs m) as Herr.
  { intros e m He. destruct (on_error_returns E e m) as [t Ht].
    rewrite Ht in He. inversion He; subst. auto. }
  destruct (Py.subscript sr "success") as [ok|e];
    [| left; exact (Herr _ _ Hserve)].
  unfold bind at 1 in Hserve.
  destruct ((if Py.truthy ok then completed E sr (field d "executionId")
             else failed sr) m2) as [[[st res]|e] m3] eqn:Ho;
    apply outcome_frame in Ho as (Hfs & _ & _).
  2:{ left. rewrite <- Hfs. exact (Herr _ _ Hserve). }
  rewrite (bind_return _ _ _ _ _ (notify_run E _ _ _ _ m3)) in Hserve.
  right.
  match type of Hserve with
  | context [bind (cleanup E input) _ ?m4] =>
      exists m4;
      destruct (cleanup_returns E input m4) as (left & Hc & _);
      rewrite (bind_return _ _ _ _ _ Hc) in Hserve; rewrite Hc
  end.
  unfold ret in Hserve. inversion Hserve; subst. cbn. auto.
Qed.

(** X9: the removal of the temporary files stops at its first failure.
    When the input file cannot be removed, because the script has
    removed or renamed it or because [os.unlink] refuses, the result
    file is not removed either: every file there when the script ended
    is still there after the answer, whatever the answer. *)
Theorem cleanup_stops_at_first_failure :
  forall E files d input m1 sr m2,
    request_json E = Return (PDict d) ->
    download_file_from_storage E (field d "fileReference") (parsed files d)
    = (Return input, m1) ->
    execute_script E (field d "scriptPath") input (field d "executionId") m1
    = (Return sr, m2) ->
    (input ∉ fs m2) \/ unlink_error E input <> None ->
    fs (snd (serve E files)) = fs m2.
Proof.
  intros E files d input m1 sr m2 Hreq Hd Hx Hskip.
  destruct (serve_answers E files) as (resp & m' & Hserve).
  rewrite Hserve. cbn.
  destruct (serve_files E files d input m1 sr m2 resp m' Hreq Hd Hx Hserve)
    as [[_ Hfs] | (m4 & _ & Hfs4 & Hfs)]; [exact Hfs |].
  rewrite Hfs, cleanup_skipped; [exact Hfs4 |].
  rewrite Hfs4. exact Hskip.
Qed.

Lemma cleanup_stops_at_first_failure_witness :
  "/tmp/result.csv"
    ∈ fs (snd (serve
                 (World.world (Return (World.request World.hook)) Fetched
                    (consumes_input 0 World.record) None (Return 200))
                 World.image)).
Proof.
  rewrite (cleanup_stops_at_first_failure
             (World.world (Return (World.request World.hook)) Fetched
                (consumes_input 0 World.record) None (Return 200))
             World.image (World.fields World.hook) World.input
             (Machine ({[World.input]} ∪ World.image)
                (frame (parsed World.image (World.fields World.hook)))
                [Fetch (PStr "uploads/in.csv") World.input])
             (exit_outcome (consumes_input 0 World.record))
             (World.finished World.hook (consumes_input 0 World.record))).
  - vm_compute. reflexivity.
  - reflexivity.
  - reflexivity.
  - vm_compute. reflexivity.
  - left. vm_compute. discriminate.
Defined.

(** X10: when the input file is still there once the script is over and
    [os.unlink] refuses nothing, a job answered as handled removes the
    input file and [/tmp/result.csv], and no other file. *)
Theorem handled_job_removes_its_two_files :
  forall E files d input m1 sr m2,
    request_json E = Return (PDict d) ->
    download_file_from_storage E (field d "fileReference") (parsed files d)
    = (Return input, m1) ->
    execute_script E (field d "scriptPath") input (field d "executionId") m1
    = (Return sr, m2) ->
    input ∈ fs m2 ->
    unlink_error E input = None ->
    unlink_error E "/tmp/result.csv" = None ->
    status_code_of (fst (serve E files)) = Some 200 ->
    fs (snd (serve E files)) = fs m2 ∖ {[input]} ∖ {["/tmp/result.csv"]}.
Proof.
  intros E files d input m1 sr m2 Hreq Hd Hx Hin Hu1 Hu2 Hcode.
  destruct (serve_answers E files) as (resp & m' & Hserve).
  rewrite Hserve in *. cbn in *.
  destruct (serve_files E files d input m1 sr m2 resp m' Hreq Hd Hx Hserve)
    as [[H500 _] | (m4 & _ & Hfs4 & Hfs)].
  - rewrite H500 in Hcode. discriminate Hcode.
  - rewrite Hfs, cleanup_removes; [| exact Hu1 | exact Hu2 |].
    + cbn. rewrite Hfs4. reflexivity.
    + rewrite Hfs4. exact Hin.
Qed.

Lemma handled_job_removes_its_two_files_witness :
  fs (snd (serve
             (World.world (Return (World.request World.hook)) Fetched
                (World.writes_result 0 World.record EmptyString) None
                (Return 200))
             World.image))
  = ({[ "/tmp/result.csv" ]} ∪ ({[ World.input ]} ∪ World.image))
      ∖ {[ World.input ]} ∖ {[ "/tmp/result.csv" ]}.
Proof.
  apply (handled_job_removes_its_two_files
           (World.world (Return (World.request World.hook)) Fetched
              (World.writes_result 0 World.record EmptyString) None
              (Return 200))
           World.image (World.fields World.hook) World.input
           (Machine ({[World.input]} ∪ World.image)
              (frame (parsed World.image (World.fields World.hook)))
              [Fetch (PStr "uploads/in.csv") World.input])
           (exit_outcome (World.writes_result 0 World.record EmptyString))
           (World.finished World.hook
              (World.writes_result 0 World.record EmptyString))).
  - reflexivity.
  - reflexivity.
  - vm_compute. reflexivity.
  - vm_compute. reflexivity.
  - reflexivity.
  - reflexivity.
  - vm_compute. reflexivity.
Defined.

(** ** What the answer does not depend on *)

(** X11: what the callback endpoint does with the notification (its
    status code, or the exception of [requests.post]) changes nothing:
    the answer, the files left and the calls made are the same for every
    behaviour of the endpoint. *)
Theorem callback_outcome_is_ignored :
  forall E post post' files,
    serve (with_post E post) files = serve (with_post E post') files.
Proof.
  intros E post post' files.
  rewrite (serve_with_post E post), (serve_with_post E post'). reflexivity.
Qed.

(** X12: a refusal of [os.unlink] is never reported: the answer and the
    calls made are the same for every behaviour of [os.unlink]. *)
Theorem unlink_refusal_is_ignored :
  forall E refuse refuse' files,
    fst (serve (with_unlink E refuse) files)
    = fst (serve (with_unlink E refuse') files)
    /\ trace (snd (serve (with_unlink E refuse) files))
       = trace (snd (serve (with_unlink E refuse') files)).
Proof.
  intros E refuse refuse' files.
  destruct (serve_with_unlink E refuse files) as [-> ->].
  destruct (serve_with_unlink E refuse' files) as [-> ->].
  auto.
Qed.

(** * The payout script of the container *)

Module LedgerFacts.
Import PyStr MockPayout Ledger.

Lemma process_payouts_run H targets available t :
  process_payouts H (execution H) targets available t
  = Return
      (Tally (results t ++ receipts H (ticks t) (due targets available))
         (total_amount_processed t + total (due targets available))
         (successful_payouts t
          + Z.of_nat (List.length (due targets available)))
         (failed_payouts t)
         (ticks t + 3 * List.length (due targets available))).
Proof.
  revert t. induction available as [|[currency amount] rest IH]; intros t.
  - cbn. rewrite app_nil_r, !Z.add_0_r, Nat.add_0_r. destruct t; reflexivity.
  - cbn [process_payouts due List.filter fst snd].
    destruct (existsb (String.eqb currency) targets && (0 <? amount)) eqn:Hdue.
    + unfold and_then. cbn [Py.subscript create_payout_mock Py.dict_get
                            String.eqb Ascii.eqb Bool.eqb Py.truthy].
      rewrite IH. cbn [results total_amount_processed successful_payouts
                       failed_payouts ticks receipts List.length].
      fold (due targets rest). unfold total. cbn [List.map List.fold_right snd].
      fold (total (due targets rest)).
      f_equal. f_equal; try lia.
      rewrite <- app_assoc. reflexivity.
    + apply IH.
Qed.

Lemma csv_rows_of_receipts H k paid :
  exists rows,
    csv_rows_of (receipts H k paid) = Return rows
    /\ List.map row_summary rows
       = List.map
           (fun b => (Some (PStr (fst b)), Some (PInt (snd b)),
                      Some (PInt 200), Some (PStr "Yes")))
           paid.
Proof.
  revert k. induction paid as [|[currency amount] rest IH]; intros k.
  - exists []. split; reflexivity.
  - destruct (IH (k + 3)%nat) as (rows & Hrows & Hsum).
    cbn [receipts csv_rows_of]. unfold and_then at 1.
    unfold csv_row, create_payout_mock, and_then at 1. cbn.
    unfold and_then. rewrite Hrows.
    eexists. split; [reflexivity |]. cbn [List.map]. rewrite Hsum.
    reflexivity.
Qed.

Lemma processed_currencies_receipts H k paid :
  processed_currencies (receipts H k paid)
  = Return (List.map (fun b => PStr (fst b)) paid).
Proof.
  revert k. induction paid as [|[currency amount] rest IH]; intros k.
  - reflexivity.
  - cbn [receipts processed_currencies]. unfold and_then.
    cbn [Py.subscript create_payout_mock Py.dict_get String.eqb Ascii.eqb
         Bool.eqb].
    rewrite IH. reflexivity.
Qed.

(** A run whose input can be read and whose result file, if it has
    one to write, can be written. *)
Lemma main_run H targets :
  read_csv_input H = Return targets ->
  due targets get_stripe_balance_mock = [] \/ write_error H = None ->
  exists rows,
    main H
    = Outcome 0
        (dumps H
           (metrics_record H (execution H) targets
              (Tally (receipts H 0 (due targets get_stripe_balance_mock))
                 (total (due targets get_stripe_balance_mock))
                 (Z.of_nat (List.length (due targets get_stripe_balance_mock)))
                 0
                 (3 * List.length (due targets get_stripe_balance_mock)))
              (List.map (fun b => PStr (fst b))
                 (due targets get_stripe_balance_mock)))
           +:+ nl)
        (if is_nil (due targets get_stripe_balance_mock) then None
         else Some rows)
        (negb (is_nil (due targets get_stripe_balance_mock)))
    /\ List.map row_summary rows
       = List.map
           (fun b => (Some (PStr (fst b)), Some (PInt (snd b)),
                      Some (PInt 200), Some (PStr "Yes")))
           (due targets get_stripe_balance_mock).
Proof.
  intros Hread Hwrite.
  destruct (csv_rows_of_receipts H 0 (due targets get_stripe_balance_mock))
    as (rows & Hrows & Hsum).
  exists rows. split; [| exact Hsum].
  unfold main. rewrite Hread. fold (execution H).
  rewrite process_payouts_run.
  cbn [results total_amount_processed successful_payouts failed_payouts ticks
       List.app].
  rewrite !Z.add_0_l, Nat.add_0_l.
  unfold write_results_csv.
  destruct (due targets get_stripe_balance_mock) as [|b paid] eqn:Hdue.
  - reflexivity.
  - destruct Hwrite as [Hnone | Hwrite]; [discriminate Hnone |].
    rewrite Hwrite. destruct b as [currency amount].
    pose proof (processed_currencies_receipts H 0 ((currency, amount) :: paid))
      as Hprocessed.
    cbn [receipts] in *. rewrite Hrows, Hprocessed. reflexivity.
Qed.



Lemma due_sublist targets available :
  due targets available `sublist_of` available.
Proof.
  induction available as [|b rest IH]; cbn; [constructor |].
  destruct (existsb (String.eqb (fst b)) targets && (0 <? snd b)).
  - apply sublist_skip. exact IH.
  - apply sublist_cons. exact IH.
Qed.

Lemma read_csv_input_raises H e :
  read_csv_input H = Raise e ->
  e = Exception "FileNotFoundError" "Input CSV file not found".
Proof.
  unfold read_csv_input, and_then.
  destruct (environ H "INPUT_CSV_PATH") as [p|]; [| intros [= <-]; reflexivity].
  destruct (negb (nonempty p) || negb (path_exists H p));
    [intros [= <-]; reflexivity |].
  destruct (csv_rows H p) as [[|first rest]|]; try discriminate.
  destruct (Py.dict_get "currency" first); [| discriminate].
  destruct (currencies_of (first :: rest)); discriminate.
Qed.

End LedgerFacts.

(** X13: a run of the script that can read its input and write its
    result file exits with 0 and prints one line, the metrics.  In them
    the records processed and the records successful are both the
    number of balances paid out, the records failed are 0, the total is
    the sum of the amounts paid, whatever their currencies, and the
    currencies processed are those of the balances paid: the balances
    of a target currency with a positive amount, each once and in the
    order of the balance, however the input orders or repeats them. *)
Theorem script_counts_what_it_pays :
  forall H targets,
    MockPayout.read_csv_input H = Return targets ->
    Ledger.due targets MockPayout.get_stripe_balance_mock = []
    \/ MockPayout.write_error H = None ->
    let paid := Ledger.due targets MockPayout.get_stripe_balance_mock in
    exists mt,
      MockPayout.exit_code (MockPayout.main H) = 0
      /\ MockPayout.printed (MockPayout.main H)
         = MockPayout.dumps H (PDict mt) +:+ PyStr.nl
      /\ Py.dict_get "recordsProcessed" mt
         = Some (PInt (Z.of_nat (List.length paid)))
      /\ Py.dict_get "recordsSuccessful" mt
         = Some (PInt (Z.of_nat (List.length paid)))
      /\ Py.dict_get "recordsFailed" mt = Some (PInt 0)
      /\ Py.dict_get "totalAmount" mt = Some (PInt (Ledger.total paid))
      /\ Py.dict_get "processedCurrencies" mt
         = Some (PList (List.map (fun b => PStr (fst b)) paid))
      /\ Py.dict_get "targetCurrencies" mt
         = Some (PList (List.map PStr targets))
      /\ Py.dict_get "mocked" mt = Some (PBool true)
      /\ paid `sublist_of` MockPayout.get_stripe_balance_mock.
Proof.
  intros H targets Hread Hwrite paid.
  destruct (LedgerFacts.main_run H targets Hread Hwrite) as (rows & -> & _).
  eexists. split; [reflexivity |]. split; [reflexivity |].
  cbn [Py.dict_get String.eqb Ascii.eqb Bool.eqb MockPayout.results
       MockPayout.successful_payouts MockPayout.failed_payouts
       MockPayout.total_amount_processed].
  repeat (split; [reflexivity |]).
  split.
  - f_equal. f_equal. f_equal. clear. generalize 0%nat.
    induction (Ledger.due targets MockPayout.get_stripe_balance_mock)
      as [|[c a] rest IH]; intros k; [reflexivity |].
    cbn. rewrite IH. reflexivity.
  - repeat (split; [reflexivity |]). apply LedgerFacts.due_sublist.
Qed.

Lemma script_counts_what_it_pays_witness :
  exists mt,
    MockPayout.printed
      (MockPayout.main (Ledger.container (Return Ledger.sample_rows) None))
    = JsonText.dumps (PDict mt) +:+ PyStr.nl
    /\ Py.dict_get "recordsProcessed" mt = Some (PInt 2)
    /\ Py.dict_get "totalAmount" mt = Some (PInt 359610)
    /\ Py.dict_get "processedCurrencies" mt
       = Some (PList [PStr "aed"; PStr "nok"]).
Proof.
  destruct (script_counts_what_it_pays
              (Ledger.container (Return Ledger.sample_rows) None)
              ["nok"; "aed"; "nok"; "sek"])
    as (mt & _ & Hprinted & Hn & _ & _ & Htotal & Hprocessed & _).
  - reflexivity.
  - right. reflexivity.
  - exists mt. split; [exact Hprinted |]. split; [exact Hn |].
    split; [exact Htotal | exact Hprocessed].
Defined.

(** X14: the script writes [/tmp/result.csv] exactly when it has paid
    out at least one balance.  The file then has one row for each
    balance paid, in the order of the balance, with its currency, its
    amount, the status 200 and [Yes]; a run that pays out nothing
    creates no file. *)
Theorem result_file_lists_the_payouts :
  forall H targets,
    MockPayout.read_csv_input H = Return targets ->
    MockPayout.write_error H = None ->
    let paid := Ledger.due targets MockPayout.get_stripe_balance_mock in
    MockPayout.created (MockPayout.main H) = negb (Ledger.is_nil paid)
    /\ (paid = [] -> MockPayout.result_csv (MockPayout.main H) = None)
    /\ (paid <> [] ->
        exists rows,
          MockPayout.result_csv (MockPayout.main H) = Some rows
          /\ List.map Ledger.row_summary rows
             = List.map
                 (fun b => (Some (PStr (fst b)), Some (PInt (snd b)),
                            Some (PInt 200), Some (PStr "Yes")))
                 paid).
Proof.
  intros H targets Hread Hwrite paid.
  destruct (LedgerFacts.main_run H targets Hread (or_intror Hwrite))
    as (rows & -> & Hsum).
  fold paid in Hsum |- *. cbn [MockPayout.created MockPayout.result_csv].
  split; [reflexivity |]. split.
  - intros ->. reflexivity.
  - intros Hpaid. exists rows. split; [| exact Hsum].
    destruct paid; [contradiction | reflexivity].
Qed.

Lemma result_file_lists_the_payouts_witness :
  exists rows,
    MockPayout.result_csv
      (MockPayout.main (Ledger.container (Return Ledger.sample_rows) None))
    = Some rows
    /\ List.map Ledger.row_summary rows
       = [(Some (PStr "aed"), Some (PInt 125043), Some (PInt 200),
           Some (PStr "Yes"));
          (Some (PStr "nok"), Some (PInt 234567), Some (PInt 200),
           Some (PStr "Yes"))].
Proof.
  destruct (result_file_lists_the_payouts
              (Ledger.container (Return Ledger.sample_rows) None)
              ["nok"; "aed"; "nok"; "sek"])
    as (_ & _ & Hrows).
  - reflexivity.
  - reflexivity.
  - apply Hrows. discriminate.
Defined.



Lemma currencies_of_textual (rows : list dict) :
  forallb Ledger.textual rows = true ->
  MockPayout.currencies_of rows = Return (Ledger.named rows).
Proof.
  induction rows as [|row rest IH]; [reflexivity |].
  cbn [forallb]. intros [Hrow Hrest]%andb_prop.
  cbn [MockPayout.currencies_of Ledger.named].
  unfold MockPayout.has_currency, Ledger.textual, Py.subscript in *.
  destruct (Py.dict_get "currency" row) as [[| | | |[|c s]| |]|];
    try discriminate Hrow; cbn; rewrite (IH Hrest); reflexivity.
Qed.

(** X16: [read_csv_input] raises only for a missing input (the variable
    is unset or empty, or names no file), and then the error "Input CSV
    file not found".  For an input file that is there it always returns:
    the six default currencies when the file cannot be read, has no row,
    or has no currency column; and for rows as [csv.DictReader] yields
    them, the currency cells that are not empty, in small letters and in
    the order of the file. *)
Theorem input_decides_the_targets :
  (forall H e,
      MockPayout.read_csv_input H = Raise e <->
      e = Exception "FileNotFoundError" "Input CSV file not found"
      /\ (MockPayout.environ H "INPUT_CSV_PATH" = None
          \/ exists p,
              MockPayout.environ H "INPUT_CSV_PATH" = Some p
              /\ (p = EmptyString \/ MockPayout.path_exists H p = false)))
  /\ (forall H p,
         MockPayout.environ H "INPUT_CSV_PATH" = Some p ->
         p <> EmptyString ->
         MockPayout.path_exists H p = true ->
         (forall first rest,
             MockPayout.csv_rows H p = Return (first :: rest) ->
             Py.dict_get "currency" first = None) ->
         MockPayout.read_csv_input H
         = Return ["aed"; "bhd"; "thb"; "nok"; "qar"; "hkd"])
  /\ (forall H p first rest,
         MockPayout.environ H "INPUT_CSV_PATH" = Some p ->
         p <> EmptyString ->
         MockPayout.path_exists H p = true ->
         MockPayout.csv_rows H p = Return (first :: rest) ->
         Py.dict_get "currency" first <> None ->
         forallb Ledger.textual (first :: rest) = true ->
         MockPayout.read_csv_input H = Return (Ledger.named (first :: rest))).
Proof.
  split; [| split].
  - intros H e. split.
    + intros Hraise.
      split; [exact (LedgerFacts.read_csv_input_raises H e Hraise) |].
      unfold MockPayout.read_csv_input, MockPayout.and_then in Hraise.
      destruct (MockPayout.environ H "INPUT_CSV_PATH") as [p|];
        [| left; reflexivity].
      right. exists p. split; [reflexivity |].
      destruct p as [|c p']; [left; reflexivity |]. right.
      destruct (MockPayout.path_exists H (String c p')); [| reflexivity].
      cbn in Hraise.
      destruct (MockPayout.csv_rows H (String c p')) as [[|first rest]|];
        try discriminate Hraise.
      destruct (Py.dict_get "currency" first); [| discriminate Hraise].
      destruct (MockPayout.currencies_of (first :: rest)); discriminate Hraise.
    + intros [-> [Hnone | (p & Hp & [-> | Hgone])]];
        unfold MockPayout.read_csv_input.
      * rewrite Hnone. reflexivity.
      * rewrite Hp. reflexivity.
      * rewrite Hp, Hgone. rewrite orb_true_r. reflexivity.
  - intros H p Hp Hne Hthere Hrows.
    unfold MockPayout.read_csv_input, MockPayout.and_then.
    rewrite Hp, Hthere.
    destruct p as [|c p']; [contradiction |]. cbn [PyStr.nonempty negb orb].
    destruct (MockPayout.csv_rows H (String c p')) as [[|first rest]|];
      try reflexivity.
    rewrite (Hrows first rest eq_refl). reflexivity.
  - intros H p first rest Hp Hne Hthere Hrows Hcol Htext.
    unfold MockPayout.read_csv_input, MockPayout.and_then.
    rewrite Hp, Hthere, Hrows.
    destruct p as [|c p']; [contradiction |]. cbn [PyStr.nonempty negb orb].
    destruct (Py.dict_get "currency" first); [| contradiction].
    rewrite (currencies_of_textual _ Htext). reflexivity.
Qed.

Lemma input_decides_the_targets_witness :
  MockPayout.read_csv_input (Ledger.container (Return Ledger.sample_rows) None)
  = Return ["nok"; "aed"; "nok"; "sek"].
Proof.
  destruct input_decides_the_targets as (_ & _ & Hnamed).
  apply (Hnamed (Ledger.container (Return Ledger.sample_rows) None)
           World.input
           [("currency", PStr "NOK"); ("limit", PStr "10")]
           [[("currency", PStr "aed"); ("limit", PStr EmptyString)];
            [("currency", PStr EmptyString); ("limit", PStr "5")];
            [("currency", PStr "nok"); ("limit", PStr "7")];
            [("currency", PStr "sek"); ("limit", PStr "1")]]).
  - reflexivity.
  - discriminate.
  - reflexivity.
  - reflexivity.
  - discriminate.
  - reflexivity.
Defined.

(** * The service and its script *)

Lemma last_line_closed (L : string) :
  PyStr.has_nl L = false ->
  PyStr.blank L = false ->
  last_nonempty_line (L +:+ PyStr.nl) = Some L.
Proof.
  intros Hnl Hblank. unfold last_nonempty_line, PyStr.nl.
  rewrite PyStrFacts.split_app, (PyStrFacts.split_one L Hnl).
  destruct L as [|c L']; [discriminate Hblank | reflexivity].
Qed.

Lemma materialize_present E ex m outs m3 :
  "/tmp/result.csv" ∈ fs m ->
  materialize E ex m = (Return outs, m3) ->
  exists ref, outs = [ref].
Proof.
  intros Hin. unfold materialize, bind, os_path_exists.
  rewrite bool_decide_eq_true_2 by exact Hin.
  destruct (upload_result_to_storage E "/tmp/result.csv" ex m)
    as [[ref|e] m'']; [| discriminate].
  intros [= <- <-]. exists ref. reflexivity.
Qed.

Lemma receipts_length H k paid :
  List.length (Ledger.receipts H k paid) = List.length paid.
Proof.
  revert k. induction paid as [|[c a] rest IH]; intros k; [reflexivity |].
  cbn. rewrite IH. reflexivity.
Qed.

Lemma main_report H targets :
  MockPayout.read_csv_input H = Return targets ->
  Ledger.due targets MockPayout.get_stripe_balance_mock = []
  \/ MockPayout.write_error H = None ->
  MockPayout.exit_code (MockPayout.main H) = 0
  /\ MockPayout.printed (MockPayout.main H)
     = MockPayout.dumps H (PDict (Ledger.report H targets)) +:+ PyStr.nl
  /\ MockPayout.created (MockPayout.main H)
     = negb (Ledger.is_nil
               (Ledger.due targets MockPayout.get_stripe_balance_mock)).
Proof.
  intros Hread Hwrite.
  destruct (LedgerFacts.main_run H targets Hread Hwrite) as (rows & -> & _).
  split; [reflexivity |]. split; [| reflexivity].
  cbn [MockPayout.printed]. unfold MockPayout.metrics_record, Ledger.report.
  cbn [MockPayout.results MockPayout.successful_payouts
       MockPayout.failed_payouts MockPayout.total_amount_processed].
  rewrite receipts_length. reflexivity.
Qed.

(** X17: the service run on the payout script.  When the runner has
    launched the script with the input path and the execution id of the
    request, the script has read its input, paid out and written its
    result file within the time limit, and the JSON decoder of the
    service reads back the metrics line that the script's encoder wrote,
    the job is answered as completed with the counters of the script:
    records processed and successful are the number of balances paid
    out, none failed, the total is the sum paid, the job is marked as
    mocked and says so in its message, and the metrics carry the
    execution id of the request; a script that has paid out gives
    exactly one output file. *)
Theorem service_reads_the_script_metrics :
  forall E files d input m1 full H log seconds id targets outs m3,
    request_json E = Return (PDict d) ->
    download_file_from_storage E (field d "fileReference") (parsed files d)
    = (Return input, m1) ->
    Py.os_path_join "/app/scripts" (field d "scriptPath") = Return full ->
    full ∈ fs m1 ->
    field d "executionId" = PStr id ->
    run_child E full input (PStr id) = MockPayout.as_child H log seconds ->
    MockPayout.environ H "INPUT_CSV_PATH" = Some input ->
    MockPayout.environ H "EXECUTION_ID" = Some id ->
    seconds <= 300 ->
    MockPayout.read_csv_input H = Return targets ->
    MockPayout.write_error H = None ->
    PyStr.has_nl (MockPayout.dumps H (PDict (Ledger.report H targets))) = false ->
    record_line E (MockPayout.dumps H (PDict (Ledger.report H targets)))
      (Ledger.report H targets) ->
    materialize E (PStr id)
      (launched m1 full input (PStr id) (MockPayout.as_child H log seconds))
    = (Return outs, m3) ->
    let paid := Ledger.due targets MockPayout.get_stripe_balance_mock in
    let results := success_result (Ledger.report H targets) outs in
    (exists left,
        serve E files
        = (Return (envelope (PStr id) (PStr "completed") results),
           Machine left (frame m3)
             (trace m3
                ++ notified E (field d "callbackUrl") (PStr id)
                     (PStr "completed") results)))
    /\ item results "recordsProcessed" = Some (PInt (Z.of_nat (List.length paid)))
    /\ item results "recordsSuccessful" = Some (PInt (Z.of_nat (List.length paid)))
    /\ item results "recordsFailed" = Some (PInt 0)
    /\ item results "totalAmount" = Some (PInt (Ledger.total paid))
    /\ item results "currency" = Some (PStr "mixed")
    /\ item results "mocked" = Some (PBool true)
    /\ item results "message"
       = Some (PStr ("Processing completed successfully"
                       +:+ " (MOCKED - No real Stripe API calls made)"))
    /\ Py.dict_get "executionId" (Ledger.report H targets)
       = Some (field d "executionId")
    /\ (paid <> [] -> exists ref, outs = [ref]).
Proof.
  intros E files d input m1 full H log seconds id targets outs m3
    Hreq Hd Hj Hin Hid Hchild Hpath Hex Hsec Hread Hwrite Hnl Hrec Hm
    paid results.
  destruct (main_report H targets Hread (or_intror Hwrite))
    as (Hrc & Hout & Hcreated).
  set (c := MockPayout.as_child H log seconds) in *.
  change (returncode c = 0) in Hrc.
  change (stdout c
          = MockPayout.dumps H (PDict (Ledger.report H targets)) +:+ PyStr.nl)
    in Hout.
  assert (execute_script E (field d "scriptPath") input (field d "executionId") m1
          = (Return (exit_outcome c), launched m1 full input (PStr id) c))
    as Hx.
  { rewrite Hid.
    pose proof (execute_script_exit E (field d "scriptPath") input (PStr id)
                  m1 full) as Hexit.
    cbv zeta in Hexit. rewrite Hchild in Hexit. fold c in Hexit.
    apply Hexit; [exact Hj | exact Hin | reflexivity | exact Hsec]. }
  unfold exit_outcome in Hx.
  assert (metrics_of E (stdout c) = PDict (Ledger.report H targets)) as Hmt.
  { apply (metrics_of_last_line E _
             (MockPayout.dumps H (PDict (Ledger.report H targets)))).
    - rewrite Hout. apply last_line_closed; [exact Hnl |].
      destruct Hrec as [Hblank _]. exact Hblank.
    - exact Hrec. }
  split.
  - assert (materialize E (field d "executionId")
              (launched m1 full input (PStr id) c) = (Return outs, m3))
      as Hm' by (rewrite Hid; exact Hm).
    assert (Py.truthy (PBool (returncode c =? 0)) = true) as Hok
        by (unfold Py.truthy; rewrite Hrc; reflexivity).
    destruct (serve_completed E files d input m1 _
                (launched m1 full input (PStr id) c)
                (PBool (returncode c =? 0)) outs m3 (stdout c)
                (Ledger.report H targets) Hreq Hd Hx eq_refl
                Hok Hm' eq_refl Hmt)
      as (left & Hserve & _).
    rewrite Hid in Hserve. exists left. exact Hserve.
  - repeat (split; [reflexivity |]). split.
    + cbn. unfold Ledger.execution. rewrite Hex, Hid. reflexivity.
    + intros Hpaid. apply (materialize_present E (PStr id)
                              (launched m1 full input (PStr id) c) outs m3);
        [| exact Hm].
      unfold launched, c, MockPayout.as_child. cbn. rewrite Hcreated.
      fold paid. destruct paid; [contradiction |]. cbn. set_solver.
Qed.

Lemma service_reads_the_script_metrics_witness :
  exists ref,
    fst (serve
           (World.world (Return (World.request World.hook)) Fetched
              (MockPayout.as_child
                 (Ledger.container (Return Ledger.sample_rows) None)
                 EmptyString 2)
              None (Return 200))
           World.image)
    = Return
        (envelope (PStr "exec-1") (PStr "completed")
           (success_result
              (Ledger.report
                 (Ledger.container (Return Ledger.sample_rows) None)
                 ["nok"; "aed"; "nok"; "sek"])
              [ref])).
Proof.
  destruct (service_reads_the_script_metrics
              (World.world (Return (World.request World.hook)) Fetched
                 (MockPayout.as_child
                    (Ledger.container (Return Ledger.sample_rows) None)
                    EmptyString 2)
                 None (Return 200))
              World.image (World.fields World.hook) World.input
              (Machine ({[World.input]} ∪ World.image)
                 (frame (parsed World.image (World.fields World.hook)))
                 [Fetch (PStr "uploads/in.csv") World.input])
              World.script
              (Ledger.container (Return Ledger.sample_rows) None)
              EmptyString 2 "exec-1" ["nok"; "aed"; "nok"; "sek"]
              [descriptor
                 (World.world (Return (World.request World.hook)) Fetched
                    (MockPayout.as_child
                       (Ledger.container (Return Ledger.sample_rows) None)
                       EmptyString 2)
                    None (Return 200))
                 (PStr "exec-1")
                 "https://storage.example/finance-operations/results/exec-1_20250601_120000_result.csv"
                 512]
              (snd (materialize
                      (World.world (Return (World.request World.hook)) Fetched
                         (MockPayout.as_child
                            (Ledger.container (Return Ledger.sample_rows) None)
                            EmptyString 2)
                         None (Return 200))
                      (PStr "exec-1")
                      (launched
                         (Machine ({[World.input]} ∪ World.image)
                            (frame (parsed World.image
                                      (World.fields World.hook)))
                            [Fetch (PStr "uploads/in.csv") World.input])
                         World.script World.input (PStr "exec-1")
                         (MockPayout.as_child
                            (Ledger.container (Return Ledger.sample_rows) None)
                            EmptyString 2)))))
    as ((left & Hserve) & _).
  - reflexivity.
  - reflexivity.
  - reflexivity.
  - vm_compute. reflexivity.
  - reflexivity.
  - reflexivity.
  - reflexivity.
  - reflexivity.
  - vm_compute. discriminate.
  - reflexivity.
  - reflexivity.
  - vm_compute. reflexivity.
  - repeat split; vm_compute; reflexivity.
  - vm_compute. reflexivity.
  - eexists. rewrite Hserve. reflexivity.
Defined.
